(** * Google Merchant product transformer: a shallow embedding

    The development embeds [GoogleMerchantProductTransformer.transform]
    (dist/transformers/google-merchant-product.transformer.js) and its
    helper methods, together with the typed input records of
    types/transformer-input.ts, and states the properties of the
    specification about them.

    Modelling conventions.
    - The typed entities (shop, feed, product, variant) are records whose
      optional fields are [option]s ([?: T]) or [maybe]s ([?: T | null]).
    - The schema-less [field_mapping] document and the emitted payload are
      JavaScript values ([JsVal]); an object is the association list of its
      own properties in iteration order.
    - A thrown [TypeError] is the [Throw] case of [Result].
    - [new Date().toISOString()] is the explicit parameter [now].
    - The assignment [additionalDetails.certifications = certifications]
      writes into the caller's [field_mapping]; [transform] therefore
      returns the payload together with the input as it is after the call.
    - Strings are sequences of 8-bit code units; case mapping is modelled
      on the ASCII letters.  Numbers are exact decimals [m * 10^e] (with
      [NaN] and the infinities): binary rounding of IEEE doubles is not
      modelled, and the concrete prices used below are dyadic, so that the
      double computation is exact as well. *)

From Stdlib Require Import String Ascii List ZArith Bool Lia DecimalString DecimalPos.
Import ListNotations.
Open Scope string_scope.

(* ------------------------------------------------------------------ *)
(** ** Exceptions *)

Inductive Result (A : Type) : Type :=
| Ok (a : A)
| Throw (msg : string).
Arguments Ok {A} a.
Arguments Throw {A} msg.

Definition bind {A B : Type} (r : Result A) (k : A -> Result B) : Result B :=
  match r with
  | Ok a => k a
  | Throw m => Throw m
  end.

Notation "'let*' x ':=' r 'in' k" := (bind r (fun x => k))
  (at level 10, x pattern, r at level 100, k at level 200).

(* ------------------------------------------------------------------ *)
(** ** Strings *)

Fixpoint drop (n : nat) (s : string) : string :=
  match n, s with
  | O, _ => s
  | S n', String _ s' => drop n' s'
  | S _, EmptyString => EmptyString
  end.

(** First occurrence of [pat] in [s]: the text before it and the text
    after it. *)
Fixpoint find_first (pat s : string) : option (string * string) :=
  if String.prefix pat s then Some (EmptyString, drop (String.length pat) s)
  else match s with
       | EmptyString => None
       | String c s' =>
           match find_first pat s' with
           | Some (b, a) => Some (String c b, a)
           | None => None
           end
       end.

(** [GetSubstitution] for a string pattern (no capture groups): [$$],
    [$&], [$`] and [$'] are expanded, any other [$] stays. *)
Fixpoint getSubstitution (matched before after rep : string) : string :=
  match rep with
  | EmptyString => EmptyString
  | String c tail =>
      if Ascii.eqb c "$" then
        match tail with
        | String d rest =>
            if Ascii.eqb d "$" then String "$" (getSubstitution matched before after rest)
            else if Ascii.eqb d "&" then matched ++ getSubstitution matched before after rest
            else if Ascii.eqb d "`" then before ++ getSubstitution matched before after rest
            else if Ascii.eqb d "'" then after ++ getSubstitution matched before after rest
            else String c (getSubstitution matched before after tail)
        | EmptyString => String c EmptyString
        end
      else String c (getSubstitution matched before after tail)
  end.

(** [String.prototype.replace(pat, rep)] with a string pattern: only the
    first occurrence is replaced. *)
Definition replace (s pat rep : string) : string :=
  match find_first pat s with
  | Some (b, a) => b ++ getSubstitution pat b a rep ++ a
  | None => s
  end.

Fixpoint includes_char (c : ascii) (s : string) : bool :=
  match s with
  | EmptyString => false
  | String d s' => Ascii.eqb c d || includes_char c s'
  end.

Definition is_white_space (c : ascii) : bool :=
  let n := nat_of_ascii c in
  (9 <=? n)%nat && (n <=? 13)%nat || (n =? 32)%nat || (n =? 160)%nat.

Fixpoint trimStart (s : string) : string :=
  match s with
  | EmptyString => EmptyString
  | String c s' => if is_white_space c then trimStart s' else s
  end.

Fixpoint trimEnd (s : string) : string :=
  match s with
  | EmptyString => EmptyString
  | String c s' =>
      match trimEnd s' with
      | EmptyString => if is_white_space c then EmptyString else String c EmptyString
      | t => String c t
      end
  end.

Definition trim (s : string) : string := trimEnd (trimStart s).

Definition is_lower (c : ascii) : bool :=
  let n := nat_of_ascii c in (97 <=? n)%nat && (n <=? 122)%nat.
Definition is_upper (c : ascii) : bool :=
  let n := nat_of_ascii c in (65 <=? n)%nat && (n <=? 90)%nat.
Definition is_alpha (c : ascii) : bool := is_lower c || is_upper c.

Definition upper_char (c : ascii) : ascii :=
  if is_lower c then ascii_of_nat (nat_of_ascii c - 32) else c.
Definition lower_char (c : ascii) : ascii :=
  if is_upper c then ascii_of_nat (nat_of_ascii c + 32) else c.

Fixpoint map_string (f : ascii -> ascii) (s : string) : string :=
  match s with
  | EmptyString => EmptyString
  | String c s' => String (f c) (map_string f s')
  end.

Definition toUpperCase : string -> string := map_string upper_char.
Definition toLowerCase : string -> string := map_string lower_char.

Fixpoint all_chars (p : ascii -> bool) (s : string) : bool :=
  match s with
  | EmptyString => true
  | String c s' => p c && all_chars p s'
  end.

Definition is_digit (c : ascii) : bool :=
  let n := nat_of_ascii c in (48 <=? n)%nat && (n <=? 57)%nat.

(** [Array.prototype.join] on strings already converted. *)
Fixpoint join (sep : string) (l : list string) : string :=
  match l with
  | [] => EmptyString
  | [x] => x
  | x :: rest => x ++ sep ++ join sep rest
  end.

Definition nat_to_string (n : nat) : string :=
  NilZero.string_of_uint (Nat.to_uint n).

Fixpoint repeat_char (c : ascii) (n : nat) : string :=
  match n with
  | O => EmptyString
  | S n' => String c (repeat_char c n')
  end.

Fixpoint take (n : nat) (s : string) : string :=
  match n, s with
  | O, _ => EmptyString
  | S n', String c s' => String c (take n' s')
  | S _, EmptyString => EmptyString
  end.

(* ------------------------------------------------------------------ *)
(** ** Numbers *)

(** A JavaScript number: [Dec m e] is [m * 10^e]. *)
Inductive number : Type :=
| NaN
| Infinity (negative : bool)
| Dec (m e : Z).

Definition num_truthy (x : number) : bool :=
  match x with
  | NaN => false
  | Infinity _ => true
  | Dec m _ => negb (m =? 0)%Z
  end.

Definition num_mul (a b : number) : number :=
  match a, b with
  | NaN, _ | _, NaN => NaN
  | Infinity s, Infinity t => Infinity (xorb s t)
  | Infinity s, Dec m _ | Dec m _, Infinity s =>
      if (m =? 0)%Z then NaN else Infinity (xorb s (m <? 0)%Z)
  | Dec m1 e1, Dec m2 e2 => Dec (m1 * m2) (e1 + e2)
  end.

Definition million : number := Dec 1000000 0.

(** [Math.round]: the integer nearest to [x], ties towards +infinity. *)
Definition math_round (x : number) : number :=
  match x with
  | Dec m e =>
      if (0 <=? e)%Z then x
      else let p := (10 ^ (- e))%Z in Dec ((2 * m + p) / (2 * p)) 0
  | _ => x
  end.

Definition isNaN (x : number) : bool :=
  match x with NaN => true | _ => false end.

(** The digits of [s] without its trailing zeros, and how many were
    removed. *)
Fixpoint strip_zeros (s : string) : string * nat :=
  match s with
  | EmptyString => (EmptyString, O)
  | String c s' =>
      match strip_zeros s' with
      | (EmptyString, k) =>
          if Ascii.eqb c "0" then (EmptyString, S k) else (String c EmptyString, k)
      | (t, k) => (String c t, k)
      end
  end.

Definition Z_to_string (z : Z) : string := NilZero.string_of_int (Z.to_int z).

(** [Number::toString] (radix 10) of the positive number [digits * 10^e],
    where [digits] has no trailing zero: with [k] digits and
    [n = k + e], plain digits for [k <= n <= 21], a decimal point inside
    for [0 < n < k], leading [0.] for [-6 < n <= 0], and exponent
    notation otherwise. *)
Definition positive_to_string (digits : string) (e : Z) : string :=
  let k := Z.of_nat (String.length digits) in
  let n := (k + e)%Z in
  if ((k <=? n) && (n <=? 21))%Z then digits ++ repeat_char "0" (Z.to_nat (n - k))
  else if ((0 <? n) && (n <=? 21))%Z then
    take (Z.to_nat n) digits ++ "." ++ drop (Z.to_nat n) digits
  else if ((-6 <? n) && (n <=? 0))%Z then
    "0." ++ repeat_char "0" (Z.to_nat (- n)) ++ digits
  else
    let ex := (n - 1)%Z in
    let exs := (if (ex <? 0)%Z then "-" else "+") ++ Z_to_string (Z.abs ex) in
    match digits with
    | String d EmptyString => String d ("e" ++ exs)
    | _ => take 1 digits ++ "." ++ drop 1 digits ++ "e" ++ exs
    end.

Definition number_to_string (x : number) : string :=
  match x with
  | NaN => "NaN"
  | Infinity false => "Infinity"
  | Infinity true => "-Infinity"
  | Dec m e =>
      if (m =? 0)%Z then "0"
      else
        let '(ds, z) := strip_zeros (Z_to_string (Z.abs m)) in
        (if (m <? 0)%Z then "-" else "") ++ positive_to_string ds (e + Z.of_nat z)
  end.

(** *** parseFloat *)

Fixpoint span_digits (s : string) : string * string :=
  match s with
  | EmptyString => (EmptyString, EmptyString)
  | String c s' =>
      if is_digit c then let '(d, r) := span_digits s' in (String c d, r)
      else (EmptyString, s)
  end.

Fixpoint digits_value (acc : Z) (s : string) : Z :=
  match s with
  | EmptyString => acc
  | String c s' => digits_value (10 * acc + Z.of_nat (nat_of_ascii c - 48)) s'
  end.

Definition parse_sign (s : string) : bool * string :=
  match s with
  | String c s' =>
      if Ascii.eqb c "-" then (true, s')
      else if Ascii.eqb c "+" then (false, s')
      else (false, s)
  | EmptyString => (false, s)
  end.

(** The exponent part [e[+-]digits], when the text starts with one. *)
Definition parse_exponent (s : string) : Z :=
  match s with
  | String c s' =>
      if Ascii.eqb c "e" || Ascii.eqb c "E" then
        let '(neg, r) := parse_sign s' in
        let '(d, _) := span_digits r in
        match d with
        | EmptyString => 0%Z
        | _ => if neg then (- digits_value 0 d)%Z else digits_value 0 d
        end
      else 0%Z
  | EmptyString => 0%Z
  end.

(** [parseFloat] of a string: leading white space is skipped and the
    longest prefix that is a decimal literal is read; [NaN] when there is
    none. *)
Definition parseFloat (input : string) : number :=
  let '(neg, s) := parse_sign (trimStart input) in
  if String.prefix "Infinity" s then Infinity neg
  else
    let '(ip, r1) := span_digits s in
    let '(fp, r2) :=
      match r1 with
      | String c r =>
          if Ascii.eqb c "." then span_digits r else (EmptyString, r1)
      | EmptyString => (EmptyString, r1)
      end in
    match ip ++ fp with
    | EmptyString => NaN
    | ds =>
        let m := digits_value 0 ds in
        Dec (if neg then (- m)%Z else m)
            (parse_exponent r2 - Z.of_nat (String.length fp))
    end.

(** *** StringToNumber (the conversion applied by [>] to a string) *)

Definition hex_digit_value (c : ascii) : option Z :=
  let n := nat_of_ascii c in
  if is_digit c then Some (Z.of_nat (n - 48))
  else if ((97 <=? n) && (n <=? 102))%nat then Some (Z.of_nat (n - 87))
  else if ((65 <=? n) && (n <=? 70))%nat then Some (Z.of_nat (n - 55))
  else None.

Fixpoint radix_value (radix acc : Z) (s : string) : option Z :=
  match s with
  | EmptyString => Some acc
  | String c s' =>
      match hex_digit_value c with
      | Some d => if (d <? radix)%Z then radix_value radix (radix * acc + d) s' else None
      | None => None
      end
  end.

(** What remains of [s] after an exponent part, if it starts with one. *)
Definition skip_exponent (s : string) : string :=
  match s with
  | String c s' =>
      if Ascii.eqb c "e" || Ascii.eqb c "E" then
        let '(_, r) := parse_sign s' in
        match span_digits r with
        | (EmptyString, _) => s
        | (_, rest) => rest
        end
      else s
  | EmptyString => s
  end.

(** Whether the whole of [s] is a decimal literal ([parseFloat] reads a
    prefix only). *)
Definition is_decimal_literal (s : string) : bool :=
  let '(_, s1) := parse_sign s in
  if String.eqb s1 "Infinity" then true
  else
    let '(ip, r1) := span_digits s1 in
    let '(fp, r2) :=
      match r1 with
      | String c r =>
          if Ascii.eqb c "." then span_digits r else (EmptyString, r1)
      | EmptyString => (EmptyString, r1)
      end in
    match ip ++ fp with
    | EmptyString => false
    | _ => String.eqb (skip_exponent r2) EmptyString
    end.

Definition radix_literal (radix : Z) (body : string) : number :=
  match body with
  | EmptyString => NaN
  | _ => match radix_value radix 0 body with
         | Some v => Dec v 0
         | None => NaN
         end
  end.

Definition string_to_number (input : string) : number :=
  let s := trim input in
  match s with
  | EmptyString => Dec 0 0
  | String "0" (String c body) =>
      if Ascii.eqb c "x" || Ascii.eqb c "X" then radix_literal 16 body
      else if Ascii.eqb c "o" || Ascii.eqb c "O" then radix_literal 8 body
      else if Ascii.eqb c "b" || Ascii.eqb c "B" then radix_literal 2 body
      else if is_decimal_literal s then parseFloat s else NaN
  | _ => if is_decimal_literal s then parseFloat s else NaN
  end.

(* ------------------------------------------------------------------ *)
(** ** JavaScript values *)

#[local] Set Warnings "-register-all".
Inductive JsVal : Type :=
| JUndefined
| JNull
| JBool (b : bool)
| JNum (n : number)
| JStr (s : string)
| JArr (items : list JsVal)
| JObj (props : list (string * JsVal)).

Definition truthy (v : JsVal) : bool :=
  match v with
  | JUndefined | JNull => false
  | JBool b => b
  | JNum n => num_truthy n
  | JStr s => negb (String.eqb s EmptyString)
  | JArr _ | JObj _ => true
  end.

(** [a || b] *)
Definition js_or (a b : JsVal) : JsVal := if truthy a then a else b.

(** [ToString] *)
Fixpoint to_string (v : JsVal) : string :=
  match v with
  | JUndefined => "undefined"
  | JNull => "null"
  | JBool true => "true"
  | JBool false => "false"
  | JNum n => number_to_string n
  | JStr s => s
  | JArr l =>
      join "," (map (fun x => match x with
                              | JUndefined | JNull => EmptyString
                              | _ => to_string x
                              end) l)
  | JObj _ => "[object Object]"
  end.

(** [Array.prototype.join(sep)] *)
Definition array_join (sep : string) (l : list JsVal) : string :=
  join sep (map (fun x => match x with
                          | JUndefined | JNull => EmptyString
                          | _ => to_string x
                          end) l).

(** [ToNumber] *)
Definition to_number (v : JsVal) : number :=
  match v with
  | JUndefined => NaN
  | JNull => Dec 0 0
  | JBool true => Dec 1 0
  | JBool false => Dec 0 0
  | JNum n => n
  | JStr s => string_to_number s
  | JArr _ => string_to_number (to_string v)
  | JObj _ => NaN
  end.

(** [v > 0] *)
Definition gt_zero (v : JsVal) : bool :=
  match to_number v with
  | Dec m _ => (0 <? m)%Z
  | Infinity neg => negb neg
  | NaN => false
  end.

(** Strict equality with a string constant: [v === s]. *)
Definition is_str (v : JsVal) (s : string) : bool :=
  match v with
  | JStr t => String.eqb t s
  | _ => false
  end.

Fixpoint lookup (k : string) (ps : list (string * JsVal)) : option JsVal :=
  match ps with
  | [] => None
  | (k', v) :: rest => if String.eqb k k' then Some v else lookup k rest
  end.

(** Assignment [o.k = v] on a property list: an existing property keeps
    its place, a new one is added last. *)
Fixpoint assign (k : string) (v : JsVal) (ps : list (string * JsVal))
  : list (string * JsVal) :=
  match ps with
  | [] => [(k, v)]
  | (k', v') :: rest =>
      if String.eqb k k' then (k, v) :: rest else (k', v') :: assign k v rest
  end.

(** Property read [v.k] for the property names the transformer uses
    (none of them is defined on the prototypes of strings, arrays,
    numbers or booleans).  Every read in the source is made on a value
    already tested truthy, or through [?.], so the receiver is never
    [null] or [undefined] where this is used. *)
Definition get (v : JsVal) (k : string) : JsVal :=
  match v with
  | JObj ps => match lookup k ps with Some x => x | None => JUndefined end
  | _ => JUndefined
  end.

(** Unguarded property read: throws on [null] and [undefined]. *)
Definition get_checked (v : JsVal) (k : string) : Result JsVal :=
  match v with
  | JUndefined | JNull => Throw "TypeError: cannot read properties of null or undefined"
  | _ => Ok (get v k)
  end.

(** Property write [o.k = v]; only objects are ever written to. *)
Definition set (k : string) (v : JsVal) (o : JsVal) : JsVal :=
  match o with
  | JObj ps => JObj (assign k v ps)
  | _ => o
  end.

(** [v.length] *)
Definition get_length (v : JsVal) : JsVal :=
  match v with
  | JArr l => JNum (Dec (Z.of_nat (List.length l)) 0)
  | JStr s => JNum (Dec (Z.of_nat (String.length s)) 0)
  | _ => get v "length"
  end.

Fixpoint indexed {A : Type} (i : nat) (l : list A) : list (string * A) :=
  match l with
  | [] => []
  | x :: rest => (nat_to_string i, x) :: indexed (S i) rest
  end.

Fixpoint chars (s : string) : list JsVal :=
  match s with
  | EmptyString => []
  | String c s' => JStr (String c EmptyString) :: chars s'
  end.

(** [Object.entries(v)] *)
Definition object_entries (v : JsVal) : list (string * JsVal) :=
  match v with
  | JObj ps => ps
  | JArr l => indexed 0 l
  | JStr s => indexed 0 (chars s)
  | _ => []
  end.

(** The values a [for ... of] loop visits; a non-iterable throws. *)
Definition iterate (v : JsVal) : Result (list JsVal) :=
  match v with
  | JArr l => Ok l
  | JStr s => Ok (chars s)
  | _ => Throw "TypeError: value is not iterable"
  end.

(** Receiver of a string method: anything but a string has no such
    method. *)
Definition as_string (v : JsVal) : Result string :=
  match v with
  | JStr s => Ok s
  | _ => Throw "TypeError: not a function"
  end.

Definition of_option {A : Type} (inj : A -> JsVal) (o : option A) : JsVal :=
  match o with
  | Some a => inj a
  | None => JUndefined
  end.

(** An optional, nullable field [?: T | null]. *)
Inductive maybe (A : Type) : Type :=
| Undefined
| Null
| Just (a : A).
Arguments Undefined {A}.
Arguments Null {A}.
Arguments Just {A} a.

Definition of_maybe {A : Type} (inj : A -> JsVal) (o : maybe A) : JsVal :=
  match o with
  | Just a => inj a
  | Null => JNull
  | Undefined => JUndefined
  end.

(* ------------------------------------------------------------------ *)
(** ** The tracking token: [encryptToString] *)

Definition backslash : ascii := ascii_of_nat 92.
Definition double_quote : ascii := ascii_of_nat 34.

Definition hex_char (n : nat) : ascii :=
  if (n <? 10)%nat then ascii_of_nat (48 + n) else ascii_of_nat (87 + n).

Definition escaped (c : ascii) : string := String backslash (String c EmptyString).

(** [JSON.stringify] of a string: the quoted text with its escapes. *)
Fixpoint json_escape (s : string) : string :=
  match s with
  | EmptyString => EmptyString
  | String c s' =>
      let n := nat_of_ascii c in
      (if ((n =? 34) || (n =? 92))%nat then escaped c
       else if (n =? 8)%nat then escaped "b"
       else if (n =? 9)%nat then escaped "t"
       else if (n =? 10)%nat then escaped "n"
       else if (n =? 12)%nat then escaped "f"
       else if (n =? 13)%nat then escaped "r"
       else if (n <? 32)%nat then
         escaped "u" ++ "00"
           ++ String (hex_char (n / 16)) (String (hex_char (n mod 16)) EmptyString)
       else String c EmptyString) ++ json_escape s'
  end.

Definition json_string (s : string) : string :=
  String double_quote (json_escape s ++ String double_quote EmptyString).

(** [Buffer.from(text)]: the UTF-8 bytes of the code units. *)
Fixpoint utf8_bytes (s : string) : list nat :=
  match s with
  | EmptyString => []
  | String c s' =>
      let n := nat_of_ascii c in
      if (n <? 128)%nat then n :: utf8_bytes s'
      else (192 + n / 64)%nat :: (128 + n mod 64)%nat :: utf8_bytes s'
  end.

Definition base64_alphabet : string :=
  "ABCDEFGHIJKLMNOPQRSTUVWXYZabcdefghijklmnopqrstuvwxyz0123456789+/".

Definition base64_char (n : nat) : ascii :=
  match String.get n base64_alphabet with
  | Some c => c
  | None => "="%char
  end.

Fixpoint base64 (bytes : list nat) : string :=
  match bytes with
  | [] => EmptyString
  | [a] =>
      String (base64_char (a / 4))
        (String (base64_char ((a mod 4) * 16)) "==")
  | [a; b] =>
      String (base64_char (a / 4))
        (String (base64_char ((a mod 4) * 16 + b / 16))
           (String (base64_char ((b mod 16) * 4)) "="))
  | a :: b :: c :: rest =>
      String (base64_char (a / 4))
        (String (base64_char ((a mod 4) * 16 + b / 16))
           (String (base64_char ((b mod 16) * 4 + c / 64))
              (String (base64_char (c mod 64)) (base64 rest))))
  end.

(** [encryptToString({feedId, shopId, createdAt})] *)
Definition encryptToString (feedId shopId createdAt : string) : string :=
  base64 (utf8_bytes
    ("{" ++ json_string "feedId" ++ ":" ++ json_string feedId ++ ","
         ++ json_string "shopId" ++ ":" ++ json_string shopId ++ ","
         ++ json_string "createdAt" ++ ":" ++ json_string createdAt ++ "}")).

(* ------------------------------------------------------------------ *)
(** ** The input records (types/transformer-input.ts) *)

Record TransformerShop : Type := {
  shop_name : maybe string;
  shop_domain : maybe string
}.

Record FeedAccount : Type := {
  account_id : option string
}.

Record FeedGoogleMerchantCenter : Type := {
  gmc_account : option FeedAccount;
  gmc_product_category_id : option (number + string)
}.

Record TransformerFeedMetadata : Type := {
  feed_google_merchant_center : option FeedGoogleMerchantCenter
}.

Record ProductSettings : Type := {
  ps_product_id : option string;
  ps_product_title : option string;
  ps_product_description : option string;
  ps_brand_submission : option string;
  ps_product_identifier : option string;
  ps_enable_sale_price : option bool
}.

Record Tracking : Type := {
  utm_source : option string;
  utm_medium : option string;
  utm_campaign : option string
}.

Record Inventory : Type := {
  inventory_type : option string;
  inventory_custom_setting : option string
}.

Record TransformerFeed : Type := {
  feed_id : string;
  feed_shop_id : string;
  feed_language : string;
  feed_market : string;
  feed_currency : string;
  feed_product_settings : option ProductSettings;
  feed_metadata : option TransformerFeedMetadata;
  feed_tracking : option Tracking;
  feed_inventory : option Inventory
}.

Record Category : Type := {
  category_name : option string;
  category_full_name : option string
}.

Record Collection : Type := {
  collection_title : option string
}.

Record Seo : Type := {
  seo_title : option string;
  seo_description : option string
}.

Record TransformerProduct : Type := {
  product_title : option string;
  product_description : option string;
  product_vendor : maybe string;
  product_handle : option string;
  product_product_type : option string;
  product_category : option Category;
  product_collections : option (option (list Collection));
  product_tags : option (option (list string));
  product_seo : maybe Seo
}.

Record TransformerProductVariant : Type := {
  variant_id : string;
  variant_title : option string;
  variant_display_name : option string;
  variant_sku : maybe string;
  variant_barcode : maybe string;
  variant_price : option number;
  variant_compare_at_price : maybe number
}.

(** [fpv_offer_id] is [metadata?.google_merchant_center?.offer_id]. *)
Record TransformerFeedProductVariant : Type := {
  fpv_product_id : string;
  fpv_variant_id : string;
  fpv_field_mapping : JsVal;
  fpv_offer_id : option string
}.

Record GoogleMerchantProductTransformInput : Type := {
  shop : TransformerShop;
  feed : TransformerFeed;
  product : TransformerProduct;
  variant : TransformerProductVariant;
  mainImage : option string;
  feedProductVariant : TransformerFeedProductVariant
}.

(** The constants of types/transformer-input.js. *)
Module BRAND_SOURCE_TYPES.
Definition VENDOR := "vendor".
Definition STORE_NAME := "store_name".
Definition PRIMARY_DOMAIN := "primary_domain".
End BRAND_SOURCE_TYPES.
Module PRICE_TYPES.
Definition PRICE := "price".
Definition COMPARE_AT_PRICE := "compare_at_price".
End PRICE_TYPES.
Module PRODUCT_TYPE_FIELDS.
Definition PRODUCT_TYPE := "product_type".
Definition CATEGORY_NAME := "category_name".
Definition CATEGORY_FULLNAME := "category_fullname".
Definition COLLECTIONS := "collections".
Definition TAGS := "tags".
End PRODUCT_TYPE_FIELDS.
Module PRODUCT_URL_SOURCE_TYPES.
Definition PRODUCT_URL := "product_url".
Definition PRODUCT_CHECKOUT_URL := "product_checkout_url".
Definition CANONICAL_URL := "canonical_url".
End PRODUCT_URL_SOURCE_TYPES.
Module PRODUCT_IDENTIFIER_TYPES.
Definition NO := "no".
Definition GTIN := "gtin".
Definition MPN := "mpn".
End PRODUCT_IDENTIFIER_TYPES.
Module INVENTORY_TYPES.
Definition SHOPIFY_INVENTORY := "shopify_inventory".
Definition OUT_OF_STOCK := "out_of_stock".
Definition CUSTOM := "custom".
End INVENTORY_TYPES.

(* ------------------------------------------------------------------ *)
(** ** Small operators on the typed fields *)

(** [x || d] for an optional string. *)
Definition or_else (o : option string) (d : string) : string :=
  match o with
  | Some s => if String.eqb s EmptyString then d else s
  | None => d
  end.

Definition maybe_or_else (o : maybe string) (d : string) : string :=
  match o with
  | Just s => if String.eqb s EmptyString then d else s
  | _ => d
  end.

(** [x || 0] for a number. *)
Definition or_zero (o : option number) : number :=
  match o with
  | Some n => if num_truthy n then n else Dec 0 0
  | None => Dec 0 0
  end.

Definition to_option {A : Type} (o : maybe A) : option A :=
  match o with
  | Just a => Some a
  | _ => None
  end.

(** [feed.product_settings?.f] *)
Definition setting {A : Type} (f : ProductSettings -> option A) (fd : TransformerFeed)
  : option A :=
  match feed_product_settings fd with
  | Some ps => f ps
  | None => None
  end.

Definition with_field_mapping (fpv : TransformerFeedProductVariant) (fm : JsVal)
  : TransformerFeedProductVariant :=
  {| fpv_product_id := fpv_product_id fpv;
     fpv_variant_id := fpv_variant_id fpv;
     fpv_field_mapping := fm;
     fpv_offer_id := fpv_offer_id fpv |}.

(** [typeof v === 'object'] *)
Definition is_null (v : JsVal) : bool :=
  match v with JNull => true | _ => false end.

Definition typeof_object (v : JsVal) : bool :=
  match v with
  | JObj _ | JArr _ | JNull => true
  | _ => false
  end.

(** [if (o.k) { o.k = o.k; }] *)
Definition rewrite_own (k : string) (o : JsVal) : JsVal :=
  if truthy (get o k) then set k (get o k) o else o.

(** [if (c) o.k = v] *)
Definition set_if (c : bool) (k : string) (v : JsVal) (o : JsVal) : JsVal :=
  if c then set k v o else o.

(* ------------------------------------------------------------------ *)
(** ** The methods of [GoogleMerchantProductTransformer] *)

Definition getItemGroupId (fpv : TransformerFeedProductVariant) : Result string :=
  let itemGroupId := fpv_product_id fpv in
  let fieldMapping := fpv_field_mapping fpv in
  if truthy (get fieldMapping "product_details") then
    let productDetails := get fieldMapping "product_details" in
    if truthy (get productDetails "item_group_id") then
      let* template := as_string (get productDetails "item_group_id") in
      Ok (replace (replace template "{{product_id}}" (fpv_product_id fpv))
                  "{{variant_id}}" (fpv_variant_id fpv))
    else Ok itemGroupId
  else Ok itemGroupId.

Definition getProductId (fd : TransformerFeed) (fpv : TransformerFeedProductVariant)
  : string :=
  if truthy (of_option JStr (fpv_offer_id fpv)) then
    or_else (fpv_offer_id fpv) EmptyString
  else
    let productId := setting ps_product_id fd in
    let productId :=
      match productId with
      | Some s =>
          if truthy (JStr s) then
            let s := replace s "{{shop_id}}" (feed_shop_id fd) in
            let s := replace s "{{product_id}}" (fpv_product_id fpv) in
            let s := replace s "{{variant_id}}" (fpv_variant_id fpv) in
            Some s
          else Some s
      | None => None
      end in
    or_else productId EmptyString.

(** [product?.seo && typeof product.seo === 'object' && product.seo !== null
     ? product.seo.f || '' : ''] *)
Definition seo_field (f : Seo -> option string) (p : TransformerProduct) : string :=
  match product_seo p with
  | Just seo => or_else (f seo) EmptyString
  | _ => EmptyString
  end.

Definition getTitle (fd : TransformerFeed) (p : TransformerProduct)
    (v : TransformerProductVariant) (fpv : TransformerFeedProductVariant)
  : Result string :=
  let title := JStr (or_else (setting ps_product_title fd) EmptyString) in
  let title :=
    if truthy (fpv_field_mapping fpv) then
      let fieldMapping := fpv_field_mapping fpv in
      if truthy (get fieldMapping "product_details") then
        let productDetails := get fieldMapping "product_details" in
        if truthy (get productDetails "product_title")
        then get productDetails "product_title" else title
      else title
    else title in
  let* t := as_string title in
  let t := replace t "{{product_title}}" (or_else (product_title p) EmptyString) in
  let t := replace t "{{variant_title}}" (or_else (variant_title v) EmptyString) in
  let t := replace t "{{display_name}}"
             (or_else (variant_display_name v) (or_else (product_title p) EmptyString)) in
  let t := replace t "{{seo_title}}" (seo_field seo_title p) in
  let t := replace t "{{sku}}" (maybe_or_else (variant_sku v) EmptyString) in
  let t := replace t "{{barcode}}" (maybe_or_else (variant_barcode v) EmptyString) in
  Ok t.

Definition getDescription (fd : TransformerFeed) (p : TransformerProduct)
    (v : TransformerProductVariant) (fpv : TransformerFeedProductVariant)
  : Result string :=
  let description := JStr (or_else (setting ps_product_description fd) EmptyString) in
  let description :=
    if truthy (fpv_field_mapping fpv) then
      let fieldMapping := fpv_field_mapping fpv in
      if truthy (get fieldMapping "product_details") then
        let productDetails := get fieldMapping "product_details" in
        if truthy (get productDetails "description")
        then get productDetails "description" else description
      else description
    else description in
  let* t := as_string description in
  let t := replace t "{{description}}" (or_else (product_description p) EmptyString) in
  let t := replace t "{{seo_description}}" (seo_field seo_description p) in
  Ok t.

Definition getAccountId (fd : TransformerFeed) : string :=
  match feed_metadata fd with
  | Some metadata =>
      match feed_google_merchant_center metadata with
      | Some gmc =>
          match gmc_account gmc with
          | Some acc => or_else (account_id acc) EmptyString
          | None => EmptyString
          end
      | None => EmptyString
      end
  | None => EmptyString
  end.

Definition getPriceAmountMicros (p : TransformerProduct) (v : TransformerProductVariant)
    (fpv : TransformerFeedProductVariant) : string :=
  let priceAmountMicros := Dec 0 0 in
  let priceType := JStr "price" in
  let priceType :=
    if truthy (fpv_field_mapping fpv) then
      let fieldMapping := fpv_field_mapping fpv in
      if truthy (get fieldMapping "product_details") then
        let productDetails := get fieldMapping "product_details" in
        let pca := get productDetails "price_condition_availability" in
        if truthy pca && typeof_object pca && negb (is_null pca)
           && truthy (get pca "price")
        then get pca "price" else priceType
      else priceType
    else priceType in
  let priceAmountMicros :=
    if is_str priceType "price" then
      match variant_price v with
      | Some n => if num_truthy n then n else priceAmountMicros
      | None => priceAmountMicros
      end
    else if is_str priceType "compare_at_price" then
      match variant_compare_at_price v with
      | Just n => if num_truthy n then n else priceAmountMicros
      | _ => priceAmountMicros
      end
    else priceAmountMicros in
  number_to_string (num_mul priceAmountMicros million).

Definition getBrand (fd : TransformerFeed) (sh : TransformerShop) (p : TransformerProduct)
    (fpv : TransformerFeedProductVariant) : JsVal :=
  let brand := JNull in
  let brandSource := js_or (of_option JStr (setting ps_brand_submission fd)) JNull in
  let brandSource :=
    if truthy (fpv_field_mapping fpv) then
      let fieldMapping := fpv_field_mapping fpv in
      if truthy (get fieldMapping "product_details") then
        let productDetails := get fieldMapping "product_details" in
        if truthy (get productDetails "brand")
        then get productDetails "brand" else brandSource
      else brandSource
    else brandSource in
  let brand :=
    if truthy brandSource then
      if is_str brandSource BRAND_SOURCE_TYPES.VENDOR then
        js_or (of_maybe JStr (product_vendor p)) JNull
      else if is_str brandSource BRAND_SOURCE_TYPES.STORE_NAME then
        js_or (of_maybe JStr (shop_name sh)) JNull
      else if is_str brandSource BRAND_SOURCE_TYPES.PRIMARY_DOMAIN then
        js_or (of_maybe JStr (shop_domain sh)) JNull
      else JNull
    else brand in
  js_or brand JNull.

Definition getIdentifierExists (fpv : TransformerFeedProductVariant) : JsVal :=
  let identifierExists := JBool false in
  if truthy (fpv_field_mapping fpv) then
    let fieldMapping := fpv_field_mapping fpv in
    if truthy (get fieldMapping "product_details") then
      let productDetails := get fieldMapping "product_details" in
      if truthy (get productDetails "product_identifier")
      then get productDetails "product_identifier" else identifierExists
    else identifierExists
  else identifierExists.

Definition replaceTemplateVariables (template : JsVal) (v : TransformerProductVariant)
    (fpv : TransformerFeedProductVariant) : Result string :=
  let* t := as_string template in
  let t := replace t "{{barcode}}" (maybe_or_else (variant_barcode v) EmptyString) in
  let t := replace t "{{sku}}" (maybe_or_else (variant_sku v) EmptyString) in
  let t := replace t "{{product_id}}" (fpv_product_id fpv) in
  let t := replace t "{{variant_id}}" (fpv_variant_id fpv) in
  Ok t.

(** [template && template.trim() !== ''] for a template that is either
    [undefined] or a string. *)
Definition valid_template (t : option string) : bool :=
  match t with
  | Some s => negb (String.eqb s EmptyString) && negb (String.eqb (trim s) EmptyString)
  | None => false
  end.

Definition getGtinsMpn (fd : TransformerFeed) (v : TransformerProductVariant)
    (fpv : TransformerFeedProductVariant) : Result JsVal :=
  if negb (truthy (getIdentifierExists fpv)) then Ok JNull
  else
    let productIdentifierType := setting ps_product_identifier fd in
    if negb (truthy (of_option JStr productIdentifierType))
       || is_str (of_option JStr productIdentifierType) PRODUCT_IDENTIFIER_TYPES.NO
    then Ok JNull
    else
      let fieldMapping := fpv_field_mapping fpv in
      let productDetails := get fieldMapping "product_details" in
      let* gtinTemplate :=
        if truthy (get productDetails "gtin") then
          let* t := replaceTemplateVariables (get productDetails "gtin") v fpv in Ok (Some t)
        else Ok None in
      let* mpnTemplate :=
        if truthy (get productDetails "mpn") then
          let* t := replaceTemplateVariables (get productDetails "mpn") v fpv in Ok (Some t)
        else Ok None in
      let validGtins :=
        if valid_template gtinTemplate then [of_option JStr gtinTemplate] else [] in
      let validMpn :=
        if valid_template mpnTemplate then of_option JStr mpnTemplate else JUndefined in
      if is_str (of_option JStr productIdentifierType) PRODUCT_IDENTIFIER_TYPES.GTIN then
        Ok (if (0 <? List.length validGtins)%nat
            then JObj [("gtins", JArr validGtins); ("mpn", JNull)]
            else JNull)
      else if is_str (of_option JStr productIdentifierType) PRODUCT_IDENTIFIER_TYPES.MPN then
        Ok (if truthy validMpn
            then JObj [("gtins", JNull); ("mpn", validMpn)]
            else JNull)
      else Ok JNull.

(** [list.push(x)] *)
Definition push {A : Type} (x : A) (l : list A) : list A := List.app l [x].

Definition push_if {A : Type} (c : bool) (x : A) (l : list A) : list A :=
  if c then push x l else l.

Definition addUtmParameters (now : string) (link : string) (fd : TransformerFeed)
    (fpv : TransformerFeedProductVariant) : string :=
  let utmParameters : list string := [] in
  let utmParameters :=
    match feed_tracking fd with
    | Some tracking =>
        let u := push_if (truthy (of_option JStr (utm_source tracking)))
                   ("utm_source=" ++ to_string (of_option JStr (utm_source tracking)))
                   utmParameters in
        let u := push_if (truthy (of_option JStr (utm_medium tracking)))
                   ("utm_medium=" ++ to_string (of_option JStr (utm_medium tracking))) u in
        push_if (truthy (of_option JStr (utm_campaign tracking)))
          ("utm_campaign=" ++ to_string (of_option JStr (utm_campaign tracking))) u
    | None => utmParameters
    end in
  let utmParameters :=
    if truthy (fpv_field_mapping fpv) then
      let fieldMapping := fpv_field_mapping fpv in
      if truthy (get fieldMapping "links") then
        let links := get fieldMapping "links" in
        let u := push_if (truthy (get links "utm_source"))
                   ("utm_source=" ++ to_string (get links "utm_source")) utmParameters in
        let u := push_if (truthy (get links "utm_medium"))
                   ("utm_medium=" ++ to_string (get links "utm_medium")) u in
        push_if (truthy (get links "utm_campaign"))
          ("utm_campaign=" ++ to_string (get links "utm_campaign")) u
      else utmParameters
    else utmParameters in
  let utmParameters :=
    push ("fdclid=" ++ encryptToString (feed_id fd) (feed_shop_id fd) now)
      utmParameters in
  if includes_char "?" link then link ++ "&" ++ join "&" utmParameters
  else link ++ "?" ++ join "&" utmParameters.

Definition getLink (now : string) (sh : TransformerShop) (fd : TransformerFeed)
    (p : TransformerProduct) (v : TransformerProductVariant)
    (fpv : TransformerFeedProductVariant) : string :=
  let link := to_string (of_maybe JStr (shop_domain sh)) ++ "/products/"
              ++ to_string (of_option JStr (product_handle p)) in
  let linkType := JStr PRODUCT_URL_SOURCE_TYPES.PRODUCT_URL in
  let linkType :=
    if truthy (fpv_field_mapping fpv) then
      let fieldMapping := fpv_field_mapping fpv in
      if truthy (get fieldMapping "links") then
        let links := get fieldMapping "links" in
        if truthy (get links "product_url") then get links "product_url" else linkType
      else linkType
    else linkType in
  let link :=
    if is_str linkType PRODUCT_URL_SOURCE_TYPES.PRODUCT_URL then
      link ++ "?variant=" ++ variant_id v
    else if is_str linkType PRODUCT_URL_SOURCE_TYPES.PRODUCT_CHECKOUT_URL then
      to_string (of_maybe JStr (shop_domain sh)) ++ "/cart/" ++ variant_id v
        ++ ":1?storefront=true"
    else link in
  let link := addUtmParameters now link fd fpv in
  "https://" ++ link.

Definition getCanonicalLink (sh : TransformerShop) (fd : TransformerFeed)
    (p : TransformerProduct) : string :=
  let canonicalLink := to_string (of_maybe JStr (shop_domain sh)) ++ "/products/"
                       ++ to_string (of_option JStr (product_handle p)) in
  "https://" ++ canonicalLink.

(** [mainImage] is [string | null]: [None] is [null]. *)
Definition getImageLink (mainImage : option string) (fpv : TransformerFeedProductVariant)
  : JsVal :=
  let imageLink := match mainImage with Some s => JStr s | None => JNull end in
  if truthy (fpv_field_mapping fpv) then
    let fieldMapping := fpv_field_mapping fpv in
    if truthy (get fieldMapping "product_images") then
      let productImages := get fieldMapping "product_images" in
      if truthy (get productImages "main_image")
      then get productImages "main_image" else imageLink
    else imageLink
  else imageLink.

Definition getAdditionalImageLinks (fpv : TransformerFeedProductVariant) : JsVal :=
  let additionalImageLinks := JArr [] in
  if truthy (fpv_field_mapping fpv) then
    let fieldMapping := fpv_field_mapping fpv in
    if truthy (get fieldMapping "product_images") then
      let productImages := get fieldMapping "product_images" in
      if truthy (get productImages "additional_images")
      then get productImages "additional_images" else additionalImageLinks
    else additionalImageLinks
  else additionalImageLinks.

(** The reading of one field of the [price_condition_availability] group
    that several getters share: [d] unless the group and the field are
    both truthy. *)
Definition pca_override (fpv : TransformerFeedProductVariant) (k : string) (d : JsVal)
  : JsVal :=
  if truthy (fpv_field_mapping fpv) then
    let fieldMapping := fpv_field_mapping fpv in
    if truthy (get fieldMapping "price_condition_availability") then
      let priceConditionAvailability := get fieldMapping "price_condition_availability" in
      if truthy (get priceConditionAvailability k)
      then get priceConditionAvailability k else d
    else d
  else d.

Definition getPrice (v : TransformerProductVariant) (fpv : TransformerFeedProductVariant)
  : JsVal :=
  let price := JNull in
  let priceType := pca_override fpv "price" (JStr PRICE_TYPES.PRICE) in
  if is_str priceType PRICE_TYPES.PRICE then
    JStr (number_to_string (num_mul (or_zero (variant_price v)) million))
  else if is_str priceType PRICE_TYPES.COMPARE_AT_PRICE then
    JStr (number_to_string
            (num_mul (or_zero (to_option (variant_compare_at_price v))) million))
  else price.

(** [x ?? false] followed by a truthiness test. *)
Definition nullish_or_false (v : JsVal) : JsVal :=
  match v with
  | JUndefined | JNull => JBool false
  | _ => v
  end.

Definition getSalePrice (fd : TransformerFeed) (v : TransformerProductVariant)
    (fpv : TransformerFeedProductVariant) : JsVal :=
  let enableSalePrice := nullish_or_false (of_option JBool (setting ps_enable_sale_price fd)) in
  if negb (truthy enableSalePrice) then JNull
  else
    let fieldMapping := fpv_field_mapping fpv in
    if negb (truthy (get fieldMapping "price_condition_availability")) then JNull
    else
      let priceConditionAvailability := get fieldMapping "price_condition_availability" in
      let enableSalePrice :=
        nullish_or_false (get priceConditionAvailability "enable_sale_price") in
      if negb (truthy enableSalePrice) then JNull
      else
        let salePrice := JObj [("amountMicros", JStr EmptyString);
                               ("currencyCode", JStr EmptyString)] in
        let salePriceEffectiveDate := JObj [] in
        let salePriceType := get priceConditionAvailability "sale_price" in
        let salePrice :=
          if truthy salePriceType then
            if is_str salePriceType PRICE_TYPES.PRICE then
              set "amountMicros"
                (JStr (number_to_string (num_mul (or_zero (variant_price v)) million)))
                salePrice
            else if is_str salePriceType PRICE_TYPES.COMPARE_AT_PRICE then
              set "amountMicros"
                (JStr (number_to_string
                         (num_mul (or_zero (to_option (variant_compare_at_price v)))
                            million)))
                salePrice
            else salePrice
          else salePrice in
        let saleStartDate := get priceConditionAvailability "sale_start_date" in
        let salePriceEffectiveDate :=
          set_if (truthy saleStartDate) "startTime" saleStartDate salePriceEffectiveDate in
        let saleEndDate := get priceConditionAvailability "sale_end_date" in
        let salePriceEffectiveDate :=
          set_if (truthy saleEndDate) "endTime" saleEndDate salePriceEffectiveDate in
        JObj [("salePrice", salePrice);
              ("salePriceEffectiveDate", salePriceEffectiveDate)].

Definition getAutoPricingMinPrice (fpv : TransformerFeedProductVariant) : JsVal :=
  pca_override fpv "auto_pricing_min_price" JNull.

Definition getMaximumRetailPrice (fpv : TransformerFeedProductVariant) : JsVal :=
  pca_override fpv "maximum_retail_price" JNull.

Definition getCondition (fpv : TransformerFeedProductVariant) : JsVal :=
  pca_override fpv "condition" JNull.

Definition getAvailability (fd : TransformerFeed) (fpv : TransformerFeedProductVariant)
  : JsVal :=
  let availability := JNull in
  let availability :=
    match feed_inventory fd with
    | Some inventory =>
        if truthy (of_option JStr (inventory_type inventory)) then
          if is_str (of_option JStr (inventory_type inventory)) INVENTORY_TYPES.CUSTOM
             && truthy (of_option JStr (inventory_custom_setting inventory))
          then of_option JStr (inventory_custom_setting inventory)
          else of_option JStr (inventory_type inventory)
        else availability
    | None => availability
    end in
  pca_override fpv "availability" availability.

Definition getProductType (p : TransformerProduct) (fpv : TransformerFeedProductVariant)
  : JsVal :=
  let productTypes := JNull in
  let productTypeField :=
    pca_override fpv "product_type" (JStr PRODUCT_TYPE_FIELDS.PRODUCT_TYPE) in
  if is_str productTypeField PRODUCT_TYPE_FIELDS.PRODUCT_TYPE then
    if truthy (of_option JStr (product_product_type p))
    then JArr [of_option JStr (product_product_type p)] else productTypes
  else if is_str productTypeField PRODUCT_TYPE_FIELDS.CATEGORY_NAME then
    match product_category p with
    | Some c => if truthy (of_option JStr (category_name c))
                then JArr [of_option JStr (category_name c)] else productTypes
    | None => productTypes
    end
  else if is_str productTypeField PRODUCT_TYPE_FIELDS.CATEGORY_FULLNAME then
    match product_category p with
    | Some c => if truthy (of_option JStr (category_full_name c))
                then JArr [of_option JStr (category_full_name c)] else productTypes
    | None => productTypes
    end
  else if is_str productTypeField PRODUCT_TYPE_FIELDS.COLLECTIONS then
    match product_collections p with
    | Some (Some collections) =>
        JArr (filter truthy
                (map (fun collection => of_option JStr (collection_title collection))
                   collections))
    | _ => productTypes
    end
  else if is_str productTypeField PRODUCT_TYPE_FIELDS.TAGS then
    match product_tags p with
    | Some (Some tags) => JArr (map JStr tags)
    | _ => productTypes
    end
  else JNull.

Definition category_id_to_string (c : number + string) : string :=
  match c with
  | inl n => number_to_string n
  | inr s => s
  end.

Definition getGoogleProductCategory (fd : TransformerFeed)
    (fpv : TransformerFeedProductVariant) : JsVal :=
  let googleProductCategory :=
    match feed_metadata fd with
    | Some metadata =>
        match feed_google_merchant_center metadata with
        | Some gmc =>
            match gmc_product_category_id gmc with
            | Some c => js_or (JStr (category_id_to_string c)) JNull
            | None => JNull
            end
        | None => JNull
        end
    | None => JNull
    end in
  pca_override fpv "google_product_category" googleProductCategory.

Definition getCustomLabels (fpv : TransformerFeedProductVariant) : list JsVal :=
  let customLabels : list JsVal := [] in
  if truthy (fpv_field_mapping fpv) then
    let fieldMapping := fpv_field_mapping fpv in
    if truthy (get fieldMapping "labels") then
      let labels := get fieldMapping "labels" in
      let c := push_if (truthy (get labels "custom_label_0"))
                 (get labels "custom_label_0") customLabels in
      let c := push_if (truthy (get labels "custom_label_1"))
                 (get labels "custom_label_1") c in
      let c := push_if (truthy (get labels "custom_label_2"))
                 (get labels "custom_label_2") c in
      let c := push_if (truthy (get labels "custom_label_3"))
                 (get labels "custom_label_3") c in
      push_if (truthy (get labels "custom_label_4")) (get labels "custom_label_4") c
    else customLabels
  else customLabels.

(** The three getters below run [if (o.k) { o.k = o.k; }] over the fields
    of an override group.  The group is the caller's own object, so the
    writes land in [field_mapping]: each getter returns the group and the
    [field_mapping] after the writes. *)

Definition apparel_fields : list string :=
  ["gender"; "age_group"; "size"; "size_type"; "size_system"; "color";
   "material"; "pattern"].

Definition getApparelProductDetails (fpv : TransformerFeedProductVariant)
  : JsVal * JsVal :=
  let apparelProductDetails := JNull in
  if truthy (fpv_field_mapping fpv) then
    let fieldMapping := fpv_field_mapping fpv in
    if truthy (get fieldMapping "apparel_product_details") then
      let apparelProductDetails :=
        fold_left (fun o k => rewrite_own k o) apparel_fields
          (get fieldMapping "apparel_product_details") in
      (apparelProductDetails,
       set "apparel_product_details" apparelProductDetails fieldMapping)
    else (apparelProductDetails, fieldMapping)
  else (apparelProductDetails, fpv_field_mapping fpv).

Definition additional_details_fields : list string :=
  ["adult"; "is_bundle"; "multipack"; "energy_efficiency_class";
   "min_energy_efficiency_class"; "max_energy_efficiency_class";
   "product_highlights"].

(** One iteration of the loop over the certifications. *)
Definition certification_entry (certification : JsVal) : Result JsVal :=
  let* authority := get_checked certification "authority" in
  let* name := get_checked certification "name" in
  let* code := get_checked certification "code" in
  let* value := get_checked certification "value" in
  Ok (JObj [("certificationAuthority", js_or authority (JStr EmptyString));
            ("certificationName", js_or name (JStr EmptyString));
            ("certificationCode", js_or code (JStr EmptyString));
            ("certificationValue", js_or value (JStr EmptyString))]).

Fixpoint certification_entries (l : list JsVal) : Result (list JsVal) :=
  match l with
  | [] => Ok []
  | certification :: rest =>
      let* entry := certification_entry certification in
      let* entries := certification_entries rest in
      Ok (entry :: entries)
  end.

Definition getAdditionalDetails (fpv : TransformerFeedProductVariant)
  : Result (JsVal * JsVal) :=
  let additionalDetails := JNull in
  if truthy (fpv_field_mapping fpv) then
    let fieldMapping := fpv_field_mapping fpv in
    if truthy (get fieldMapping "additional_details") then
      let additionalDetails :=
        fold_left (fun o k => rewrite_own k o) additional_details_fields
          (get fieldMapping "additional_details") in
      let* additionalDetails :=
        if truthy (get additionalDetails "certifications") then
          let* items := iterate (get additionalDetails "certifications") in
          let* certifications := certification_entries items in
          Ok (set "certifications" (JArr certifications) additionalDetails)
        else Ok additionalDetails in
      Ok (additionalDetails, set "additional_details" additionalDetails fieldMapping)
    else Ok (additionalDetails, fieldMapping)
  else Ok (additionalDetails, fpv_field_mapping fpv).

Definition shipping_fields : list string :=
  ["shipping_label"; "shipping_weight_value"; "shipping_weight_unit";
   "shipping_length_value"; "shipping_length_unit"; "shipping_width_value";
   "shipping_width_unit"; "shipping_height_value"; "shipping_height_unit";
   "transit_time_label"; "minimun_handling_time"; "maximum_handling_time"].

Definition getShippingAndReturns (fpv : TransformerFeedProductVariant)
  : JsVal * JsVal :=
  let shippingAndReturns := JNull in
  if truthy (fpv_field_mapping fpv) then
    let fieldMapping := fpv_field_mapping fpv in
    if truthy (get fieldMapping "shipping_and_returns") then
      let shippingAndReturns :=
        fold_left (fun o k => rewrite_own k o) shipping_fields
          (get fieldMapping "shipping_and_returns") in
      (shippingAndReturns, set "shipping_and_returns" shippingAndReturns fieldMapping)
    else (shippingAndReturns, fieldMapping)
  else (shippingAndReturns, fpv_field_mapping fpv).

Definition getReturnPolicyLabels (fpv : TransformerFeedProductVariant) : JsVal :=
  let returnPolicyLabels := JNull in
  if truthy (fpv_field_mapping fpv) then
    let fieldMapping := fpv_field_mapping fpv in
    if truthy (get fieldMapping "shipping_and_returns") then
      let shippingAndReturns := get fieldMapping "shipping_and_returns" in
      if truthy (get shippingAndReturns "return_policy_labels")
      then get shippingAndReturns "return_policy_labels" else returnPolicyLabels
    else returnPolicyLabels
  else returnPolicyLabels.

Definition getAdditionalProductAttributes (fpv : TransformerFeedProductVariant)
  : JsVal :=
  let additionalProductAttributes := JNull in
  if truthy (fpv_field_mapping fpv) then
    let fieldMapping := fpv_field_mapping fpv in
    if truthy (get fieldMapping "additional_product_attributes")
    then get fieldMapping "additional_product_attributes"
    else additionalProductAttributes
  else additionalProductAttributes.

(** [{ amountMicros, currencyCode: feed.currency.toUpperCase() }] *)
Definition price_object (amountMicros : string) (fd : TransformerFeed) : JsVal :=
  JObj [("amountMicros", JStr amountMicros);
        ("currencyCode", JStr (toUpperCase (feed_currency fd)))].

(** The block shared by [autoPricingMinPrice] and [maximumRetailPrice]:
    the override is parsed, and kept only when it is a number. *)
Definition set_parsed_price (k : string) (override : JsVal) (fd : TransformerFeed)
    (attributes : JsVal) : JsVal :=
  if truthy override then
    let priceValue := parseFloat (to_string override) in
    if negb (isNaN priceValue) then
      set k (price_object (number_to_string (math_round (num_mul priceValue million))) fd)
        attributes
    else attributes
  else attributes.

(** [if (src.k) attributes.name = src.k] *)
Definition copy_field (src : JsVal) (k name : string) (attributes : JsVal) : JsVal :=
  set_if (truthy (get src k)) name (get src k) attributes.

(** [if (src.k_value) attributes.name = { value: src.k_value, unit: src.k_unit }] *)
Definition copy_dimension (src : JsVal) (k name : string) (attributes : JsVal) : JsVal :=
  set_if (truthy (get src (k ++ "_value"))) name
    (JObj [("value", get src (k ++ "_value")); ("unit", get src (k ++ "_unit"))])
    attributes.

Definition custom_attribute (name : string) (value : JsVal) : JsVal :=
  JObj [("name", JStr name); ("value", value)].

(** One iteration of the loop over [Object.entries(additionalProductAttributes)]. *)
Definition attribute_entry (entry : string * JsVal) : JsVal :=
  let '(attribute, value) := entry in
  let finalValue :=
    match value with
    | JArr l => JStr (array_join "," l)
    | _ => value
    end in
  custom_attribute attribute finalValue.

(** [returnPolicyLabels.join(',')]: only arrays have [join]. *)
Definition join_labels (labels : JsVal) : Result string :=
  match labels with
  | JArr l => Ok (array_join "," l)
  | _ => Throw "TypeError: join is not a function"
  end.


(** The conditional blocks of [transform], one per group of attributes. *)

Definition set_gtins_mpn (gtinsMpn attributes : JsVal) : JsVal :=
  if truthy gtinsMpn then
    let attributes :=
      set_if (truthy (get gtinsMpn "gtins") && gt_zero (get_length (get gtinsMpn "gtins")))
        "gtins" (get gtinsMpn "gtins") attributes in
    set_if (truthy (get gtinsMpn "mpn")) "mpn" (get gtinsMpn "mpn") attributes
  else attributes.

Definition set_sale_price (salePrice attributes : JsVal) : JsVal :=
  if truthy salePrice then
    let attributes := copy_field salePrice "salePrice" "salePrice" attributes in
    copy_field salePrice "salePriceEffectiveDate" "salePriceEffectiveDate" attributes
  else attributes.

Definition set_custom_labels (customLabels : list JsVal) (attributes : JsVal) : JsVal :=
  if (0 <? List.length customLabels)%nat then
    let label i := nth i customLabels JUndefined in
    let attributes := set_if (truthy (label 0%nat)) "customLabel0" (label 0%nat) attributes in
    let attributes := set_if (truthy (label 1%nat)) "customLabel1" (label 1%nat) attributes in
    let attributes := set_if (truthy (label 2%nat)) "customLabel2" (label 2%nat) attributes in
    let attributes := set_if (truthy (label 3%nat)) "customLabel3" (label 3%nat) attributes in
    set_if (truthy (label 4%nat)) "customLabel4" (label 4%nat) attributes
  else attributes.

Definition set_apparel (apparelProductDetails attributes : JsVal) : JsVal :=
  if truthy apparelProductDetails then
    let a := copy_field apparelProductDetails "gender" "gender" attributes in
    let a := copy_field apparelProductDetails "age_group" "ageGroup" a in
    let a := copy_field apparelProductDetails "size" "size" a in
    let a := copy_field apparelProductDetails "size_type" "sizeTypes" a in
    let a := copy_field apparelProductDetails "size_system" "sizeSystem" a in
    let a := copy_field apparelProductDetails "color" "color" a in
    let a := copy_field apparelProductDetails "material" "material" a in
    copy_field apparelProductDetails "pattern" "pattern" a
  else attributes.

Definition set_additional_details (additionalDetails attributes : JsVal) : JsVal :=
  if truthy additionalDetails then
    let a := copy_field additionalDetails "adult" "adult" attributes in
    let a := copy_field additionalDetails "is_bundle" "isBundle" a in
    let a := copy_field additionalDetails "multipack" "multipack" a in
    let a := copy_field additionalDetails "energy_efficiency_class"
               "energyEfficiencyClass" a in
    let a := copy_field additionalDetails "min_energy_efficiency_class"
               "minEnergyEfficiencyClass" a in
    let a := copy_field additionalDetails "max_energy_efficiency_class"
               "maxEnergyEfficiencyClass" a in
    let a := copy_field additionalDetails "product_highlights" "productHighlights" a in
    copy_field additionalDetails "certifications" "certifications" a
  else attributes.

Definition set_shipping (shippingAndReturns attributes : JsVal) : JsVal :=
  if truthy shippingAndReturns then
    let a := copy_field shippingAndReturns "shipping_label" "shippingLabel" attributes in
    let a := copy_dimension shippingAndReturns "shipping_weight" "shippingWeight" a in
    let a := copy_dimension shippingAndReturns "shipping_length" "shippingLength" a in
    let a := copy_dimension shippingAndReturns "shipping_width" "shippingWidth" a in
    let a := copy_dimension shippingAndReturns "shipping_height" "shippingHeight" a in
    let a := copy_field shippingAndReturns "transit_time_label" "transitTimeLabel" a in
    let a := copy_field shippingAndReturns "minimun_handling_time" "minHandlingTime" a in
    copy_field shippingAndReturns "maximum_handling_time" "maxHandlingTime" a
  else attributes.

(** The [return_policy_label] entry of [customAttributes]. *)
Definition push_return_policy_labels (returnPolicyLabels : JsVal)
    (customAttributes : list JsVal) : Result (list JsVal) :=
  if truthy returnPolicyLabels && gt_zero (get_length returnPolicyLabels) then
    let* joined := join_labels returnPolicyLabels in
    Ok (push (custom_attribute "return_policy_label" (JStr joined)) customAttributes)
  else Ok customAttributes.

(** The entries of [additionalProductAttributes] in [customAttributes]. *)
Definition push_additional_attributes (additionalProductAttributes : JsVal)
    (customAttributes : list JsVal) : list JsVal :=
  if truthy additionalProductAttributes
     && (0 <? List.length (object_entries additionalProductAttributes))%nat
  then List.app customAttributes
         (map attribute_entry (object_entries additionalProductAttributes))
  else customAttributes.

Definition transform (now : string) (input : GoogleMerchantProductTransformInput)
  : Result (JsVal * GoogleMerchantProductTransformInput) :=
  let sh := shop input in
  let fd := feed input in
  let p := product input in
  let v := variant input in
  let fpv := feedProductVariant input in
  let* itemGroupId := getItemGroupId fpv in
  let* title := getTitle fd p v fpv in
  let* description := getDescription fd p v fpv in
  let attributes :=
    JObj [("itemGroupId", JStr itemGroupId);
          ("title", JStr title);
          ("description", JStr description);
          ("identifierExists", getIdentifierExists fpv);
          ("price", price_object (getPriceAmountMicros p v fpv) fd)] in
  (* Brand *)
  let brand := getBrand fd sh p fpv in
  let attributes := set_if (truthy brand) "brand" brand attributes in
  (* GTINs and MPN *)
  let* gtinsMpn := getGtinsMpn fd v fpv in
  let attributes := set_gtins_mpn gtinsMpn attributes in
  (* Link *)
  let link := JStr (getLink now sh fd p v fpv) in
  let attributes := set_if (truthy link) "link" link attributes in
  (* Canonical Link *)
  let canonicalLink := JStr (getCanonicalLink sh fd p) in
  let attributes := set_if (truthy canonicalLink) "canonicalLink" canonicalLink attributes in
  (* Image *)
  let imageLink := getImageLink (mainImage input) fpv in
  let attributes := set_if (truthy imageLink) "imageLink" imageLink attributes in
  (* Additional Image Links *)
  let additionalImageLinks := getAdditionalImageLinks fpv in
  let attributes :=
    set_if (gt_zero (get_length additionalImageLinks))
      "additionalImageLinks" additionalImageLinks attributes in
  (* Price *)
  let price := getPrice v fpv in
  let attributes :=
    set_if (truthy price) "price" (price_object (to_string price) fd) attributes in
  (* Sale Price *)
  let attributes := set_sale_price (getSalePrice fd v fpv) attributes in
  (* Auto Pricing Min Price *)
  let attributes :=
    set_parsed_price "autoPricingMinPrice" (getAutoPricingMinPrice fpv) fd attributes in
  (* Maximum Retail Price *)
  let attributes :=
    set_parsed_price "maximumRetailPrice" (getMaximumRetailPrice fpv) fd attributes in
  (* Condition *)
  let condition := getCondition fpv in
  let attributes := set_if (truthy condition) "condition" condition attributes in
  (* Availability *)
  let availability := getAvailability fd fpv in
  let attributes := set_if (truthy availability) "availability" availability attributes in
  (* Product Type *)
  let productTypes := getProductType p fpv in
  let attributes :=
    set_if (truthy productTypes && gt_zero (get_length productTypes))
      "productTypes" productTypes attributes in
  (* Google Product Category *)
  let googleProductCategory := getGoogleProductCategory fd fpv in
  let attributes :=
    set_if (truthy googleProductCategory) "googleProductCategory" googleProductCategory
      attributes in
  (* Custom Labels *)
  let attributes := set_custom_labels (getCustomLabels fpv) attributes in
  (* Apparel Product Details *)
  let apparel := getApparelProductDetails fpv in
  let fpv := with_field_mapping fpv (snd apparel) in
  let attributes := set_apparel (fst apparel) attributes in
  (* Additional Details *)
  let* additional := getAdditionalDetails fpv in
  let fpv := with_field_mapping fpv (snd additional) in
  let attributes := set_additional_details (fst additional) attributes in
  (* Shipping and Returns *)
  let shipping := getShippingAndReturns fpv in
  let fpv := with_field_mapping fpv (snd shipping) in
  let attributes := set_shipping (fst shipping) attributes in
  (* Custom Attributes *)
  let customAttributes : list JsVal := [] in
  (* Return Policy Labels *)
  let* customAttributes :=
    push_return_policy_labels (getReturnPolicyLabels fpv) customAttributes in
  (* Additional Product Attributes *)
  let customAttributes :=
    push_additional_attributes (getAdditionalProductAttributes fpv) customAttributes in
  let accountId := getAccountId fd in
  let offerId := getProductId fd fpv in
  let channel := "ONLINE" in
  let contentLanguage := toLowerCase (feed_language fd) in
  let feedLabel := toUpperCase (feed_market fd) in
  let name :=
    if truthy (JStr accountId)
    then JStr ("accounts/" ++ accountId ++ "/productInputs/" ++ channel ++ "~"
               ++ contentLanguage ++ "~" ++ feedLabel ++ "~" ++ offerId)
    else JUndefined in
  let result :=
    JObj [("channel", JStr channel);
          ("offerId", JStr offerId);
          ("contentLanguage", JStr contentLanguage);
          ("feedLabel", JStr feedLabel);
          ("attributes", attributes);
          ("customAttributes", JArr customAttributes)] in
  let result := set_if (truthy name) "name" name result in
  Ok (result,
      {| shop := sh; feed := fd; product := p; variant := v;
         mainImage := mainImage input; feedProductVariant := fpv |}).

(* ------------------------------------------------------------------ *)
(** ** Reading the payload *)

(** The own property [k] of an object, if it has one. *)
Definition own_property (o : JsVal) (k : string) : option JsVal :=
  match o with
  | JObj ps => lookup k ps
  | _ => None
  end.

Definition is_object (o : JsVal) : bool :=
  match o with
  | JObj _ => true
  | _ => false
  end.

(** [attributes.k] of a payload. *)
Definition attribute (payload : JsVal) (k : string) : option JsVal :=
  own_property (get payload "attributes") k.

Definition present (o : option JsVal) : bool :=
  match o with
  | Some _ => true
  | None => false
  end.


(* ------------------------------------------------------------------ *)
(** ** Predicates used in the statements *)

Definition feed_enable_sale_price (fd : TransformerFeed) : bool :=
  match setting ps_enable_sale_price fd with
  | Some b => b
  | None => false
  end.

(** [field_mapping.price_condition_availability.enable_sale_price] *)
Definition mapping_enable_sale_price (fpv : TransformerFeedProductVariant) : JsVal :=
  get (get (fpv_field_mapping fpv) "price_condition_availability") "enable_sale_price".

(** [feed.metadata?.google_merchant_center?.account?.account_id] *)
Definition feed_account_id (fd : TransformerFeed) : option string :=
  match feed_metadata fd with
  | Some metadata =>
      match feed_google_merchant_center metadata with
      | Some gmc =>
          match gmc_account gmc with
          | Some acc => account_id acc
          | None => None
          end
      | None => None
      end
  | None => None
  end.

(** [field_mapping.price_condition_availability.availability] *)
Definition availability_override (fpv : TransformerFeedProductVariant) : JsVal :=
  get (get (fpv_field_mapping fpv) "price_condition_availability") "availability".

(** The availability as the specification words it: the default reads
    [custom_setting] when the inventory type is ['custom'] and is the
    inventory type otherwise, and an override replaces the default. *)
Definition spec_default_availability (fd : TransformerFeed) : JsVal :=
  match feed_inventory fd with
  | Some inventory =>
      if is_str (of_option JStr (inventory_type inventory)) INVENTORY_TYPES.CUSTOM
      then of_option JStr (inventory_custom_setting inventory)
      else of_option JStr (inventory_type inventory)
  | None => JUndefined
  end.

Definition spec_availability (fd : TransformerFeed) (fpv : TransformerFeedProductVariant)
  : JsVal :=
  js_or (availability_override fpv) (spec_default_availability fd).

(** An attribute holding [v], omitted when [v] is not truthy. *)
Definition emitted (v : JsVal) : option JsVal :=
  if truthy v then Some v else None.

(** The template-substituted override [field_mapping.product_details.k]
    (for [k] one of [gtin], [mpn]), when there is one. *)
Definition identifier_value (k : string) (v : TransformerProductVariant)
    (fpv : TransformerFeedProductVariant) : option string :=
  let productDetails := get (fpv_field_mapping fpv) "product_details" in
  if truthy (get productDetails k) then
    match replaceTemplateVariables (get productDetails k) v fpv with
    | Ok t => Some t
    | Throw _ => None
    end
  else None.

(** [feed.product_settings.product_identifier === ty] *)
Definition identifier_type_is (ty : string) (fd : TransformerFeed) : bool :=
  match setting ps_product_identifier fd with
  | Some s => String.eqb s ty
  | None => false
  end.

(** *** Well-formed override documents *)

Definition is_string (v : JsVal) : bool :=
  match v with
  | JStr _ => true
  | _ => false
  end.








(** [field_mapping.additional_details.certifications] *)
Definition certifications_override (input : GoogleMerchantProductTransformInput) : JsVal :=
  get (get (fpv_field_mapping (feedProductVariant input)) "additional_details")
    "certifications".

(* ------------------------------------------------------------------ *)
(** ** Concrete inputs *)

Module Sample.

Definition now : string := "2024-01-01T00:00:00.000Z".

Definition tee_shop : TransformerShop :=
  {| shop_name := Just "Tee Shop"; shop_domain := Just "shop.com" |}.

Definition settings : ProductSettings :=
  {| ps_product_id := Some "{{shop_id}}_{{product_id}}_{{variant_id}}";
     ps_product_title := Some "{{product_title}} - {{sku}}";
     ps_product_description := Some "{{description}}";
     ps_brand_submission := Some "vendor";
     ps_product_identifier := Some "gtin";
     ps_enable_sale_price := Some true |}.

Definition us_feed : TransformerFeed :=
  {| feed_id := "f1"; feed_shop_id := "s1";
     feed_language := "EN"; feed_market := "us"; feed_currency := "usd";
     feed_product_settings := Some settings;
     feed_metadata :=
       Some {| feed_google_merchant_center :=
                 Some {| gmc_account := Some {| account_id := Some "123" |};
                         gmc_product_category_id := Some (inl (Dec 2271 0)) |} |};
     feed_tracking := None;
     feed_inventory :=
       Some {| inventory_type := Some "custom";
               inventory_custom_setting := Some "preorder" |} |}.

Definition shirt : TransformerProduct :=
  {| product_title := Some "Shirt"; product_description := Some "A shirt";
     product_vendor := Just "Acme"; product_handle := Some "tee";
     product_product_type := Some "Apparel"; product_category := None;
     product_collections := None; product_tags := None; product_seo := Null |}.

(** A variant priced 19.5. *)
Definition red_variant : TransformerProductVariant :=
  {| variant_id := "v1"; variant_title := Some "Red";
     variant_display_name := None; variant_sku := Just "S1";
     variant_barcode := Just "0123"; variant_price := Some (Dec 195 (-1));
     variant_compare_at_price := Just (Dec 25 0) |}.

(** A variant priced 0.0078125, a dyadic fraction. *)
Definition fractional_variant : TransformerProductVariant :=
  {| variant_id := "v1"; variant_title := Some "Red";
     variant_display_name := None; variant_sku := Just "S1";
     variant_barcode := Just "0123"; variant_price := Some (Dec 78125 (-7));
     variant_compare_at_price := Null |}.

Definition join_entity (field_mapping : JsVal) : TransformerFeedProductVariant :=
  {| fpv_product_id := "p1"; fpv_variant_id := "v1";
     fpv_field_mapping := field_mapping; fpv_offer_id := None |}.

(** A field mapping that sets the identifier and enables the sale price. *)
Definition mapping : JsVal :=
  JObj [("product_details",
         JObj [("product_identifier", JBool true); ("gtin", JStr "{{barcode}}")]);
        ("price_condition_availability",
         JObj [("enable_sale_price", JBool true);
               ("auto_pricing_min_price", JStr "12.5")])].

Definition input_with (fd : TransformerFeed) (v : TransformerProductVariant)
    (field_mapping : JsVal) : GoogleMerchantProductTransformInput :=
  {| shop := tee_shop; feed := fd; product := shirt;
     variant := v; mainImage := Some "https://cdn.shop.com/tee.png";
     feedProductVariant := join_entity field_mapping |}.

Definition input : GoogleMerchantProductTransformInput :=
  input_with us_feed red_variant mapping.

(** The same input without any field mapping. *)
Definition plain_input : GoogleMerchantProductTransformInput :=
  input_with us_feed red_variant JUndefined.

(** A variant whose price has more than six decimals. *)
Definition fractional_input : GoogleMerchantProductTransformInput :=
  input_with us_feed fractional_variant JUndefined.

(** A sale price taken from the variant price. *)
Definition sale_mapping : JsVal :=
  JObj [("price_condition_availability",
         JObj [("enable_sale_price", JBool true); ("sale_price", JStr "price")])].

Definition sale_input : GoogleMerchantProductTransformInput :=
  input_with us_feed red_variant sale_mapping.

(** The feed with inventory [{ type: 'custom' }] and no custom setting. *)
Definition custom_feed : TransformerFeed :=
  {| feed_id := "f1"; feed_shop_id := "s1";
     feed_language := "EN"; feed_market := "us"; feed_currency := "usd";
     feed_product_settings := Some settings;
     feed_metadata := None;
     feed_tracking := None;
     feed_inventory :=
       Some {| inventory_type := Some "custom"; inventory_custom_setting := None |} |}.

Definition custom_input : GoogleMerchantProductTransformInput :=
  input_with custom_feed red_variant JUndefined.





(** One certification, in the [{authority, name, code, value}] format. *)
Definition certified_mapping : JsVal :=
  JObj [("additional_details",
         JObj [("certifications",
                JArr [JObj [("authority", JStr "EC"); ("name", JStr "EPREL");
                            ("code", JStr "123456"); ("value", JStr "A")]])])].

Definition certified_input : GoogleMerchantProductTransformInput :=
  input_with us_feed red_variant certified_mapping.

End Sample.

(* ------------------------------------------------------------------ *)
(** ** Tokens (utils/token.util.ts, services/oauth.service.js) *)

(** The outcome of an awaited promise: the value it resolves to, or the
    rejection, which is an [Error] with its message or some other value. *)
Inductive Outcome (A : Type) : Type :=
| Resolved (a : A)
| RejectedError (message : string)
| RejectedOther.
Arguments Resolved {A} a.
Arguments RejectedError {A} message.
Arguments RejectedOther {A}.

(** [a - b] *)
Definition num_sub (a b : number) : number :=
  match a, b with
  | NaN, _ | _, NaN => NaN
  | Infinity s, Infinity t => if Bool.eqb s t then NaN else Infinity s
  | Infinity s, Dec _ _ => Infinity s
  | Dec _ _, Infinity t => Infinity (negb t)
  | Dec m1 e1, Dec m2 e2 =>
      let e := Z.min e1 e2 in
      Dec (m1 * 10 ^ (e1 - e) - m2 * 10 ^ (e2 - e)) e
  end.

(** [a <= b] *)
Definition num_le (a b : number) : bool :=
  match a, b with
  | NaN, _ | _, NaN => false
  | Infinity s, Infinity t => implb t s
  | Infinity s, Dec _ _ => s
  | Dec _ _, Infinity t => negb t
  | Dec m1 e1, Dec m2 e2 =>
      let e := Z.min e1 e2 in
      (m1 * 10 ^ (e1 - e) <=? m2 * 10 ^ (e2 - e))%Z
  end.

(** [typeof v === 'number'] *)
Definition typeof_number (v : JsVal) : bool :=
  match v with
  | JNum _ => true
  | _ => false
  end.

Definition isGoogleOAuthToken (obj : JsVal) : bool :=
  if negb (truthy obj) || negb (typeof_object obj) then false
  else
    let t := obj in
    is_string (get t "access_token")
    && is_string (get t "refresh_token")
    && is_string (get t "token_type")
    && typeof_number (get t "expiry_date").

(** [now] is [Date.now()]. *)
Definition GoogleOAuthTokenHasExpired (now : number) (token : JsVal) : bool :=
  let fifteenMinutesMs := num_mul (num_mul (Dec 15 0) (Dec 60 0)) (Dec 1000 0) in
  let timeUntilExpiry := num_sub (to_number (get token "expiry_date")) now in
  num_le timeUntilExpiry fifteenMinutesMs.

(** [refreshAccessToken] of the OAuth service; [library] stands for
    [setCredentials] followed by the client's own [refreshAccessToken],
    and yields the properties of its [credentials] object. *)
Definition refreshAccessToken (library : JsVal -> Outcome (list (string * JsVal)))
    (refreshToken : JsVal) : Outcome JsVal :=
  match library refreshToken with
  | Resolved properties =>
      let credentials := JObj properties in
      if negb (truthy (get credentials "access_token")) then
        RejectedError "Failed to refresh access token"
      else
        Resolved
          (JObj [("access_token", get credentials "access_token");
                 ("refresh_token", js_or (get credentials "refresh_token") refreshToken);
                 ("token_type", js_or (get credentials "token_type") (JStr "Bearer"));
                 ("expiry_date", get credentials "expiry_date")])
  | RejectedError message => RejectedError message
  | RejectedOther => RejectedOther
  end.

(** [getGoogleToken(tokenLike, oauthService)]; [refresh] is
    [oauthService.refreshAccessToken]. *)
Definition getGoogleToken (now : number) (tokenLike : JsVal)
    (refresh : JsVal -> Outcome JsVal) : Outcome JsVal :=
  if negb (isGoogleOAuthToken tokenLike) then
    RejectedError "Token payload missing required fields"
  else
    let tokenObj := tokenLike in
    let needsRefresh := GoogleOAuthTokenHasExpired now tokenObj in
    if negb needsRefresh then
      Resolved
        (JObj [("token",
                JObj [("access_token", get tokenObj "access_token");
                      ("refresh_token", get tokenObj "refresh_token");
                      ("token_type", get tokenObj "token_type");
                      ("expiry_date", get tokenObj "expiry_date")]);
               ("refreshed", JBool false)])
    else
      match refresh (get tokenObj "refresh_token") with
      | Resolved refreshedToken =>
          Resolved (JObj [("token", refreshedToken); ("refreshed", JBool true)])
      | RejectedError message =>
          RejectedError ("Failed to refresh token: " ++ message)
      | RejectedOther => RejectedError "Failed to refresh token: Unknown error"
      end.

(* ------------------------------------------------------------------ *)
(** ** Tables and readings used in the statements on [transform] *)

(** The fields that [transform] copies from an override group to an
    attribute: group, field of the group, attribute. *)
Definition copied_fields : list (string * string * string) :=
  [("apparel_product_details", "gender", "gender");
   ("apparel_product_details", "age_group", "ageGroup");
   ("apparel_product_details", "size", "size");
   ("apparel_product_details", "size_type", "sizeTypes");
   ("apparel_product_details", "size_system", "sizeSystem");
   ("apparel_product_details", "color", "color");
   ("apparel_product_details", "material", "material");
   ("apparel_product_details", "pattern", "pattern");
   ("additional_details", "adult", "adult");
   ("additional_details", "is_bundle", "isBundle");
   ("additional_details", "multipack", "multipack");
   ("additional_details", "energy_efficiency_class", "energyEfficiencyClass");
   ("additional_details", "min_energy_efficiency_class", "minEnergyEfficiencyClass");
   ("additional_details", "max_energy_efficiency_class", "maxEnergyEfficiencyClass");
   ("additional_details", "product_highlights", "productHighlights");
   ("shipping_and_returns", "shipping_label", "shippingLabel");
   ("shipping_and_returns", "transit_time_label", "transitTimeLabel");
   ("shipping_and_returns", "minimun_handling_time", "minHandlingTime");
   ("shipping_and_returns", "maximum_handling_time", "maxHandlingTime")].

(** The shipping dimensions: prefix of the two override fields, attribute. *)
Definition shipping_dimensions : list (string * string) :=
  [("shipping_weight", "shippingWeight"); ("shipping_length", "shippingLength");
   ("shipping_width", "shippingWidth"); ("shipping_height", "shippingHeight")].

(** [field_mapping.g.k] *)
Definition override (input : GoogleMerchantProductTransformInput) (g k : string) : JsVal :=
  get (get (fpv_field_mapping (feedProductVariant input)) g) k.

(** The label overrides that are set, in the order of their fields. *)
Definition set_labels (input : GoogleMerchantProductTransformInput) : list JsVal :=
  filter truthy
    (map (override input "labels")
       ["custom_label_0"; "custom_label_1"; "custom_label_2"; "custom_label_3";
        "custom_label_4"]).

(** The [return_policy_label] entry of [customAttributes] for a list of
    labels. *)
Definition return_policy_entry (labels : JsVal) : list JsVal :=
  match labels with
  | JArr (label :: rest) =>
      [custom_attribute "return_policy_label" (JStr (array_join "," (label :: rest)))]
  | _ => []
  end.

(** One UTM parameter, when its value is set. *)
Definition utm_parameter (name : string) (v : JsVal) : list string :=
  if truthy v then [name ++ "=" ++ to_string v] else [].

(** The UTM parameters of [feed.tracking]. *)
Definition feed_utm (fd : TransformerFeed) : list string :=
  match feed_tracking fd with
  | Some tracking =>
      List.app (utm_parameter "utm_source" (of_option JStr (utm_source tracking)))
        (List.app (utm_parameter "utm_medium" (of_option JStr (utm_medium tracking)))
           (utm_parameter "utm_campaign" (of_option JStr (utm_campaign tracking))))
  | None => []
  end.

(** The UTM parameters of [field_mapping.links]. *)
Definition override_utm (input : GoogleMerchantProductTransformInput) : list string :=
  List.app (utm_parameter "utm_source" (override input "links" "utm_source"))
    (List.app (utm_parameter "utm_medium" (override input "links" "utm_medium"))
       (utm_parameter "utm_campaign" (override input "links" "utm_campaign"))).

(** The text of [shop.domain] and of [product.handle] inside a link. *)
Definition domain_text (input : GoogleMerchantProductTransformInput) : string :=
  match shop_domain (shop input) with
  | Just d => d
  | Null => "null"
  | Undefined => "undefined"
  end.

Definition handle_text (input : GoogleMerchantProductTransformInput) : string :=
  match product_handle (product input) with
  | Some h => h
  | None => "undefined"
  end.

(** The selector of the brand: the override when set, else the feed's. *)
Definition brand_source (input : GoogleMerchantProductTransformInput) : JsVal :=
  js_or (override input "product_details" "brand")
    (of_option JStr (setting ps_brand_submission (feed input))).


(** The singleton of a string that is set and not empty. *)
Definition non_empty (o : option string) : list string :=
  match o with
  | Some s => if String.eqb s EmptyString then [] else [s]
  | None => []
  end.

(** The selector of the product types, and the types it selects. *)
Definition product_type_selector (input : GoogleMerchantProductTransformInput) : JsVal :=
  js_or (override input "price_condition_availability" "product_type")
    (JStr "product_type").

Definition selected_types (input : GoogleMerchantProductTransformInput) : list string :=
  let p := product input in
  let selector := product_type_selector input in
  if is_str selector "product_type" then non_empty (product_product_type p)
  else if is_str selector "category_name" then
    match product_category p with
    | Some c => non_empty (category_name c)
    | None => []
    end
  else if is_str selector "category_fullname" then
    match product_category p with
    | Some c => non_empty (category_full_name c)
    | None => []
    end
  else if is_str selector "collections" then
    match product_collections p with
    | Some (Some collections) =>
        flat_map (fun collection => non_empty (collection_title collection)) collections
    | _ => []
    end
  else if is_str selector "tags" then
    match product_tags p with
    | Some (Some tags) => tags
    | _ => []
    end
  else [].

(** An attribute holding a list of strings, omitted when the list is
    empty. *)
Definition emitted_strings (l : list string) : option JsVal :=
  match l with
  | [] => None
  | _ => Some (JArr (map JStr l))
  end.




(** The feed's product category as text. *)
Definition feed_category (fd : TransformerFeed) : JsVal :=
  match feed_metadata fd with
  | Some metadata =>
      match feed_google_merchant_center metadata with
      | Some gmc =>
          match gmc_product_category_id gmc with
          | Some c => JStr (category_id_to_string c)
          | None => JUndefined
          end
      | None => JUndefined
      end
  | None => JUndefined
  end.

(** [mainImage] as a value. *)
Definition main_image (input : GoogleMerchantProductTransformInput) : JsVal :=
  match mainImage input with
  | Some s => JStr s
  | None => JNull
  end.

(** What [transform] makes of the value of [getProductType]. *)
Definition types_attribute (v : JsVal) : option JsVal :=
  if truthy v && gt_zero (get_length v) then Some v else None.


(** The attribute made of a price override that is parsed and rounded. *)
Definition rounded_price (override : JsVal) (fd : TransformerFeed) : option JsVal :=
  if truthy override then
    match parseFloat (to_string override) with
    | NaN => None
    | n => Some (price_object (number_to_string (math_round (num_mul n million))) fd)
    end
  else None.

(** The entry emitted for one certification. *)
Definition certification_of (certification : JsVal) : JsVal :=
  JObj [("certificationAuthority", js_or (get certification "authority") (JStr EmptyString));
        ("certificationName", js_or (get certification "name") (JStr EmptyString));
        ("certificationCode", js_or (get certification "code") (JStr EmptyString));
        ("certificationValue", js_or (get certification "value") (JStr EmptyString))].

(** The input with another field mapping. *)
Definition with_mapping (input : GoogleMerchantProductTransformInput) (fm : JsVal)
  : GoogleMerchantProductTransformInput :=
  {| shop := shop input; feed := feed input; product := product input;
     variant := variant input; mainImage := mainImage input;
     feedProductVariant := with_field_mapping (feedProductVariant input) fm |}.

(* ------------------------------------------------------------------ *)
(** ** Templates as segments *)

(** A template read as a sequence of literal texts and placeholders. *)
Inductive segment : Type :=
| Text (s : string)
| Hole (name : string).

Fixpoint render (segments : list segment) : string :=
  match segments with
  | [] => EmptyString
  | Text s :: rest => s ++ render rest
  | Hole name :: rest => name ++ render rest
  end.

(** The first placeholder [name] replaced by the text [value]. *)
Fixpoint fill (name value : string) (segments : list segment) : list segment :=
  match segments with
  | [] => []
  | Text s :: rest => Text s :: fill name value rest
  | Hole m :: rest =>
      if String.eqb m name then Text value :: rest else Hole m :: fill name value rest
  end.

Definition fill_all (placeholders : list (string * string)) (segments : list segment)
  : list segment :=
  fold_left (fun s p => fill (fst p) (snd p) s) placeholders segments.

(** Whether the placeholder [name] occurs. *)
Fixpoint uses (name : string) (segments : list segment) : bool :=
  match segments with
  | [] => false
  | Text _ :: rest => uses name rest
  | Hole m :: rest => String.eqb m name || uses name rest
  end.

(** The placeholders of the transformer. *)
Definition placeholder_names : list string :=
  ["{{product_title}}"; "{{variant_title}}"; "{{display_name}}"; "{{seo_title}}";
   "{{sku}}"; "{{barcode}}"; "{{description}}"; "{{seo_description}}";
   "{{shop_id}}"; "{{product_id}}"; "{{variant_id}}"].

(** The literal texts hold no brace, and the placeholders are the
    transformer's. *)
Definition segmented (segments : list segment) : bool :=
  forallb (fun s => match s with
                    | Text t => negb (includes_char "{" t)
                    | Hole name => existsb (String.eqb name) placeholder_names
                    end) segments.

(** A value that holds neither a brace nor a dollar sign. *)
Definition plain (value : string) : bool :=
  negb (includes_char "{" value) && negb (includes_char "$" value).

(** The values of the placeholders that occur are plain. *)
Definition plain_values (placeholders : list (string * string))
    (segments : list segment) : bool :=
  forallb (fun p => negb (uses (fst p) segments) || plain (snd p)) placeholders.

(** The templates of the title and of the description, and the
    placeholders that each replaces, in the order of the replacements. *)
Definition title_template (input : GoogleMerchantProductTransformInput) : JsVal :=
  js_or (override input "product_details" "product_title")
    (JStr (or_else (setting ps_product_title (feed input)) EmptyString)).

Definition title_placeholders (input : GoogleMerchantProductTransformInput)
  : list (string * string) :=
  let p := product input in
  let v := variant input in
  [("{{product_title}}", or_else (product_title p) EmptyString);
   ("{{variant_title}}", or_else (variant_title v) EmptyString);
   ("{{display_name}}",
    or_else (variant_display_name v) (or_else (product_title p) EmptyString));
   ("{{seo_title}}", seo_field seo_title p);
   ("{{sku}}", maybe_or_else (variant_sku v) EmptyString);
   ("{{barcode}}", maybe_or_else (variant_barcode v) EmptyString)].

Definition description_template (input : GoogleMerchantProductTransformInput) : JsVal :=
  js_or (override input "product_details" "description")
    (JStr (or_else (setting ps_product_description (feed input)) EmptyString)).

Definition description_placeholders (input : GoogleMerchantProductTransformInput)
  : list (string * string) :=
  [("{{description}}", or_else (product_description (product input)) EmptyString);
   ("{{seo_description}}", seo_field seo_description (product input))].

Definition item_group_placeholders (input : GoogleMerchantProductTransformInput)
  : list (string * string) :=
  [("{{product_id}}", fpv_product_id (feedProductVariant input));
   ("{{variant_id}}", fpv_variant_id (feedProductVariant input))].

Definition offer_placeholders (input : GoogleMerchantProductTransformInput)
  : list (string * string) :=
  [("{{shop_id}}", feed_shop_id (feed input));
   ("{{product_id}}", fpv_product_id (feedProductVariant input));
   ("{{variant_id}}", fpv_variant_id (feedProductVariant input))].

(** A string that is set and not empty. *)
Definition given (o : option string) : option string :=
  match o with
  | Some s => if String.eqb s EmptyString then None else Some s
  | None => None
  end.


(** The placeholders of the [gtin] and [mpn] templates. *)
Definition identifier_placeholders (input : GoogleMerchantProductTransformInput)
  : list (string * string) :=
  [("{{barcode}}", maybe_or_else (variant_barcode (variant input)) EmptyString);
   ("{{sku}}", maybe_or_else (variant_sku (variant input)) EmptyString);
   ("{{product_id}}", fpv_product_id (feedProductVariant input));
   ("{{variant_id}}", fpv_variant_id (feedProductVariant input))].

(** The attributes that a payload can hold, and those it always holds. *)
Definition attribute_names : list string :=
  ["itemGroupId"; "title"; "description"; "identifierExists"; "price"; "brand";
   "gtins"; "mpn"; "link"; "canonicalLink"; "imageLink"; "additionalImageLinks";
   "salePrice"; "salePriceEffectiveDate"; "autoPricingMinPrice"; "maximumRetailPrice";
   "condition"; "availability"; "productTypes"; "googleProductCategory";
   "customLabel0"; "customLabel1"; "customLabel2"; "customLabel3"; "customLabel4";
   "gender"; "ageGroup"; "size"; "sizeTypes"; "sizeSystem"; "color"; "material";
   "pattern"; "adult"; "isBundle"; "multipack"; "energyEfficiencyClass";
   "minEnergyEfficiencyClass"; "maxEnergyEfficiencyClass"; "productHighlights";
   "certifications"; "shippingLabel"; "shippingWeight"; "shippingLength";
   "shippingWidth"; "shippingHeight"; "transitTimeLabel"; "minHandlingTime";
   "maxHandlingTime"].

Definition required_attributes : list string :=
  ["itemGroupId"; "title"; "description"; "identifierExists"; "price"; "link";
   "canonicalLink"].

(** The characters of a base64 text. *)
Definition is_base64_char (c : ascii) : bool :=
  includes_char c base64_alphabet || Ascii.eqb c "=".

Module ExtraSample.

(** Apparel, additional details, shipping, labels and free attributes. *)
Definition shipping_mapping : JsVal :=
  JObj [("labels",
         JObj [("custom_label_1", JStr "summer"); ("custom_label_3", JStr "sale")]);
        ("apparel_product_details", JObj [("color", JStr "red")]);
        ("additional_details", JObj [("adult", JBool false)]);
        ("shipping_and_returns",
         JObj [("shipping_weight_value", JNum (Dec 25 (-1)));
               ("shipping_length_unit", JStr "cm");
               ("return_policy_labels", JArr [JStr "a"; JStr "b"])]);
        ("additional_product_attributes",
         JObj [("fabric", JStr "cotton"); ("sizes", JArr [JStr "S"; JStr "M"])])].

Definition shipping_input : GoogleMerchantProductTransformInput :=
  Sample.input_with Sample.us_feed Sample.red_variant shipping_mapping.

(** A feed with a UTM source, and a checkout link with its own UTM source. *)
Definition tracked_feed : TransformerFeed :=
  {| feed_id := "f1"; feed_shop_id := "s1";
     feed_language := "EN"; feed_market := "us"; feed_currency := "usd";
     feed_product_settings := Some Sample.settings;
     feed_metadata := None;
     feed_tracking :=
       Some {| utm_source := Some "google"; utm_medium := None; utm_campaign := None |};
     feed_inventory := None |}.

Definition tracked_mapping : JsVal :=
  JObj [("links",
         JObj [("product_url", JStr "product_checkout_url");
               ("utm_source", JStr "override")])].

Definition tracked_input : GoogleMerchantProductTransformInput :=
  Sample.input_with tracked_feed Sample.red_variant tracked_mapping.

(** A shop without a name, a product with tags, and a field mapping that
    selects the shop's name as brand, the tags as product types and the
    compare-at price as price. *)
Definition nameless_shop : TransformerShop :=
  {| shop_name := Null; shop_domain := Just "shop.com" |}.

Definition tagged_shirt : TransformerProduct :=
  {| product_title := Some "Shirt"; product_description := Some "A shirt";
     product_vendor := Just "Acme"; product_handle := Some "tee";
     product_product_type := Some "Apparel"; product_category := None;
     product_collections := None; product_tags := Some (Some ["summer"; EmptyString]);
     product_seo := Null |}.

Definition selector_mapping : JsVal :=
  JObj [("product_details", JObj [("brand", JStr "store_name")]);
        ("product_images", JObj [("main_image", JStr "https://cdn.shop.com/red.png")]);
        ("price_condition_availability",
         JObj [("product_type", JStr "tags"); ("price", JStr "compare_at_price");
               ("condition", JStr "new")])].

Definition selector_input : GoogleMerchantProductTransformInput :=
  {| shop := nameless_shop; feed := Sample.us_feed; product := tagged_shirt;
     variant := Sample.red_variant; mainImage := Some "https://cdn.shop.com/tee.png";
     feedProductVariant := Sample.join_entity selector_mapping |}.

(** Templates: a title with the same placeholder twice, and an item group
    made of the product. *)
Definition template_mapping : JsVal :=
  JObj [("product_details",
         JObj [("product_title", JStr "{{sku}}/{{sku}}");
               ("description", JStr "{{seo_description}}{{description}}!");
               ("item_group_id", JStr "group-{{product_id}}")])].

Definition template_input : GoogleMerchantProductTransformInput :=
  Sample.input_with Sample.us_feed Sample.red_variant template_mapping.

End ExtraSample.

(* ------------------------------------------------------------------ *)
(** ** Readings and concrete values for the tokens *)

(** The four fields of a token, copied. *)
Definition normalised (token : JsVal) : JsVal :=
  JObj [("access_token", get token "access_token");
        ("refresh_token", get token "refresh_token");
        ("token_type", get token "token_type");
        ("expiry_date", get token "expiry_date")].

(** What [getGoogleToken] resolves to. *)
Definition token_result (token : JsVal) (refreshed : bool) : JsVal :=
  JObj [("token", token); ("refreshed", JBool refreshed)].

(** The rejection of [getGoogleToken] for a failed refresh. *)
Definition refresh_failure (outcome : Outcome JsVal) : Outcome JsVal :=
  match outcome with
  | Resolved refreshedToken => Resolved (token_result refreshedToken true)
  | RejectedError message => RejectedError ("Failed to refresh token: " ++ message)
  | RejectedOther => RejectedError "Failed to refresh token: Unknown error"
  end.

Module TokenSample.

(** A token that expires at 2000000 ms, with a field of its own. *)
Definition stored : JsVal :=
  JObj [("access_token", JStr "access"); ("refresh_token", JStr "refresh");
        ("token_type", JStr "Bearer"); ("expiry_date", JNum (Dec 2000000 0));
        ("scope", JStr "content")].

(** A token whose expiry is not a number. *)
Definition undated : JsVal :=
  JObj [("access_token", JStr "access"); ("refresh_token", JStr "refresh");
        ("token_type", JStr "Bearer"); ("expiry_date", JNum NaN)].

(** A refresh that must not be called. *)
Definition unreachable (refreshToken : JsVal) : Outcome JsVal := RejectedOther.

(** A library that answers with a new access token only. *)
Definition library (refreshToken : JsVal) : Outcome (list (string * JsVal)) :=
  Resolved [("access_token", JStr "renewed"); ("expiry_date", JNum (Dec 9000000 0))].

End TokenSample.

(* ------------------------------------------------------------------ *)
(** ** Product names (services/merchant-product.service.js) *)

Definition buildProductInputName (accountId channel contentLanguage feedLabel offerId : string)
  : string :=
  let productInputId :=
    channel ++ "~" ++ contentLanguage ++ "~" ++ feedLabel ++ "~" ++ offerId in
  "accounts/" ++ accountId ++ "/productInputs/" ++ productInputId.

Definition buildProductId (channel contentLanguage feedLabel offerId : string) : string :=
  channel ++ "~" ++ contentLanguage ++ "~" ++ feedLabel ++ "~" ++ offerId.

Definition buildProductName (accountId productId : string) : string :=
  "accounts/" ++ accountId ++ "/products/" ++ productId.

(** [s.includes(pat)] *)
Definition includes (pat s : string) : bool :=
  match find_first pat s with
  | Some _ => true
  | None => false
  end.

(** [s.split(sep)] for a separator that is not empty; each step removes
    at least one character, so the length of [s] is fuel enough. *)
Fixpoint split_fuel (fuel : nat) (sep s : string) : list string :=
  match fuel with
  | O => [s]
  | S fuel' =>
      match find_first sep s with
      | Some (b, a) => b :: split_fuel fuel' sep a
      | None => [s]
      end
  end.

Definition split (sep s : string) : list string :=
  split_fuel (String.length s) sep s.

(** The [productInputId] that [patchProductInput] puts in its URL. *)
Definition productInputId (productInputName : string) : string :=
  if includes "/productInputs/" productInputName then
    let parts := split "/productInputs/" productInputName in
    match nth_error parts 1 with
    | Some part => if String.eqb part EmptyString then productInputName else part
    | None => productInputName
    end
  else productInputName.

(* ------------------------------------------------------------------ *)
(** ** The inputs on which [transform] returns *)



(* ------------------------------------------------------------------ *)
(** ** Property lists *)

Section PropertyLists.

Lemma lookup_assign_same (k : string) (v : JsVal) (ps : list (string * JsVal)) :
  lookup k (assign k v ps) = Some v.
Proof.
  induction ps as [|[k' v'] ps IH]; simpl.
  - now rewrite String.eqb_refl.
  - destruct (String.eqb k k') eqn:E; simpl.
    + now rewrite String.eqb_refl.
    + now rewrite E.
Qed.

Lemma lookup_assign_other (k k' : string) (v : JsVal) (ps : list (string * JsVal)) :
  String.eqb k k' = false -> lookup k (assign k' v ps) = lookup k ps.
Proof.
  intros Hk. induction ps as [|[k0 v0] ps IH]; simpl.
  - now rewrite Hk.
  - destruct (String.eqb k' k0) eqn:E; simpl.
    + apply String.eqb_eq in E. subst k0. now rewrite Hk.
    + now rewrite IH.
Qed.

(** Writing back the value a property already has changes nothing. *)
Lemma assign_lookup (k : string) (v : JsVal) (ps : list (string * JsVal)) :
  lookup k ps = Some v -> assign k v ps = ps.
Proof.
  induction ps as [|[k0 v0] ps IH]; simpl; [discriminate|].
  destruct (String.eqb k k0) eqn:E.
  - intros H. injection H as ->. apply String.eqb_eq in E. now subst.
  - intros H. now rewrite IH.
Qed.

Lemma is_object_set k v o : is_object (set k v o) = is_object o.
Proof. now destruct o. Qed.

Lemma own_set_same k v o :
  is_object o = true -> own_property (set k v o) k = Some v.
Proof. destruct o; try discriminate. intros _. apply lookup_assign_same. Qed.

Lemma own_set_other k k' v o :
  String.eqb k k' = false -> own_property (set k' v o) k = own_property o k.
Proof. destruct o; try reflexivity. simpl. apply lookup_assign_other. Qed.

Lemma get_set_other k k' v o :
  String.eqb k k' = false -> get (set k' v o) k = get o k.
Proof.
  destruct o; try reflexivity. intros H. simpl.
  now rewrite lookup_assign_other.
Qed.

Lemma truthy_get_lookup (o : JsVal) (k : string) :
  truthy (get o k) = true ->
  exists ps, o = JObj ps /\ lookup k ps = Some (get o k).
Proof.
  destruct o; try discriminate. simpl.
  destruct (lookup k props) eqn:E; [|discriminate]. eauto.
Qed.

Lemma set_get_same (o : JsVal) (k : string) :
  truthy (get o k) = true -> set k (get o k) o = o.
Proof.
  destruct o; try discriminate. simpl.
  destruct (lookup k props) eqn:E; [|discriminate].
  intros _. f_equal. now apply assign_lookup.
Qed.

(** The guarded self-assignments of the getters are no-ops. *)
Lemma rewrite_own_id (k : string) (o : JsVal) : rewrite_own k o = o.
Proof.
  unfold rewrite_own. destruct (truthy (get o k)) eqn:E; [|reflexivity].
  now apply set_get_same.
Qed.

Lemma rewrite_all_id (ks : list string) (o : JsVal) :
  fold_left (fun o k => rewrite_own k o) ks o = o.
Proof.
  revert o. induction ks as [|k ks IH]; intros o; simpl; [reflexivity|].
  now rewrite rewrite_own_id.
Qed.

End PropertyLists.

(* ------------------------------------------------------------------ *)
(** ** Which attributes each block of [transform] writes *)

Section Frames.

Variables (k : string) (o : JsVal).

Lemma is_object_set_if c k' v : is_object (set_if c k' v o) = is_object o.
Proof. destruct c; [apply is_object_set|reflexivity]. Qed.

Lemma own_set_if_other c k' v :
  String.eqb k k' = false -> own_property (set_if c k' v o) k = own_property o k.
Proof. intros H. destruct c; [now apply own_set_other|reflexivity]. Qed.

Lemma own_set_if_same c v :
  is_object o = true ->
  own_property (set_if c k v o) k = if c then Some v else own_property o k.
Proof. intros H. destruct c; [now apply own_set_same|reflexivity]. Qed.

Lemma is_object_copy_field src f name :
  is_object (copy_field src f name o) = is_object o.
Proof. apply is_object_set_if. Qed.

Lemma own_copy_field_other src f name :
  String.eqb k name = false ->
  own_property (copy_field src f name o) k = own_property o k.
Proof. apply own_set_if_other. Qed.

Lemma is_object_copy_dimension src f name :
  is_object (copy_dimension src f name o) = is_object o.
Proof. apply is_object_set_if. Qed.

Lemma own_copy_dimension_other src f name :
  String.eqb k name = false ->
  own_property (copy_dimension src f name o) k = own_property o k.
Proof. apply own_set_if_other. Qed.

Lemma is_object_set_parsed_price k' override fd :
  is_object (set_parsed_price k' override fd o) = is_object o.
Proof.
  unfold set_parsed_price.
  destruct (truthy override); [|reflexivity].
  destruct (negb _); [apply is_object_set|reflexivity].
Qed.

Lemma own_set_parsed_price_other k' override fd :
  String.eqb k k' = false ->
  own_property (set_parsed_price k' override fd o) k = own_property o k.
Proof.
  intros H. unfold set_parsed_price.
  destruct (truthy override); [|reflexivity].
  destruct (negb _); [now apply own_set_other|reflexivity].
Qed.

End Frames.

Create Rewrite HintDb objects.
#[local] Hint Rewrite is_object_set is_object_set_if is_object_copy_field
  is_object_copy_dimension is_object_set_parsed_price : objects.

(** Splits [existsb (String.eqb k) keys = false] into its components. *)
Ltac split_keys H :=
  cbn [existsb] in H;
  repeat (apply orb_false_elim in H; let H1 := fresh "Hk" in destruct H as [H1 H]);
  clear H.

Section Blocks.

Variables (k : string) (o : JsVal).

Lemma is_object_set_gtins_mpn g : is_object (set_gtins_mpn g o) = is_object o.
Proof.
  unfold set_gtins_mpn. destruct (truthy g); [|reflexivity].
  cbn zeta. now autorewrite with objects.
Qed.

Lemma own_set_gtins_mpn_other g :
  existsb (String.eqb k) ["gtins"; "mpn"] = false ->
  own_property (set_gtins_mpn g o) k = own_property o k.
Proof.
  intros H. split_keys H. unfold set_gtins_mpn.
  destruct (truthy g); [|reflexivity].
  cbn zeta. now rewrite !own_set_if_other by assumption.
Qed.

Lemma is_object_set_sale_price s : is_object (set_sale_price s o) = is_object o.
Proof.
  unfold set_sale_price. destruct (truthy s); [|reflexivity].
  cbn zeta. now autorewrite with objects.
Qed.

Lemma own_set_sale_price_other s :
  existsb (String.eqb k) ["salePrice"; "salePriceEffectiveDate"] = false ->
  own_property (set_sale_price s o) k = own_property o k.
Proof.
  intros H. split_keys H. unfold set_sale_price.
  destruct (truthy s); [|reflexivity].
  cbn zeta. now rewrite !own_copy_field_other by assumption.
Qed.

Lemma is_object_set_custom_labels l : is_object (set_custom_labels l o) = is_object o.
Proof.
  unfold set_custom_labels. destruct (0 <? _)%nat; [|reflexivity].
  cbn zeta. now autorewrite with objects.
Qed.

Lemma own_set_custom_labels_other l :
  existsb (String.eqb k)
    ["customLabel0"; "customLabel1"; "customLabel2"; "customLabel3"; "customLabel4"]
    = false ->
  own_property (set_custom_labels l o) k = own_property o k.
Proof.
  intros H. split_keys H. unfold set_custom_labels.
  destruct (0 <? _)%nat; [|reflexivity].
  cbn zeta. now rewrite !own_set_if_other by assumption.
Qed.

Lemma is_object_set_apparel a : is_object (set_apparel a o) = is_object o.
Proof.
  unfold set_apparel. destruct (truthy a); [|reflexivity].
  cbn zeta. now autorewrite with objects.
Qed.

Lemma own_set_apparel_other a :
  existsb (String.eqb k)
    ["gender"; "ageGroup"; "size"; "sizeTypes"; "sizeSystem"; "color"; "material";
     "pattern"] = false ->
  own_property (set_apparel a o) k = own_property o k.
Proof.
  intros H. split_keys H. unfold set_apparel.
  destruct (truthy a); [|reflexivity].
  cbn zeta. now rewrite !own_copy_field_other by assumption.
Qed.

Lemma is_object_set_additional_details a :
  is_object (set_additional_details a o) = is_object o.
Proof.
  unfold set_additional_details. destruct (truthy a); [|reflexivity].
  cbn zeta. now autorewrite with objects.
Qed.

Lemma own_set_additional_details_other a :
  existsb (String.eqb k)
    ["adult"; "isBundle"; "multipack"; "energyEfficiencyClass";
     "minEnergyEfficiencyClass"; "maxEnergyEfficiencyClass"; "productHighlights";
     "certifications"] = false ->
  own_property (set_additional_details a o) k = own_property o k.
Proof.
  intros H. split_keys H. unfold set_additional_details.
  destruct (truthy a); [|reflexivity].
  cbn zeta. now rewrite !own_copy_field_other by assumption.
Qed.

Lemma is_object_set_shipping s : is_object (set_shipping s o) = is_object o.
Proof.
  unfold set_shipping. destruct (truthy s); [|reflexivity].
  cbn zeta. now autorewrite with objects.
Qed.

Lemma own_set_shipping_other s :
  existsb (String.eqb k)
    ["shippingLabel"; "shippingWeight"; "shippingLength"; "shippingWidth";
     "shippingHeight"; "transitTimeLabel"; "minHandlingTime"; "maxHandlingTime"]
    = false ->
  own_property (set_shipping s o) k = own_property o k.
Proof.
  intros H. split_keys H. unfold set_shipping.
  destruct (truthy s); [|reflexivity].
  cbn zeta.
  repeat first [ rewrite own_copy_field_other by assumption
               | rewrite own_copy_dimension_other by assumption ].
  reflexivity.
Qed.

End Blocks.

#[local] Hint Rewrite is_object_set_gtins_mpn is_object_set_sale_price
  is_object_set_custom_labels is_object_set_apparel is_object_set_additional_details
  is_object_set_shipping : objects.

(** Peels, from the outside, the blocks that do not write the attribute
    being read. *)
Ltac frame :=
  repeat first
    [ rewrite own_set_if_other by reflexivity
    | rewrite own_copy_field_other by reflexivity
    | rewrite own_copy_dimension_other by reflexivity
    | rewrite own_set_parsed_price_other by reflexivity
    | rewrite own_set_gtins_mpn_other by reflexivity
    | rewrite own_set_sale_price_other by reflexivity
    | rewrite own_set_custom_labels_other by reflexivity
    | rewrite own_set_apparel_other by reflexivity
    | rewrite own_set_additional_details_other by reflexivity
    | rewrite own_set_shipping_other by reflexivity ].

(* ------------------------------------------------------------------ *)
(** ** The shape of a successful run *)

Lemma get_attributes_of_result (c : bool) (name channel offerId contentLanguage
    feedLabel attributes customAttributes : JsVal) :
  get (set_if c "name" name
         (JObj [("channel", channel); ("offerId", offerId);
                ("contentLanguage", contentLanguage); ("feedLabel", feedLabel);
                ("attributes", attributes); ("customAttributes", customAttributes)]))
      "attributes" = attributes.
Proof. now destruct c. Qed.

Lemma bind_ok {A B : Type} (a : A) (k : A -> Result B) : bind (Ok a) k = k a.
Proof. reflexivity. Qed.

Lemma Ok_pair_inv {A B : Type} (x p : A) (y i : B) :
  Ok (x, y) = Ok (p, i) -> x = p /\ y = i.
Proof. intros H. injection H. auto. Qed.

(** Runs the exception binds of a hypothesis [transform now input = Ok _]
    and leaves the equations of the payload and of the final input. *)
Ltac run_transform H :=
  unfold transform in H; cbv zeta in H;
  repeat match type of H with
         | bind ?r _ = Ok _ =>
             let E := fresh "E" in
             destruct r eqn:E; [rewrite bind_ok in H; cbv beta in H | discriminate H]
         end;
  let Hp := fresh "Hpayload" in
  let Hi := fresh "Hinput" in
  apply Ok_pair_inv in H; destruct H as [Hp Hi].

(** Reads one attribute of the payload described by [Hp]. *)
Ltac read_attribute Hp :=
  rewrite <- Hp; unfold attribute; rewrite get_attributes_of_result.

(* ------------------------------------------------------------------ *)
(** ** Sale price *)

Lemma truthy_nullish_or_false (v : JsVal) : truthy (nullish_or_false v) = truthy v.
Proof. now destruct v. Qed.

Lemma truthy_get_receiver (o : JsVal) (k : string) :
  truthy (get o k) = true -> truthy o = true.
Proof. now destruct o. Qed.

(** [getSalePrice] returns [null] unless both flags are set, and
    otherwise an object holding both [salePrice] and
    [salePriceEffectiveDate]. *)
Lemma getSalePrice_enabled fd v fpv :
  feed_enable_sale_price fd = true ->
  truthy (mapping_enable_sale_price fpv) = true ->
  let pca := get (fpv_field_mapping fpv) "price_condition_availability" in
  exists amountMicros dates,
    getSalePrice fd v fpv =
      JObj [("salePrice", JObj [("amountMicros", amountMicros);
                                ("currencyCode", JStr EmptyString)]);
            ("salePriceEffectiveDate", JObj dates)]
    /\ (is_str (get pca "sale_price") PRICE_TYPES.PRICE = false ->
        is_str (get pca "sale_price") PRICE_TYPES.COMPARE_AT_PRICE = false ->
        amountMicros = JStr EmptyString)
    /\ (truthy (get pca "sale_start_date") = false ->
        truthy (get pca "sale_end_date") = false ->
        dates = []).
Proof.
  intros Hf Hm pca. revert Hf Hm.
  unfold feed_enable_sale_price, mapping_enable_sale_price, getSalePrice.
  intros Hf Hm.
  destruct (setting ps_enable_sale_price fd) as [b|]; [|discriminate]. subst b.
  cbn [of_option nullish_or_false truthy negb].
  rewrite (truthy_get_receiver _ _ Hm). cbn [negb].
  rewrite truthy_nullish_or_false, Hm. cbn [negb].
  fold pca.
  destruct (truthy (get pca "sale_price"));
    [destruct (is_str (get pca "sale_price") PRICE_TYPES.PRICE);
       [|destruct (is_str (get pca "sale_price") PRICE_TYPES.COMPARE_AT_PRICE)]|];
    destruct (truthy (get pca "sale_start_date"));
    destruct (truthy (get pca "sale_end_date"));
    cbn; do 2 eexists; (split; [reflexivity|]); split; intros; congruence.
Qed.

Lemma getSalePrice_disabled fd v fpv :
  feed_enable_sale_price fd && truthy (mapping_enable_sale_price fpv) = false ->
  getSalePrice fd v fpv = JNull.
Proof.
  unfold feed_enable_sale_price, mapping_enable_sale_price, getSalePrice.
  intros H.
  destruct (setting ps_enable_sale_price fd) as [[|]|]; try reflexivity.
  cbn [of_option nullish_or_false truthy negb].
  destruct (truthy (get (fpv_field_mapping fpv) "price_condition_availability"));
    [|reflexivity].
  cbn [negb]. rewrite truthy_nullish_or_false.
  cbn [andb] in H. now rewrite H.
Qed.

(** C3.  The payload contains [salePrice] exactly when both
    [feed.product_settings.enable_sale_price] and
    [field_mapping.price_condition_availability.enable_sale_price] are
    set (the second one, read from the schema-less document, counts as
    set when it is truthy; for a boolean that is [true]); in particular
    [salePrice] is absent when the [price_condition_availability] group is
    missing. *)
Theorem sale_price_present_iff (now : string)
    (input input' : GoogleMerchantProductTransformInput) (payload : JsVal) :
  transform now input = Ok (payload, input') ->
  (present (attribute payload "salePrice") = true <->
     setting ps_enable_sale_price (feed input) = Some true /\
     truthy (mapping_enable_sale_price (feedProductVariant input)) = true)
  /\ (truthy (get (fpv_field_mapping (feedProductVariant input))
                "price_condition_availability") = false ->
      attribute payload "salePrice" = None).
Proof.
  intros H. run_transform H.
  assert (Hread : attribute payload "salePrice" =
            if feed_enable_sale_price (feed input)
               && truthy (mapping_enable_sale_price (feedProductVariant input))
            then own_property (getSalePrice (feed input) (variant input)
                                 (feedProductVariant input)) "salePrice"
            else None).
  { read_attribute Hpayload. frame.
    destruct (feed_enable_sale_price (feed input)
              && truthy (mapping_enable_sale_price (feedProductVariant input))) eqn:En.
    - apply andb_prop in En as [Hf Hm].
      destruct (getSalePrice_enabled (feed input) (variant input) _ Hf Hm)
        as (am & dates & -> & _).
      unfold set_sale_price. cbn [truthy]. cbv zeta.
      rewrite own_copy_field_other by reflexivity.
      unfold copy_field. now rewrite own_set_if_same by (now autorewrite with objects).
    - rewrite (getSalePrice_disabled _ _ _ En).
      unfold set_sale_price. cbn [truthy]. frame. reflexivity. }
  rewrite Hread. unfold feed_enable_sale_price.
  split.
  - destruct (setting ps_enable_sale_price (feed input)) as [[|]|] eqn:Es;
      cbn [andb]; try (split; [discriminate | intros [? _]; discriminate]).
    destruct (truthy (mapping_enable_sale_price _)) eqn:Em;
      [|split; [discriminate | intros [_ ?]; discriminate]].
    assert (Hf : feed_enable_sale_price (feed input) = true)
      by (unfold feed_enable_sale_price; now rewrite Es).
    destruct (getSalePrice_enabled (feed input) (variant input) _ Hf Em)
      as (am & dates & -> & _).
    split; [auto | reflexivity].
  - intros Hg.
    assert (Hm : truthy (mapping_enable_sale_price (feedProductVariant input)) = false).
    { destruct (truthy (mapping_enable_sale_price _)) eqn:Em; [|reflexivity].
      apply truthy_get_receiver in Em. congruence. }
    rewrite Hm. now rewrite andb_false_r.
Qed.

Lemma sale_price_present_iff_witness :
  exists payload input',
    transform Sample.now Sample.input = Ok (payload, input') /\
    ((present (attribute payload "salePrice") = true <->
        setting ps_enable_sale_price (feed Sample.input) = Some true /\
        truthy (mapping_enable_sale_price (feedProductVariant Sample.input)) = true)
     /\ (truthy (get (fpv_field_mapping (feedProductVariant Sample.input))
                   "price_condition_availability") = false ->
         attribute payload "salePrice" = None)).
Proof.
  do 2 eexists. split.
  - vm_compute. reflexivity.
  - eapply (sale_price_present_iff Sample.now Sample.input). vm_compute. reflexivity.
Defined.

(** C10.  When the feed enables the sale price and the
    [price_condition_availability] group is present with a set
    [enable_sale_price], the payload holds both [salePrice] and
    [salePriceEffectiveDate]: [salePrice.currencyCode] is the empty string,
    [salePrice.amountMicros] is the empty string when [sale_price] is
    neither ['price'] nor ['compare_at_price'] (absent included), and
    [salePriceEffectiveDate] is the empty object when neither
    [sale_start_date] nor [sale_end_date] is set. *)
Theorem sale_price_emitted_when_enabled (now : string)
    (input input' : GoogleMerchantProductTransformInput) (payload : JsVal) :
  let pca := get (fpv_field_mapping (feedProductVariant input))
               "price_condition_availability" in
  transform now input = Ok (payload, input') ->
  setting ps_enable_sale_price (feed input) = Some true ->
  truthy pca = true ->
  truthy (get pca "enable_sale_price") = true ->
  exists amountMicros dates,
    attribute payload "salePrice" =
      Some (JObj [("amountMicros", amountMicros); ("currencyCode", JStr EmptyString)])
    /\ attribute payload "salePriceEffectiveDate" = Some (JObj dates)
    /\ (is_str (get pca "sale_price") "price" = false ->
        is_str (get pca "sale_price") "compare_at_price" = false ->
        amountMicros = JStr EmptyString)
    /\ (truthy (get pca "sale_start_date") = false ->
        truthy (get pca "sale_end_date") = false ->
        dates = []).
Proof.
  intros pca H Hfeed _ Hm. run_transform H.
  assert (Hf : feed_enable_sale_price (feed input) = true)
    by (unfold feed_enable_sale_price; now rewrite Hfeed).
  destruct (getSalePrice_enabled (feed input) (variant input) _ Hf Hm)
    as (am & dates & Hs & Ham & Hdates).
  exists am, dates. repeat split; try assumption.
  - read_attribute Hpayload. frame. rewrite Hs.
    unfold set_sale_price. cbn [truthy]. cbv zeta.
    rewrite own_copy_field_other by reflexivity.
    unfold copy_field. now rewrite own_set_if_same by (now autorewrite with objects).
  - read_attribute Hpayload. frame. rewrite Hs.
    unfold set_sale_price. cbn [truthy]. cbv zeta.
    unfold copy_field at 1. now rewrite own_set_if_same by (now autorewrite with objects).
Qed.

Lemma sale_price_emitted_when_enabled_witness :
  exists payload input',
    transform Sample.now Sample.input = Ok (payload, input') /\
    exists amountMicros dates,
      attribute payload "salePrice" =
        Some (JObj [("amountMicros", amountMicros); ("currencyCode", JStr EmptyString)])
      /\ attribute payload "salePriceEffectiveDate" = Some (JObj dates)
      /\ amountMicros = JStr EmptyString /\ dates = [].
Proof.
  do 2 eexists. split.
  - vm_compute. reflexivity.
  - destruct (sale_price_emitted_when_enabled Sample.now Sample.input _ _
                ltac:(vm_compute; reflexivity) eq_refl eq_refl eq_refl)
      as (am & dates & H1 & H2 & H3 & H4).
    exists am, dates. repeat split; auto.
Defined.

(* ------------------------------------------------------------------ *)
(** ** Prices and currency codes *)

(** C1.  The price of the payload is the variant price times 1000000
    converted to text as it is: for the price 0.0078125 the emitted
    [amountMicros] is ["7812.5"], which is not a string of digits, where
    rounding, as done for [autoPricingMinPrice] and [maximumRetailPrice],
    gives ["7813"]. *)
Theorem price_amount_micros_not_rounded :
  exists payload input',
    transform Sample.now Sample.fractional_input = Ok (payload, input')
    /\ attribute payload "price" =
         Some (JObj [("amountMicros", JStr "7812.5"); ("currencyCode", JStr "USD")])
    /\ all_chars is_digit "7812.5" = false
    /\ number_to_string (math_round (num_mul (Dec 78125 (-7)) million)) = "7813".
Proof.
  do 2 eexists. split; [vm_compute; reflexivity|].
  repeat split; reflexivity.
Qed.

(** C7.  For a feed with language ["EN"], market ["us"] and currency
    ["usd"], the sale price enabled and taken from the variant price,
    [salePrice.currencyCode] is the empty string, not ["USD"], while
    [price.currencyCode] is the upper-cased feed currency. *)
Theorem sale_price_currency_code_empty :
  let fd := feed Sample.sale_input in
  (String.length (feed_language fd) = 2%nat /\ all_chars is_alpha (feed_language fd) = true)
  /\ (String.length (feed_market fd) = 2%nat /\ all_chars is_alpha (feed_market fd) = true)
  /\ (String.length (feed_currency fd) = 3%nat
      /\ all_chars is_alpha (feed_currency fd) = true)
  /\ toUpperCase (feed_currency fd) = "USD"
  /\ exists payload input',
       transform Sample.now Sample.sale_input = Ok (payload, input')
       /\ attribute payload "salePrice" =
            Some (JObj [("amountMicros", JStr "19500000");
                        ("currencyCode", JStr EmptyString)])
       /\ attribute payload "price" =
            Some (JObj [("amountMicros", JStr "19500000");
                        ("currencyCode", JStr "USD")]).
Proof.
  repeat split; try reflexivity.
  do 2 eexists. split; [vm_compute; reflexivity|].
  split; reflexivity.
Qed.

(** *** The codes that are normalised *)

Lemma upper_char_alpha (c : ascii) :
  is_alpha c = true -> is_upper (upper_char c) = true.
Proof.
  destruct c as [[] [] [] [] [] [] [] []]; intros H;
    solve [discriminate H | reflexivity].
Qed.

Lemma lower_char_alpha (c : ascii) :
  is_alpha c = true -> is_lower (lower_char c) = true.
Proof.
  destruct c as [[] [] [] [] [] [] [] []]; intros H;
    solve [discriminate H | reflexivity].
Qed.

Lemma toUpperCase_alpha (s : string) :
  all_chars is_alpha s = true ->
  String.length (toUpperCase s) = String.length s
  /\ all_chars is_upper (toUpperCase s) = true.
Proof.
  induction s as [|c s IH]; cbn; [auto|].
  intros [Hc Hs]%andb_prop. destruct (IH Hs) as [IHl IHu].
  split; [now rewrite IHl|]. now rewrite upper_char_alpha, IHu.
Qed.

Lemma toLowerCase_alpha (s : string) :
  all_chars is_alpha s = true ->
  String.length (toLowerCase s) = String.length s
  /\ all_chars is_lower (toLowerCase s) = true.
Proof.
  induction s as [|c s IH]; cbn; [auto|].
  intros [Hc Hs]%andb_prop. destruct (IH Hs) as [IHl IHu].
  split; [now rewrite IHl|]. now rewrite lower_char_alpha, IHu.
Qed.

Lemma own_set_parsed_price_cases k override fd o :
  is_object o = true ->
  own_property (set_parsed_price k override fd o) k = own_property o k
  \/ exists amountMicros,
       own_property (set_parsed_price k override fd o) k
       = Some (price_object amountMicros fd).
Proof.
  intros Ho. unfold set_parsed_price.
  destruct (truthy override); [|now left].
  destruct (negb _); [|now left].
  right. eexists. now apply own_set_same.
Qed.

(** The language, the market, and the currency of [price],
    [autoPricingMinPrice] and [maximumRetailPrice] are case-normalised
    from the feed. *)
Lemma normalised_codes now input input' payload :
  transform now input = Ok (payload, input') ->
  let currencyCode := JStr (toUpperCase (feed_currency (feed input))) in
  own_property payload "contentLanguage"
    = Some (JStr (toLowerCase (feed_language (feed input))))
  /\ own_property payload "feedLabel"
       = Some (JStr (toUpperCase (feed_market (feed input))))
  /\ (exists amountMicros,
        attribute payload "price" = Some (price_object amountMicros (feed input)))
  /\ forall k v,
       k = "autoPricingMinPrice" \/ k = "maximumRetailPrice" ->
       attribute payload k = Some v ->
       own_property v "currencyCode" = Some currencyCode.
Proof.
  intros H currencyCode. run_transform H.
  split; [rewrite <- Hpayload; now rewrite own_set_if_other by reflexivity|].
  split; [rewrite <- Hpayload; now rewrite own_set_if_other by reflexivity|].
  split.
  - read_attribute Hpayload. frame.
    rewrite own_set_if_same by (now autorewrite with objects).
    destruct (truthy (getPrice _ _)); [eauto|]. frame. cbn. eauto.
  - intros k v [-> | ->]; read_attribute Hpayload; frame.
    + match goal with
      | |- own_property (set_parsed_price ?k ?ov ?fd ?o) _ = _ -> _ =>
          destruct (own_set_parsed_price_cases k ov fd o) as [-> | (am & ->)];
            [now autorewrite with objects | | ]
      end.
      * frame. discriminate.
      * now intros [= <-].
    + match goal with
      | |- own_property (set_parsed_price ?k ?ov ?fd ?o) _ = _ -> _ =>
          destruct (own_set_parsed_price_cases k ov fd o) as [-> | (am & ->)];
            [now autorewrite with objects | | ]
      end.
      * frame. discriminate.
      * now intros [= <-].
Qed.

(* ------------------------------------------------------------------ *)
(** ** The resource name *)

Lemma getProductId_with_field_mapping fd fpv fm :
  getProductId fd (with_field_mapping fpv fm) = getProductId fd fpv.
Proof. reflexivity. Qed.

Lemma getAccountId_path fd :
  getAccountId fd = or_else (feed_account_id fd) EmptyString.
Proof.
  unfold getAccountId, feed_account_id.
  destruct (feed_metadata fd) as [m|]; [|reflexivity].
  destruct (feed_google_merchant_center m) as [g|]; [|reflexivity].
  now destruct (gmc_account g).
Qed.

(** C6.  The payload has the top-level fields [channel], [offerId],
    [contentLanguage] and [feedLabel]; it has a [name] exactly when
    [feed.metadata.google_merchant_center.account.account_id] resolves to a
    non-empty string, and [name] is then
    [accounts/{accountId}/productInputs/{channel}~{contentLanguage}~{feedLabel}~{offerId}];
    otherwise the key is absent (so [name] is never the empty string). *)
Theorem name_present_iff (now : string)
    (input input' : GoogleMerchantProductTransformInput) (payload : JsVal) :
  transform now input = Ok (payload, input') ->
  let channel := "ONLINE" in
  let offerId := getProductId (feed input) (feedProductVariant input) in
  let contentLanguage := toLowerCase (feed_language (feed input)) in
  let feedLabel := toUpperCase (feed_market (feed input)) in
  own_property payload "channel" = Some (JStr channel)
  /\ own_property payload "offerId" = Some (JStr offerId)
  /\ own_property payload "contentLanguage" = Some (JStr contentLanguage)
  /\ own_property payload "feedLabel" = Some (JStr feedLabel)
  /\ own_property payload "name" =
       match feed_account_id (feed input) with
       | Some accountId =>
           if String.eqb accountId EmptyString then None
           else Some (JStr ("accounts/" ++ accountId ++ "/productInputs/" ++ channel
                            ++ "~" ++ contentLanguage ++ "~" ++ feedLabel
                            ++ "~" ++ offerId))
       | None => None
       end
  /\ (present (own_property payload "name") = true <->
      exists accountId,
        feed_account_id (feed input) = Some accountId /\ accountId <> EmptyString)
  /\ own_property payload "name" <> Some (JStr EmptyString).
Proof.
  intros H channel offerId contentLanguage feedLabel. run_transform H.
  rewrite !getProductId_with_field_mapping in Hpayload.
  fold offerId contentLanguage feedLabel in Hpayload.
  assert (Hname : own_property payload "name" =
       match feed_account_id (feed input) with
       | Some accountId =>
           if String.eqb accountId EmptyString then None
           else Some (JStr ("accounts/" ++ accountId ++ "/productInputs/" ++ channel
                            ++ "~" ++ contentLanguage ++ "~" ++ feedLabel
                            ++ "~" ++ offerId))
       | None => None
       end).
  { rewrite <- Hpayload. rewrite own_set_if_same by reflexivity.
    rewrite getAccountId_path.
    destruct (feed_account_id (feed input)) as [acct|]; [|reflexivity].
    unfold or_else. destruct (String.eqb acct EmptyString) eqn:Ea; [reflexivity|].
    cbn [truthy]. now rewrite Ea. }
  repeat split; try (rewrite <- Hpayload; now rewrite own_set_if_other by reflexivity).
  - exact Hname.
  - rewrite Hname. destruct (feed_account_id (feed input)) as [acct|]; [|discriminate].
    destruct (String.eqb acct EmptyString) eqn:Ea; [discriminate|].
    intros _. exists acct. split; [reflexivity|].
    intros ->. discriminate.
  - rewrite Hname. intros (acct & -> & Ha).
    destruct (String.eqb acct EmptyString) eqn:Ea; [|reflexivity].
    apply String.eqb_eq in Ea. contradiction.
  - rewrite Hname. destruct (feed_account_id (feed input)) as [acct|]; [|discriminate].
    destruct (String.eqb acct EmptyString); discriminate.
Qed.

Lemma name_present_iff_witness :
  exists payload input',
    transform Sample.now Sample.input = Ok (payload, input')
    /\ own_property payload "name" =
         Some (JStr "accounts/123/productInputs/ONLINE~en~US~s1_p1_v1").
Proof.
  do 2 eexists. split.
  - vm_compute. reflexivity.
  - eapply (name_present_iff Sample.now Sample.input). vm_compute. reflexivity.
Defined.

(* ------------------------------------------------------------------ *)
(** ** Availability *)

Lemma falsy_get (o : JsVal) (k : string) : truthy o = false -> get o k = JUndefined.
Proof. now destruct o. Qed.

(** The three nested tests of the getters amount to [override || d]. *)
Lemma pca_override_spec fpv k d :
  pca_override fpv k d =
    js_or (get (get (fpv_field_mapping fpv) "price_condition_availability") k) d.
Proof.
  unfold pca_override, js_or.
  destruct (truthy (fpv_field_mapping fpv)) eqn:Efm.
  - destruct (truthy (get (fpv_field_mapping fpv) "price_condition_availability")) eqn:Ep;
      [reflexivity|].
    now rewrite (falsy_get _ k Ep).
  - now rewrite (falsy_get _ "price_condition_availability" Efm).
Qed.

(** C9, as the specification words it, fails: with inventory
    [{ type: 'custom' }], no custom setting and no override, the payload
    has [availability = 'custom'], where reading [custom_setting] gives no
    availability at all. *)
Lemma availability_custom_without_setting :
  exists payload input',
    transform Sample.now Sample.custom_input = Ok (payload, input')
    /\ attribute payload "availability" = Some (JStr "custom")
    /\ attribute payload "availability" <>
         emitted (spec_availability (feed Sample.custom_input)
                    (feedProductVariant Sample.custom_input)).
Proof.
  do 2 eexists. split; [vm_compute; reflexivity|].
  split; [reflexivity|]. vm_compute. discriminate.
Qed.

(** C9, amended.  The payload's [availability] is the resolved
    availability when that is truthy and is absent otherwise.  A truthy
    [field_mapping.price_condition_availability.availability] is the
    resolved availability.  Without one, the resolved availability is
    [custom_setting] when the inventory type is ['custom'] and
    [custom_setting] is non-empty, and is otherwise the (non-empty)
    inventory type itself, ['custom'] included.  In particular inventory
    [{ type: 'custom', custom_setting: 'preorder' }] without override gives
    [availability = 'preorder']. *)
Theorem availability_resolution (now : string)
    (input input' : GoogleMerchantProductTransformInput) (payload : JsVal) :
  transform now input = Ok (payload, input') ->
  let fd := feed input in
  let fpv := feedProductVariant input in
  attribute payload "availability" = emitted (getAvailability fd fpv)
  /\ (truthy (availability_override fpv) = true ->
      getAvailability fd fpv = availability_override fpv)
  /\ (truthy (availability_override fpv) = false ->
      forall inventory, feed_inventory fd = Some inventory ->
        (forall s, inventory_type inventory = Some INVENTORY_TYPES.CUSTOM ->
                   inventory_custom_setting inventory = Some s -> s <> EmptyString ->
                   getAvailability fd fpv = JStr s)
        /\ (forall t, inventory_type inventory = Some t -> t <> EmptyString ->
                      t <> INVENTORY_TYPES.CUSTOM
                      \/ or_else (inventory_custom_setting inventory) EmptyString
                         = EmptyString ->
                      getAvailability fd fpv = JStr t))
  /\ (truthy (availability_override fpv) = false ->
      feed_inventory fd =
        Some {| inventory_type := Some "custom";
                inventory_custom_setting := Some "preorder" |} ->
      attribute payload "availability" = Some (JStr "preorder")).
Proof.
  intros H fd fpv. run_transform H.
  assert (Hread : attribute payload "availability" = emitted (getAvailability fd fpv)).
  { read_attribute Hpayload. frame.
    rewrite own_set_if_same by (now autorewrite with objects).
    unfold emitted. fold fd fpv.
    destruct (truthy (getAvailability fd fpv)); [reflexivity|].
    now frame. }
  assert (Hcustom : forall inventory s,
             truthy (availability_override fpv) = false ->
             feed_inventory fd = Some inventory ->
             inventory_type inventory = Some INVENTORY_TYPES.CUSTOM ->
             inventory_custom_setting inventory = Some s -> s <> EmptyString ->
             getAvailability fd fpv = JStr s).
  { intros inventory s Ho Hi Ht Hs Hne.
    unfold getAvailability. rewrite pca_override_spec. unfold js_or.
    fold (availability_override fpv). rewrite Ho, Hi, Ht, Hs.
    apply String.eqb_neq in Hne. cbn. now rewrite Hne. }
  split; [exact Hread|]. split; [|split].
  - intros Ho. unfold getAvailability. rewrite pca_override_spec. unfold js_or.
    fold (availability_override fpv). now rewrite Ho.
  - intros Ho inventory Hi. split.
    + intros s. now apply Hcustom.
    + intros t Ht Hne Hcase.
      unfold getAvailability. rewrite pca_override_spec. unfold js_or.
      fold (availability_override fpv). rewrite Ho, Hi, Ht.
      apply String.eqb_neq in Hne. cbn [of_option truthy]. rewrite Hne. cbn [negb].
      destruct Hcase as [Hc|Hc].
      * apply String.eqb_neq in Hc. cbn [is_str]. now rewrite Hc.
      * destruct (inventory_custom_setting inventory) as [s|]; cbn [of_option truthy].
        -- unfold or_else in Hc. destruct (String.eqb s EmptyString) eqn:Es.
           ++ cbn [negb]. now rewrite andb_false_r.
           ++ subst s. discriminate.
        -- now rewrite andb_false_r.
  - intros Ho Hi. rewrite Hread.
    rewrite (Hcustom _ "preorder" Ho Hi eq_refl eq_refl) by discriminate.
    reflexivity.
Qed.

Lemma availability_resolution_witness :
  exists payload input',
    transform Sample.now Sample.plain_input = Ok (payload, input')
    /\ attribute payload "availability" = Some (JStr "preorder").
Proof.
  do 2 eexists. split.
  - vm_compute. reflexivity.
  - eapply (availability_resolution Sample.now Sample.plain_input).
    + vm_compute. reflexivity.
    + reflexivity.
    + reflexivity.
Defined.

(* ------------------------------------------------------------------ *)
(** ** The product link *)





(* ------------------------------------------------------------------ *)
(** ** GTINs and MPN *)

Lemma valid_template_trim (t : option string) :
  valid_template t =
    match t with
    | Some s => negb (String.eqb (trim s) EmptyString)
    | None => false
    end.
Proof.
  destruct t as [s|]; [|reflexivity]. unfold valid_template.
  destruct (String.eqb s EmptyString) eqn:E; [|reflexivity].
  apply String.eqb_eq in E. now subst s.
Qed.

Lemma valid_template_truthy (t : option string) :
  valid_template t = true -> truthy (of_option JStr t) = true.
Proof.
  destruct t as [s|]; [|discriminate]. unfold valid_template. cbn.
  now intros [H _]%andb_prop.
Qed.

Lemma template_bind (x : JsVal) v fpv (r : option string) :
  (if truthy x
   then let* t := replaceTemplateVariables x v fpv in Ok (Some t)
   else Ok None) = Ok r ->
  r = if truthy x
      then match replaceTemplateVariables x v fpv with
           | Ok t => Some t
           | Throw _ => None
           end
      else None.
Proof.
  destruct (truthy x); [|congruence].
  destruct (replaceTemplateVariables x v fpv); cbn; congruence.
Qed.

(** What [getGtinsMpn] returns when it returns. *)
Lemma getGtinsMpn_result fd v fpv g :
  getGtinsMpn fd v fpv = Ok g ->
  g = if truthy (getIdentifierExists fpv) then
        if identifier_type_is PRODUCT_IDENTIFIER_TYPES.GTIN fd then
          if valid_template (identifier_value "gtin" v fpv)
          then JObj [("gtins", JArr [of_option JStr (identifier_value "gtin" v fpv)]);
                     ("mpn", JNull)]
          else JNull
        else if identifier_type_is PRODUCT_IDENTIFIER_TYPES.MPN fd then
          if valid_template (identifier_value "mpn" v fpv)
          then JObj [("gtins", JNull);
                     ("mpn", of_option JStr (identifier_value "mpn" v fpv))]
          else JNull
        else JNull
      else JNull.
Proof.
  unfold getGtinsMpn, identifier_type_is. intros H.
  destruct (truthy (getIdentifierExists fpv)); cbn [negb] in H; [|congruence].
  destruct (setting ps_product_identifier fd) as [ty|]; cbn [of_option] in H;
    [|cbn in H; congruence].
  destruct (negb (truthy (JStr ty)) || is_str (JStr ty) PRODUCT_IDENTIFIER_TYPES.NO)
    eqn:C.
  - destruct (String.eqb ty PRODUCT_IDENTIFIER_TYPES.GTIN) eqn:G.
    { apply String.eqb_eq in G. subst ty. discriminate C. }
    destruct (String.eqb ty PRODUCT_IDENTIFIER_TYPES.MPN) eqn:M.
    { apply String.eqb_eq in M. subst ty. discriminate C. }
    congruence.
  - cbv zeta in H.
    match type of H with
    | bind ?r _ = _ => destruct r as [gt|] eqn:Tg; [|discriminate H]
    end.
    rewrite bind_ok in H; cbv beta in H.
    match type of H with
    | bind ?r _ = _ => destruct r as [mt|] eqn:Tm; [|discriminate H]
    end.
    rewrite bind_ok in H; cbv beta in H.
    apply template_bind in Tg. apply template_bind in Tm.
    fold (identifier_value "gtin" v fpv) in Tg.
    fold (identifier_value "mpn" v fpv) in Tm.
    subst gt mt. cbn [is_str] in H.
    destruct (String.eqb ty PRODUCT_IDENTIFIER_TYPES.GTIN).
    + destruct (valid_template (identifier_value "gtin" v fpv)); cbn in H; congruence.
    + destruct (String.eqb ty PRODUCT_IDENTIFIER_TYPES.MPN); [|congruence].
      destruct (valid_template (identifier_value "mpn" v fpv)) eqn:V.
      * rewrite (valid_template_truthy _ V) in H. congruence.
      * cbn in H. congruence.
Qed.

Lemma own_set_gtins_mpn_gtins g o :
  is_object o = true ->
  own_property (set_gtins_mpn g o) "gtins" =
    if truthy g && (truthy (get g "gtins") && gt_zero (get_length (get g "gtins")))
    then Some (get g "gtins") else own_property o "gtins".
Proof.
  intros Ho. unfold set_gtins_mpn. destruct (truthy g); [|reflexivity].
  cbv zeta. rewrite own_set_if_other by reflexivity.
  now rewrite own_set_if_same.
Qed.

Lemma own_set_gtins_mpn_mpn g o :
  is_object o = true ->
  own_property (set_gtins_mpn g o) "mpn" =
    if truthy g && truthy (get g "mpn")
    then Some (get g "mpn") else own_property o "mpn".
Proof.
  intros Ho. unfold set_gtins_mpn. destruct (truthy g); [|reflexivity].
  cbv zeta. rewrite own_set_if_same by (now autorewrite with objects).
  now rewrite own_set_if_other by reflexivity.
Qed.

(** C2.  The payload contains [gtins] (respectively [mpn]) exactly when
    the resolved [identifierExists] is set (truthy; for a boolean, [true]),
    the feed's [product_identifier] is ['gtin'] (respectively ['mpn']) and
    the template-substituted override is non-empty after trimming; the
    value emitted is that text.  With identifier type ['gtin'] there is no
    [mpn], and with ['mpn'] no [gtins]. *)
Theorem gtins_mpn_present_iff (now : string)
    (input input' : GoogleMerchantProductTransformInput) (payload : JsVal) :
  transform now input = Ok (payload, input') ->
  let identifierExists := getIdentifierExists (feedProductVariant input) in
  let identifierType := setting ps_product_identifier (feed input) in
  let value k := identifier_value k (variant input) (feedProductVariant input) in
  attribute payload "identifierExists" = Some identifierExists
  /\ (present (attribute payload "gtins") = true <->
      truthy identifierExists = true /\ identifierType = Some "gtin" /\
      exists t, value "gtin" = Some t /\ trim t <> EmptyString)
  /\ (present (attribute payload "mpn") = true <->
      truthy identifierExists = true /\ identifierType = Some "mpn" /\
      exists t, value "mpn" = Some t /\ trim t <> EmptyString)
  /\ (present (attribute payload "gtins") = true ->
      exists t, value "gtin" = Some t /\ attribute payload "gtins" = Some (JArr [JStr t]))
  /\ (present (attribute payload "mpn") = true ->
      exists t, value "mpn" = Some t /\ attribute payload "mpn" = Some (JStr t))
  /\ (identifierType = Some "gtin" -> attribute payload "mpn" = None)
  /\ (identifierType = Some "mpn" -> attribute payload "gtins" = None).
Proof.
  intros H identifierExists identifierType value. run_transform H.
  apply getGtinsMpn_result in E2.
  fold identifierExists (value "gtin") (value "mpn") in E2.
  assert (Hie : attribute payload "identifierExists" = Some identifierExists).
  { read_attribute Hpayload. now frame. }
  assert (Hg : attribute payload "gtins" =
                 if truthy identifierExists
                    && identifier_type_is "gtin" (feed input)
                    && valid_template (value "gtin")
                 then Some (JArr [of_option JStr (value "gtin")]) else None).
  { read_attribute Hpayload. frame.
    rewrite own_set_gtins_mpn_gtins by (now autorewrite with objects).
    rewrite E2. unfold PRODUCT_IDENTIFIER_TYPES.GTIN, PRODUCT_IDENTIFIER_TYPES.MPN.
    destruct (truthy identifierExists); [|now frame].
    destruct (identifier_type_is "gtin" (feed input)).
    - destruct (valid_template (value "gtin")); [reflexivity|now frame].
    - destruct (identifier_type_is "mpn" (feed input)); [|now frame].
      destruct (valid_template (value "mpn")); now frame. }
  assert (Hm : attribute payload "mpn" =
                 if truthy identifierExists
                    && negb (identifier_type_is "gtin" (feed input))
                    && identifier_type_is "mpn" (feed input)
                    && valid_template (value "mpn")
                 then Some (of_option JStr (value "mpn")) else None).
  { read_attribute Hpayload. frame.
    rewrite own_set_gtins_mpn_mpn by (now autorewrite with objects).
    rewrite E2. unfold PRODUCT_IDENTIFIER_TYPES.GTIN, PRODUCT_IDENTIFIER_TYPES.MPN.
    destruct (truthy identifierExists); [|now frame].
    destruct (identifier_type_is "gtin" (feed input)).
    - destruct (valid_template (value "gtin")); now frame.
    - destruct (identifier_type_is "mpn" (feed input)); [|now frame].
      destruct (valid_template (value "mpn")) eqn:V; [|now frame].
      cbn [truthy get lookup String.eqb Ascii.eqb Bool.eqb andb].
      now rewrite (valid_template_truthy _ V). }
  clear Hpayload Hinput E2.
  rewrite Hg, Hm. rewrite !valid_template_trim.
  unfold identifier_type_is. fold identifierType.
  split; [exact Hie|].
  destruct (truthy identifierExists); cbn [andb];
    [|repeat split; try discriminate; try tauto; intros (? & _); discriminate].
  destruct identifierType as [ty|]; cbn [andb negb];
    [|repeat split; try discriminate; intros (_ & ? & _); discriminate].
  destruct (String.eqb ty "gtin") eqn:G; cbn [andb negb].
  - apply String.eqb_eq in G. subst ty. cbn [String.eqb Ascii.eqb Bool.eqb andb].
    destruct (value "gtin") as [t|]; cbn [of_option].
    + destruct (String.eqb (trim t) EmptyString) eqn:T; cbn [negb present];
        repeat split; try discriminate; try reflexivity; eauto.
      * intros (_ & _ & t' & [= <-] & Hne). apply String.eqb_eq in T. contradiction.
      * intros (_ & [=] & _).
      * exists t. split; [reflexivity|]. apply String.eqb_neq. exact T.
      * intros (_ & [=] & _).
    + repeat split; try discriminate.
      * intros (_ & _ & t' & [=] & _).
      * intros (_ & [=] & _).
  - apply String.eqb_neq in G.
    destruct (String.eqb ty "mpn") eqn:M; cbn [andb negb present].
    + apply String.eqb_eq in M. subst ty.
      destruct (value "mpn") as [t|]; cbn [of_option].
      * destruct (String.eqb (trim t) EmptyString) eqn:T; cbn [negb present];
          repeat split; try discriminate; try reflexivity; eauto.
        -- intros (_ & [=] & _).
        -- intros (_ & _ & t' & [= <-] & Hne). apply String.eqb_eq in T. contradiction.
        -- intros (_ & [=] & _).
        -- exists t. split; [reflexivity|]. apply String.eqb_neq. exact T.
      * repeat split; try discriminate.
        -- intros (_ & [=] & _).
        -- intros (_ & _ & t' & [=] & _).
    + apply String.eqb_neq in M.
      repeat split; try discriminate; try reflexivity.
      * intros (_ & [= ->] & _). contradiction.
      * intros (_ & [= ->] & _). contradiction.
Qed.

Lemma gtins_mpn_present_iff_witness :
  exists payload input',
    transform Sample.now Sample.input = Ok (payload, input')
    /\ attribute payload "identifierExists" = Some (JBool true)
    /\ (present (attribute payload "gtins") = true <->
        truthy (JBool true) = true /\ Some "gtin" = Some "gtin" /\
        exists t, Some "0123" = Some t /\ trim t <> EmptyString)
    /\ attribute payload "gtins" = Some (JArr [JStr "0123"])
    /\ attribute payload "mpn" = None.
Proof.
  do 2 eexists. split.
  - vm_compute. reflexivity.
  - destruct (gtins_mpn_present_iff Sample.now Sample.input _ _
                ltac:(vm_compute; reflexivity))
      as (H1 & H2 & _ & _ & _ & H6 & _).
    split; [exact H1|]. split; [exact H2|]. split; [reflexivity|].
    apply H6. reflexivity.
Defined.

(* ------------------------------------------------------------------ *)
(** ** What a run does to its input *)

Lemma with_field_mapping_same fpv :
  with_field_mapping fpv (fpv_field_mapping fpv) = fpv.
Proof. now destruct fpv. Qed.

Lemma with_field_mapping_twice fpv fm fm' :
  with_field_mapping (with_field_mapping fpv fm) fm' = with_field_mapping fpv fm'.
Proof. reflexivity. Qed.

Lemma restore_input (input : GoogleMerchantProductTransformInput) :
  {| shop := shop input; feed := feed input; product := product input;
     variant := variant input; mainImage := mainImage input;
     feedProductVariant := feedProductVariant input |} = input.
Proof. now destruct input. Qed.

(** The nested tests [if (fm) { if (fm.g) { if (fm.g.k) ... } }] amount to
    [fm.g.k || d]. *)
Lemma nested_override (fm : JsVal) (g k : string) (d : JsVal) :
  (if truthy fm then
     if truthy (get fm g) then
       if truthy (get (get fm g) k) then get (get fm g) k else d
     else d
   else d) = js_or (get (get fm g) k) d.
Proof.
  unfold js_or.
  destruct (truthy fm) eqn:Efm.
  - destruct (truthy (get fm g)) eqn:Eg; [reflexivity|].
    now rewrite (falsy_get _ k Eg).
  - now rewrite (falsy_get _ g Efm).
Qed.

(** The apparel and shipping getters leave the field mapping as it is. *)
Lemma getApparelProductDetails_unchanged fpv :
  snd (getApparelProductDetails fpv) = fpv_field_mapping fpv.
Proof.
  unfold getApparelProductDetails.
  destruct (truthy (fpv_field_mapping fpv)); [|reflexivity].
  destruct (truthy (get (fpv_field_mapping fpv) "apparel_product_details")) eqn:E;
    [|reflexivity].
  cbn [snd]. rewrite rewrite_all_id. now apply set_get_same.
Qed.

Lemma getShippingAndReturns_unchanged fpv :
  snd (getShippingAndReturns fpv) = fpv_field_mapping fpv.
Proof.
  unfold getShippingAndReturns.
  destruct (truthy (fpv_field_mapping fpv)); [|reflexivity].
  destruct (truthy (get (fpv_field_mapping fpv) "shipping_and_returns")) eqn:E;
    [|reflexivity].
  cbn [snd]. rewrite rewrite_all_id. now apply set_get_same.
Qed.

(** [getAdditionalDetails] writes to the [additional_details] group only,
    and only when it holds certifications. *)
Lemma getAdditionalDetails_other_groups fpv r k :
  getAdditionalDetails fpv = Ok r ->
  String.eqb k "additional_details" = false ->
  get (snd r) k = get (fpv_field_mapping fpv) k.
Proof.
  unfold getAdditionalDetails. intros H Hk.
  destruct (truthy (fpv_field_mapping fpv)); [|now inversion H].
  destruct (truthy (get (fpv_field_mapping fpv) "additional_details"));
    [|now inversion H].
  match type of H with
  | bind ?x _ = _ => destruct x as [ad|]; [|discriminate H]
  end.
  rewrite bind_ok in H. inversion H. cbn [snd].
  now apply get_set_other.
Qed.

Lemma getAdditionalDetails_unchanged fpv r :
  truthy (get (get (fpv_field_mapping fpv) "additional_details") "certifications")
    = false ->
  getAdditionalDetails fpv = Ok r ->
  snd r = fpv_field_mapping fpv.
Proof.
  unfold getAdditionalDetails. intros Hc H.
  destruct (truthy (fpv_field_mapping fpv)); [|now inversion H].
  destruct (truthy (get (fpv_field_mapping fpv) "additional_details")) eqn:E;
    [|now inversion H].
  rewrite rewrite_all_id in H. rewrite Hc in H. rewrite bind_ok in H.
  inversion H. cbn [snd]. now apply set_get_same.
Qed.




Lemma getReturnPolicyLabels_spec fpv :
  getReturnPolicyLabels fpv =
    js_or (get (get (fpv_field_mapping fpv) "shipping_and_returns")
             "return_policy_labels") JNull.
Proof. apply nested_override. Qed.


(* ------------------------------------------------------------------ *)
(** ** Runs that throw and runs that return *)

Lemma fpv_field_mapping_with fpv fm :
  fpv_field_mapping (with_field_mapping fpv fm) = fm.
Proof. reflexivity. Qed.












(* ------------------------------------------------------------------ *)
(** ** Running twice *)

(** The clock enters a run through the tracking token only. *)
Lemma transform_token now now' input :
  encryptToString (feed_id (feed input)) (feed_shop_id (feed input)) now'
  = encryptToString (feed_id (feed input)) (feed_shop_id (feed input)) now ->
  transform now' input = transform now input.
Proof.
  intros H. unfold transform, getLink, addUtmParameters. now rewrite H.
Qed.

(** A run leaves its input as it was, unless the field mapping holds
    certifications. *)
Lemma transform_input_unchanged now input payload input' :
  truthy (certifications_override input) = false ->
  transform now input = Ok (payload, input') ->
  input' = input.
Proof.
  unfold certifications_override. intros Hc H. run_transform H.
  rewrite getApparelProductDetails_unchanged, with_field_mapping_same in E3, Hinput.
  rewrite (getAdditionalDetails_unchanged _ _ Hc E3) in Hinput.
  rewrite with_field_mapping_same in Hinput.
  rewrite getShippingAndReturns_unchanged, with_field_mapping_same in Hinput.
  rewrite <- Hinput. apply restore_input.
Qed.

(** C8.  Two runs on the same input with the same clock do not give the
    same payload when the field mapping holds certifications: the first
    run rewrites them inside the caller's field mapping, and the second
    run emits certifications whose fields are all empty. *)
Theorem rerun_differs_with_certifications :
  exists payload1 input1 payload2 input2,
    transform Sample.now Sample.certified_input = Ok (payload1, input1)
    /\ transform Sample.now input1 = Ok (payload2, input2)
    /\ payload1 <> payload2
    /\ attribute payload1 "certifications" =
         Some (JArr [JObj [("certificationAuthority", JStr "EC");
                           ("certificationName", JStr "EPREL");
                           ("certificationCode", JStr "123456");
                           ("certificationValue", JStr "A")]])
    /\ attribute payload2 "certifications" =
         Some (JArr [JObj [("certificationAuthority", JStr EmptyString);
                           ("certificationName", JStr EmptyString);
                           ("certificationCode", JStr EmptyString);
                           ("certificationValue", JStr EmptyString)]]).
Proof.
  do 4 eexists. split; [vm_compute; reflexivity|].
  split; [vm_compute; reflexivity|].
  split; [|split; reflexivity].
  intros H. apply (f_equal (fun p => attribute p "certifications")) in H.
  vm_compute in H. discriminate H.
Qed.

(** X22.  When the field mapping holds no certifications, a run leaves its
    input unchanged, so that running [transform] again on the same input
    with the same clock gives the same payload.  For any input, the clock
    is read for the tracking token only: two runs on the same input whose
    tokens agree give the same result. *)
Lemma rerun_identical_without_certifications (now : string)
    (input input' : GoogleMerchantProductTransformInput) (payload : JsVal) :
  truthy (certifications_override input) = false ->
  transform now input = Ok (payload, input') ->
  input' = input
  /\ transform now input' = Ok (payload, input')
  /\ forall now',
       encryptToString (feed_id (feed input)) (feed_shop_id (feed input)) now'
       = encryptToString (feed_id (feed input)) (feed_shop_id (feed input)) now ->
       transform now' input = Ok (payload, input').
Proof.
  intros Hc H.
  pose proof (transform_input_unchanged _ _ _ _ Hc H) as Hi.
  split; [exact Hi|]. split.
  - rewrite Hi at 1. exact H.
  - intros now' Htoken. now rewrite (transform_token _ _ _ Htoken).
Qed.

Lemma rerun_identical_without_certifications_witness :
  exists payload input',
    transform Sample.now Sample.input = Ok (payload, input')
    /\ input' = Sample.input
    /\ transform Sample.now input' = Ok (payload, input').
Proof.
  do 2 eexists. split.
  - vm_compute. reflexivity.
  - destruct (rerun_identical_without_certifications Sample.now Sample.input _ _
                eq_refl ltac:(vm_compute; reflexivity)) as (H1 & H2 & _).
    split; [exact H1 | exact H2].
Defined.

(* ------------------------------------------------------------------ *)
(** ** Override-only groups *)

Lemma truthy_js_or_null (x : JsVal) : truthy (js_or x JNull) = truthy x.
Proof. unfold js_or. now destruct (truthy x) eqn:E. Qed.

Lemma get_js_or_null (x : JsVal) (k : string) : get (js_or x JNull) k = get x k.
Proof.
  unfold js_or. destruct (truthy x) eqn:E; [reflexivity|].
  now rewrite (falsy_get _ k E).
Qed.

Lemma getApparelProductDetails_value fpv :
  fst (getApparelProductDetails fpv)
  = js_or (get (fpv_field_mapping fpv) "apparel_product_details") JNull.
Proof.
  unfold getApparelProductDetails, js_or.
  destruct (truthy (fpv_field_mapping fpv)) eqn:Efm.
  - destruct (truthy (get _ "apparel_product_details")); [|reflexivity].
    cbn [fst]. apply rewrite_all_id.
  - now rewrite (falsy_get _ "apparel_product_details" Efm).
Qed.

Lemma getShippingAndReturns_value fpv :
  fst (getShippingAndReturns fpv)
  = js_or (get (fpv_field_mapping fpv) "shipping_and_returns") JNull.
Proof.
  unfold getShippingAndReturns, js_or.
  destruct (truthy (fpv_field_mapping fpv)) eqn:Efm.
  - destruct (truthy (get _ "shipping_and_returns")); [|reflexivity].
    cbn [fst]. apply rewrite_all_id.
  - now rewrite (falsy_get _ "shipping_and_returns" Efm).
Qed.

(** What [getAdditionalDetails] returns: the group itself, up to its
    [certifications]. *)
Lemma getAdditionalDetails_value fpv r :
  getAdditionalDetails fpv = Ok r ->
  truthy (fst r) = truthy (get (fpv_field_mapping fpv) "additional_details")
  /\ forall k, String.eqb k "certifications" = false ->
       get (fst r) k = get (get (fpv_field_mapping fpv) "additional_details") k.
Proof.
  unfold getAdditionalDetails. intros H.
  destruct (truthy (fpv_field_mapping fpv)) eqn:Efm.
  - destruct (truthy (get (fpv_field_mapping fpv) "additional_details")) eqn:Ead.
    + rewrite rewrite_all_id in H.
      destruct (truthy (get (get (fpv_field_mapping fpv) "additional_details")
                          "certifications")).
      * match type of H with
        | bind (bind ?x _) _ = _ => destruct x as [items|]; [|discriminate H]
        end.
        rewrite bind_ok in H.
        match type of H with
        | bind (bind ?x _) _ = _ => destruct x as [entries|]; [|discriminate H]
        end.
        rewrite !bind_ok in H. inversion H. cbn [fst].
        destruct (get (fpv_field_mapping fpv) "additional_details");
          try discriminate Ead; (split; [assumption || reflexivity|]);
          intros k Hk; try reflexivity.
        now apply get_set_other.
      * rewrite bind_ok in H. inversion H. cbn [fst]. now split.
    + inversion H. cbn [fst]. split; [reflexivity|].
      intros k _. now rewrite (falsy_get _ k Ead).
  - inversion H. cbn [fst].
    rewrite (falsy_get _ "additional_details" Efm). now split.
Qed.

Lemma own_copy_field_same src f name o :
  is_object o = true ->
  own_property (copy_field src f name o) name
  = if truthy (get src f) then Some (get src f) else own_property o name.
Proof. intros Ho. unfold copy_field. now apply own_set_if_same. Qed.

Lemma own_copy_dimension_same src f name o :
  is_object o = true ->
  own_property (copy_dimension src f name o) name
  = if truthy (get src (f ++ "_value"))
    then Some (JObj [("value", get src (f ++ "_value"));
                     ("unit", get src (f ++ "_unit"))])
    else own_property o name.
Proof. intros Ho. unfold copy_dimension. now apply own_set_if_same. Qed.

(** Brings the field mappings that a run threads through its getters
    back to the one of the input. *)
Ltac normalise_state :=
  repeat first
    [ rewrite getApparelProductDetails_unchanged in *
    | rewrite getShippingAndReturns_unchanged in *
    | rewrite fpv_field_mapping_with in *
    | rewrite with_field_mapping_twice in *
    | rewrite with_field_mapping_same in * ].

(** X1.  The apparel, additional-details and shipping fields of the
    field mapping are copied to their attribute exactly when they are
    truthy: an override that is [false], [0] or the empty string leaves
    the attribute out, like a missing one. *)
Theorem override_only_fields (now : string)
    (input input' : GoogleMerchantProductTransformInput) (payload : JsVal) :
  transform now input = Ok (payload, input') ->
  forall group field name,
    In (group, field, name) copied_fields ->
    attribute payload name = emitted (override input group field).
Proof.
  intros H group field name Hin. run_transform H. normalise_state.
  destruct (getAdditionalDetails_value _ _ E3) as [Had_truthy Had_get].
  rewrite getApparelProductDetails_value, getShippingAndReturns_value in Hpayload.
  normalise_state.
  rewrite (getAdditionalDetails_other_groups _ _ "shipping_and_returns" E3 eq_refl)
    in Hpayload.
  unfold override.
  set (fm := fpv_field_mapping (feedProductVariant input)) in *.
  cbn [copied_fields In] in Hin.
  repeat (destruct Hin as [Hin|Hin];
          [injection Hin as <- <- <-; read_attribute Hpayload; frame|]);
    try contradiction.
  all: match goal with
       | |- own_property (set_apparel _ _) _ = _ =>
           unfold set_apparel; rewrite truthy_js_or_null
       | |- own_property (set_shipping _ _) _ = _ =>
           unfold set_shipping; rewrite truthy_js_or_null
       | |- own_property (set_additional_details _ _) _ = _ =>
           unfold set_additional_details; rewrite Had_truthy
       end.
  all: match goal with
       | |- own_property (if truthy ?x then _ else _) _ = emitted (get _ ?k) =>
           destruct (truthy x) eqn:Egroup;
             [cbv zeta; frame;
              rewrite own_copy_field_same by (now autorewrite with objects);
              rewrite ?get_js_or_null, ?Had_get by reflexivity;
              unfold emitted;
              match goal with
              | |- (if truthy ?y then _ else _) = _ =>
                  destruct (truthy y); [reflexivity | now frame]
              end
             | frame; unfold emitted; now rewrite (falsy_get _ k Egroup)]
       end.
Qed.

(** X2.  A shipping dimension is emitted exactly when its [_value]
    override is truthy, as the pair of that value and the [_unit]
    override, whatever the unit is ([undefined] when it is missing); a
    unit without a value is dropped. *)
Theorem shipping_dimension_fields (now : string)
    (input input' : GoogleMerchantProductTransformInput) (payload : JsVal) :
  transform now input = Ok (payload, input') ->
  forall field name,
    In (field, name) shipping_dimensions ->
    attribute payload name =
      if truthy (override input "shipping_and_returns" (field ++ "_value"))
      then Some (JObj [("value", override input "shipping_and_returns" (field ++ "_value"));
                       ("unit", override input "shipping_and_returns" (field ++ "_unit"))])
      else None.
Proof.
  intros H field name Hin. run_transform H. normalise_state.
  rewrite getShippingAndReturns_value in Hpayload. normalise_state.
  rewrite (getAdditionalDetails_other_groups _ _ "shipping_and_returns" E3 eq_refl)
    in Hpayload.
  unfold override.
  set (fm := fpv_field_mapping (feedProductVariant input)) in *.
  cbn [shipping_dimensions In] in Hin.
  repeat (destruct Hin as [Hin|Hin];
          [injection Hin as <- <-; read_attribute Hpayload; frame|]);
    try contradiction.
  all: unfold set_shipping; rewrite truthy_js_or_null;
    destruct (truthy (get fm "shipping_and_returns")) eqn:Egroup;
    [ cbv zeta; frame;
      rewrite own_copy_dimension_same by (now autorewrite with objects);
      rewrite !get_js_or_null;
      match goal with
      | |- (if truthy ?y then _ else _) = _ =>
          destruct (truthy y); [reflexivity | now frame]
      end
    | frame; now rewrite (falsy_get _ _ Egroup) ].
Qed.

Lemma shipping_dimension_fields_witness :
  exists payload input',
    transform Sample.now ExtraSample.shipping_input = Ok (payload, input')
    /\ attribute payload "shippingWeight"
       = Some (JObj [("value", JNum (Dec 25 (-1))); ("unit", JUndefined)])
    /\ attribute payload "shippingLength" = None.
Proof.
  do 2 eexists. split.
  - vm_compute. reflexivity.
  - split.
    + eapply (shipping_dimension_fields Sample.now ExtraSample.shipping_input
                _ _ ltac:(vm_compute; reflexivity) "shipping_weight").
      cbn; tauto.
    + eapply (shipping_dimension_fields Sample.now ExtraSample.shipping_input
                _ _ ltac:(vm_compute; reflexivity) "shipping_length").
      cbn; tauto.
Defined.

Lemma override_only_fields_witness :
  exists payload input',
    transform Sample.now ExtraSample.shipping_input = Ok (payload, input')
    /\ attribute payload "color" = Some (JStr "red")
    /\ attribute payload "adult" = None.
Proof.
  do 2 eexists. split.
  - vm_compute. reflexivity.
  - split.
    + eapply (override_only_fields Sample.now ExtraSample.shipping_input
                _ _ ltac:(vm_compute; reflexivity) "apparel_product_details" "color").
      cbn; tauto.
    + eapply (override_only_fields Sample.now ExtraSample.shipping_input
                _ _ ltac:(vm_compute; reflexivity) "additional_details" "adult").
      cbn; tauto.
Defined.

(* ------------------------------------------------------------------ *)
(** ** Custom labels and custom attributes *)

Lemma getCustomLabels_packed fpv :
  getCustomLabels fpv =
    filter truthy
      (map (get (get (fpv_field_mapping fpv) "labels"))
         ["custom_label_0"; "custom_label_1"; "custom_label_2"; "custom_label_3";
          "custom_label_4"]).
Proof.
  unfold getCustomLabels.
  assert (Hfalsy : truthy (get (fpv_field_mapping fpv) "labels") = false ->
                   [] = filter truthy
                          (map (get (get (fpv_field_mapping fpv) "labels"))
                             ["custom_label_0"; "custom_label_1"; "custom_label_2";
                              "custom_label_3"; "custom_label_4"])).
  { intros E. cbn [map filter]. now rewrite !(falsy_get _ _ E). }
  destruct (truthy (fpv_field_mapping fpv)) eqn:Efm.
  - destruct (truthy (get (fpv_field_mapping fpv) "labels")) eqn:El; [|auto].
    cbv zeta. unfold push_if, push. cbn [map filter].
    destruct (truthy (get _ "custom_label_0")), (truthy (get _ "custom_label_1")),
      (truthy (get _ "custom_label_2")), (truthy (get _ "custom_label_3")),
      (truthy (get _ "custom_label_4")); reflexivity.
  - apply Hfalsy. rewrite (falsy_get _ "labels" Efm). reflexivity.
Qed.

Lemma getCustomLabels_set_labels input :
  getCustomLabels (feedProductVariant input) = set_labels input.
Proof. apply getCustomLabels_packed. Qed.

Lemma filter_truthy_nth (l : list JsVal) (i : nat) :
  truthy (nth (S i) (filter truthy l) JUndefined) = true ->
  truthy (nth i (filter truthy l) JUndefined) = true.
Proof.
  intros H.
  assert (Hlen : (S i < List.length (filter truthy l))%nat).
  { destruct (Nat.lt_ge_cases (S i) (List.length (filter truthy l))) as [Hlt|Hge];
      [exact Hlt|].
    rewrite nth_overflow in H by exact Hge. discriminate H. }
  assert (Hin : In (nth i (filter truthy l) JUndefined) (filter truthy l))
    by (apply nth_In; lia).
  now apply filter_In in Hin as [_ Hin].
Qed.

(** X3.  The custom labels are packed: [customLabel0], [customLabel1],
    ... hold the label overrides that are set, in the order of their
    fields, so that [customLabelN] is the N-th set label and not
    [custom_label_N]; no label attribute comes after a missing one. *)
Theorem custom_labels_packed (now : string)
    (input input' : GoogleMerchantProductTransformInput) (payload : JsVal) :
  transform now input = Ok (payload, input') ->
  (forall i name,
     In (i, name) [(0%nat, "customLabel0"); (1%nat, "customLabel1");
                   (2%nat, "customLabel2"); (3%nat, "customLabel3");
                   (4%nat, "customLabel4")] ->
     attribute payload name = emitted (nth i (set_labels input) JUndefined))
  /\ (forall name name',
        In (name, name') [("customLabel0", "customLabel1"); ("customLabel1", "customLabel2");
                          ("customLabel2", "customLabel3"); ("customLabel3", "customLabel4")] ->
        present (attribute payload name') = true ->
        present (attribute payload name) = true).
Proof.
  intros H.
  assert (Hread : forall i name,
     In (i, name) [(0%nat, "customLabel0"); (1%nat, "customLabel1");
                   (2%nat, "customLabel2"); (3%nat, "customLabel3");
                   (4%nat, "customLabel4")] ->
     attribute payload name = emitted (nth i (set_labels input) JUndefined)).
  { intros i name Hin. run_transform H.
    rewrite getCustomLabels_set_labels in Hpayload.
    cbn [In] in Hin.
    repeat (destruct Hin as [Hin|Hin];
            [injection Hin as <- <-; read_attribute Hpayload; frame|]);
      try contradiction.
    all: unfold set_custom_labels;
      destruct (set_labels input) as [|l0 labels] eqn:El;
      [ change (0 <? List.length (@nil JsVal))%nat with false; cbv iota;
        frame; reflexivity
      | change (0 <? List.length (l0 :: labels))%nat with true; cbv iota zeta; frame;
        rewrite own_set_if_same by (now autorewrite with objects);
        unfold emitted;
        match goal with
        | |- (if truthy ?y then _ else _) = _ =>
            destruct (truthy y); [reflexivity | now frame]
        end ]. }
  split; [exact Hread|].
  intros name name' Hin. cbn [In] in Hin.
  repeat (destruct Hin as [Hin|Hin]; [injection Hin as <- <-|]); try contradiction.
  - rewrite (Hread 0%nat "customLabel0"), (Hread 1%nat "customLabel1") by (cbn; tauto).
    unfold emitted, set_labels.
    destruct (truthy (nth 1 _ _)) eqn:E; [|discriminate].
    now rewrite (filter_truthy_nth _ _ E).
  - rewrite (Hread 1%nat "customLabel1"), (Hread 2%nat "customLabel2") by (cbn; tauto).
    unfold emitted, set_labels.
    destruct (truthy (nth 2 _ _)) eqn:E; [|discriminate].
    now rewrite (filter_truthy_nth _ _ E).
  - rewrite (Hread 2%nat "customLabel2"), (Hread 3%nat "customLabel3") by (cbn; tauto).
    unfold emitted, set_labels.
    destruct (truthy (nth 3 _ _)) eqn:E; [|discriminate].
    now rewrite (filter_truthy_nth _ _ E).
  - rewrite (Hread 3%nat "customLabel3"), (Hread 4%nat "customLabel4") by (cbn; tauto).
    unfold emitted, set_labels.
    destruct (truthy (nth 4 _ _)) eqn:E; [|discriminate].
    now rewrite (filter_truthy_nth _ _ E).
Qed.

Lemma custom_labels_packed_witness :
  exists payload input',
    transform Sample.now ExtraSample.shipping_input = Ok (payload, input')
    /\ override ExtraSample.shipping_input "labels" "custom_label_0" = JUndefined
    /\ attribute payload "customLabel0" = Some (JStr "summer")
    /\ attribute payload "customLabel1" = Some (JStr "sale")
    /\ attribute payload "customLabel3" = None.
Proof.
  do 2 eexists. split; [vm_compute; reflexivity|].
  destruct (custom_labels_packed Sample.now ExtraSample.shipping_input _ _
              ltac:(vm_compute; reflexivity)) as [Hread _].
  split; [reflexivity|]. split; [|split].
  - apply (Hread 0%nat). cbn; tauto.
  - apply (Hread 1%nat). cbn; tauto.
  - apply (Hread 3%nat). cbn; tauto.
Defined.

Lemma gt_zero_length_cons (x : JsVal) (l : list JsVal) :
  gt_zero (get_length (JArr (x :: l))) = true.
Proof. reflexivity. Qed.

Lemma push_return_policy_labels_result (labels : JsVal) (l : list JsVal) :
  push_return_policy_labels (js_or labels JNull) [] = Ok l ->
  l = return_policy_entry labels.
Proof.
  unfold push_return_policy_labels, js_or. intros H.
  destruct (truthy labels) eqn:Et.
  - rewrite Et in H. cbn [andb] in H.
    destruct labels as [| |b|n|s|items|props]; try discriminate Et.
    + cbn in H. now inversion H.
    + cbn in H. now inversion H.
    + destruct (gt_zero (get_length (JStr s))); cbn in H;
        [discriminate H | now inversion H].
    + destruct items as [|x items]; [cbn in H; now inversion H|].
      rewrite gt_zero_length_cons in H. cbn [join_labels] in H.
      rewrite bind_ok in H. unfold push in H. cbn [app] in H. now inversion H.
    + destruct (gt_zero (get_length (JObj props))); cbn in H;
        [discriminate H | now inversion H].
  - cbn in H. destruct labels; try discriminate Et; now inversion H.
Qed.

Lemma getAdditionalProductAttributes_spec fpv :
  getAdditionalProductAttributes fpv
  = js_or (get (fpv_field_mapping fpv) "additional_product_attributes") JNull.
Proof.
  unfold getAdditionalProductAttributes, js_or.
  destruct (truthy (fpv_field_mapping fpv)) eqn:Efm; [reflexivity|].
  now rewrite (falsy_get _ "additional_product_attributes" Efm).
Qed.

Lemma object_entries_falsy (v : JsVal) :
  truthy v = false -> object_entries v = [].
Proof.
  destruct v; try reflexivity; try discriminate.
  cbn. destruct s; [reflexivity|discriminate].
Qed.

Lemma push_additional_attributes_result (attributes : JsVal) (l : list JsVal) :
  push_additional_attributes (js_or attributes JNull) l
  = List.app l (map attribute_entry (object_entries attributes)).
Proof.
  unfold push_additional_attributes, js_or.
  destruct (truthy attributes) eqn:Et.
  - rewrite Et. cbn [andb].
    destruct (object_entries attributes); [now rewrite app_nil_r|reflexivity].
  - cbn. rewrite (object_entries_falsy _ Et). now rewrite app_nil_r.
Qed.

(** X4.  [customAttributes] is the [return_policy_label] entry, present
    when [return_policy_labels] is a non-empty array and holding its labels
    joined with commas, followed by one entry per property of
    [additional_product_attributes] in the order of the properties, array
    values joined with commas and other values kept as they are; nothing
    is merged or removed. *)
Theorem custom_attributes_order (now : string)
    (input input' : GoogleMerchantProductTransformInput) (payload : JsVal) :
  transform now input = Ok (payload, input') ->
  own_property payload "customAttributes" =
    Some (JArr (List.app
                  (return_policy_entry
                     (override input "shipping_and_returns" "return_policy_labels"))
                  (map attribute_entry
                     (object_entries
                        (get (fpv_field_mapping (feedProductVariant input))
                           "additional_product_attributes"))))).
Proof.
  intros H. run_transform H. normalise_state.
  rewrite getReturnPolicyLabels_spec in E4. normalise_state.
  rewrite (getAdditionalDetails_other_groups _ _ "shipping_and_returns" E3 eq_refl) in E4.
  apply push_return_policy_labels_result in E4. subst a4.
  rewrite getAdditionalProductAttributes_spec in Hpayload. normalise_state.
  rewrite (getAdditionalDetails_other_groups _ _ "additional_product_attributes" E3
             eq_refl) in Hpayload.
  rewrite push_additional_attributes_result in Hpayload.
  rewrite <- Hpayload. now rewrite own_set_if_other by reflexivity.
Qed.

Lemma custom_attributes_order_witness :
  exists payload input',
    transform Sample.now ExtraSample.shipping_input = Ok (payload, input')
    /\ own_property payload "customAttributes" =
         Some (JArr [custom_attribute "return_policy_label" (JStr "a,b");
                     custom_attribute "fabric" (JStr "cotton");
                     custom_attribute "sizes" (JStr "S,M")]).
Proof.
  do 2 eexists. split; [vm_compute; reflexivity|].
  apply (custom_attributes_order Sample.now ExtraSample.shipping_input _ _
           ltac:(vm_compute; reflexivity)).
Defined.

(* ------------------------------------------------------------------ *)
(** ** Links *)

Lemma includes_char_app (c : ascii) (s t : string) :
  includes_char c (s ++ t) = includes_char c s || includes_char c t.
Proof.
  induction s as [|d s IH]; cbn; [reflexivity|].
  now rewrite IH, orb_assoc.
Qed.

Lemma push_if_parameter (name : string) (v : JsVal) (l : list string) :
  push_if (truthy v) (name ++ "=" ++ to_string v) l
  = List.app l (utm_parameter name v).
Proof.
  unfold push_if, push, utm_parameter.
  destruct (truthy v); [reflexivity|now rewrite app_nil_r].
Qed.

Lemma utm_parameter_falsy (name : string) (v : JsVal) :
  truthy v = false -> utm_parameter name v = [].
Proof. unfold utm_parameter. now intros ->. Qed.

(** The parameters that [addUtmParameters] appends. *)
Lemma addUtmParameters_spec now link input :
  addUtmParameters now link (feed input) (feedProductVariant input)
  = link ++ (if includes_char "?" link then "&" else "?")
         ++ join "&"
              (List.app (feed_utm (feed input))
                 (List.app (override_utm input)
                    ["fdclid=" ++ encryptToString (feed_id (feed input))
                                    (feed_shop_id (feed input)) now])).
Proof.
  unfold addUtmParameters. cbv zeta.
  change "utm_source=" with ("utm_source" ++ "=").
  change "utm_medium=" with ("utm_medium" ++ "=").
  change "utm_campaign=" with ("utm_campaign" ++ "=").
  assert (Hfeed :
    match feed_tracking (feed input) with
    | Some tracking =>
        push_if (truthy (of_option JStr (utm_campaign tracking)))
          (("utm_campaign" ++ "=") ++ to_string (of_option JStr (utm_campaign tracking)))
          (push_if (truthy (of_option JStr (utm_medium tracking)))
             (("utm_medium" ++ "=") ++ to_string (of_option JStr (utm_medium tracking)))
             (push_if (truthy (of_option JStr (utm_source tracking)))
                (("utm_source" ++ "=") ++ to_string (of_option JStr (utm_source tracking)))
                []))
    | None => []
    end = feed_utm (feed input)).
  { unfold feed_utm. destruct (feed_tracking (feed input)) as [t|]; [|reflexivity].
    change (("utm_campaign" ++ "=") ++ ?x) with ("utm_campaign" ++ "=" ++ x).
    change (("utm_medium" ++ "=") ++ ?x) with ("utm_medium" ++ "=" ++ x).
    change (("utm_source" ++ "=") ++ ?x) with ("utm_source" ++ "=" ++ x).
    rewrite !push_if_parameter. cbn [app]. now rewrite app_assoc. }
  rewrite Hfeed. clear Hfeed.
  set (fm := fpv_field_mapping (feedProductVariant input)).
  assert (Hover :
    (if truthy fm then
       if truthy (get fm "links") then
         push_if (truthy (get (get fm "links") "utm_campaign"))
           (("utm_campaign" ++ "=") ++ to_string (get (get fm "links") "utm_campaign"))
           (push_if (truthy (get (get fm "links") "utm_medium"))
              (("utm_medium" ++ "=") ++ to_string (get (get fm "links") "utm_medium"))
              (push_if (truthy (get (get fm "links") "utm_source"))
                 (("utm_source" ++ "=") ++ to_string (get (get fm "links") "utm_source"))
                 (feed_utm (feed input))))
       else feed_utm (feed input)
     else feed_utm (feed input))
    = List.app (feed_utm (feed input)) (override_utm input)).
  { unfold override_utm, override. fold fm.
    change (("utm_campaign" ++ "=") ++ ?x) with ("utm_campaign" ++ "=" ++ x).
    change (("utm_medium" ++ "=") ++ ?x) with ("utm_medium" ++ "=" ++ x).
    change (("utm_source" ++ "=") ++ ?x) with ("utm_source" ++ "=" ++ x).
    rewrite !push_if_parameter.
    assert (Hnone : truthy (get fm "links") = false ->
              feed_utm (feed input)
              = List.app (feed_utm (feed input))
                  (List.app (utm_parameter "utm_source" (get (get fm "links") "utm_source"))
                     (List.app
                        (utm_parameter "utm_medium" (get (get fm "links") "utm_medium"))
                        (utm_parameter "utm_campaign"
                           (get (get fm "links") "utm_campaign"))))).
    { intros E. rewrite !(falsy_get _ _ E). cbn. now rewrite app_nil_r. }
    destruct (truthy fm) eqn:Efm.
    - destruct (truthy (get fm "links")) eqn:El; [|auto].
      now rewrite <- !app_assoc.
    - apply Hnone. now rewrite (falsy_get _ "links" Efm). }
  rewrite Hover. unfold push. rewrite <- app_assoc.
  destruct (includes_char "?" link); reflexivity.
Qed.

Lemma domain_text_spec input :
  to_string (of_maybe JStr (shop_domain (shop input))) = domain_text input.
Proof. unfold domain_text. now destruct (shop_domain (shop input)). Qed.

Lemma handle_text_spec input :
  to_string (of_option JStr (product_handle (product input))) = handle_text input.
Proof. unfold handle_text. now destruct (product_handle (product input)). Qed.

Lemma append_assoc (s t u : string) : (s ++ t) ++ u = s ++ t ++ u.
Proof. induction s as [|c s IH]; cbn; [reflexivity|now rewrite IH]. Qed.

Lemma truthy_https (x : string) : truthy (JStr ("https://" ++ x)) = true.
Proof. reflexivity. Qed.

(** X5.  The product link is always emitted.  It is [https://], a base,
    a separator and the parameters joined with [&].  The parameters are
    the feed's UTM values that are set, then the UTM values of the [links]
    override that are set (added after the feed's, which stay), then the
    [fdclid] token.  The base is [domain/products/handle?variant=id] for the
    link type [product_url] (the default), [domain/cart/id:1?storefront=true]
    for [product_checkout_url], and [domain/products/handle] for any other
    type; the separator is [&] when the base contains [?], which the first
    two always do, and [?] otherwise. *)
Theorem link_structure (now : string)
    (input input' : GoogleMerchantProductTransformInput) (payload : JsVal) :
  transform now input = Ok (payload, input') ->
  let linkType := js_or (override input "links" "product_url") (JStr "product_url") in
  let parameters :=
    List.app (feed_utm (feed input))
      (List.app (override_utm input)
         ["fdclid=" ++ encryptToString (feed_id (feed input))
                         (feed_shop_id (feed input)) now]) in
  exists base,
    attribute payload "link"
    = Some (JStr ("https://" ++ base ++ (if includes_char "?" base then "&" else "?")
                    ++ join "&" parameters))
    /\ (is_str linkType "product_url" = true ->
        base = domain_text input ++ "/products/" ++ handle_text input
               ++ "?variant=" ++ variant_id (variant input)
        /\ includes_char "?" base = true)
    /\ (is_str linkType "product_url" = false ->
        is_str linkType "product_checkout_url" = true ->
        base = domain_text input ++ "/cart/" ++ variant_id (variant input)
               ++ ":1?storefront=true"
        /\ includes_char "?" base = true)
    /\ (is_str linkType "product_url" = false ->
        is_str linkType "product_checkout_url" = false ->
        base = domain_text input ++ "/products/" ++ handle_text input
        /\ includes_char "?" base
           = includes_char "?" (domain_text input)
             || includes_char "?" (handle_text input)).
Proof.
  intros H linkType parameters. subst linkType parameters. run_transform H.
  unfold getLink in Hpayload. cbv zeta in Hpayload.
  rewrite nested_override, addUtmParameters_spec in Hpayload.
  rewrite domain_text_spec, handle_text_spec in Hpayload.
  fold (override input "links" "product_url") in Hpayload.
  unfold PRODUCT_URL_SOURCE_TYPES.PRODUCT_URL,
    PRODUCT_URL_SOURCE_TYPES.PRODUCT_CHECKOUT_URL in Hpayload.
  set (linkType := js_or (override input "links" "product_url") (JStr "product_url")) in *.
  match type of Hpayload with
  | context [JStr ("https://" ++ ?b ++ _)] => exists b
  end.
  split.
  { read_attribute Hpayload. frame.
    rewrite own_set_if_same by (now autorewrite with objects).
    now rewrite truthy_https. }
  clear.
  destruct (is_str linkType "product_url");
    [|destruct (is_str linkType "product_checkout_url")];
    (split; [|split]); intros; try discriminate;
    (split;
     [ now rewrite ?append_assoc
     | rewrite ?includes_char_app; cbn;
       now rewrite ?orb_true_r, ?orb_false_r ]).
Qed.

Lemma link_structure_witness :
  exists payload input',
    transform Sample.now ExtraSample.tracked_input = Ok (payload, input')
    /\ attribute payload "link"
       = Some (JStr ("https://shop.com/cart/v1:1?storefront=true"
                     ++ "&utm_source=google&utm_source=override&fdclid="
                     ++ encryptToString "f1" "s1" Sample.now)).
Proof.
  do 2 eexists. split; [vm_compute; reflexivity|].
  destruct (link_structure Sample.now ExtraSample.tracked_input _ _
              ltac:(vm_compute; reflexivity)) as (base & Hlink & _ & Hcheckout & _).
  destruct (Hcheckout eq_refl eq_refl) as [-> _].
  exact Hlink.
Defined.

(** X6.  The canonical link is always emitted and is
    [https://domain/products/handle] whatever the variant, the link type,
    the UTM values and the clock are; a missing domain or handle is
    written out as [null] or [undefined]. *)
Theorem canonical_link_plain (now : string)
    (input input' : GoogleMerchantProductTransformInput) (payload : JsVal) :
  transform now input = Ok (payload, input') ->
  attribute payload "canonicalLink"
  = Some (JStr ("https://" ++ domain_text input ++ "/products/" ++ handle_text input)).
Proof.
  intros H. run_transform H.
  unfold getCanonicalLink in Hpayload. cbv zeta in Hpayload.
  rewrite domain_text_spec, handle_text_spec in Hpayload.
  read_attribute Hpayload. frame.
  now rewrite own_set_if_same by (now autorewrite with objects).
Qed.

Lemma canonical_link_plain_witness :
  exists payload input',
    transform Sample.now ExtraSample.tracked_input = Ok (payload, input')
    /\ attribute payload "canonicalLink" = Some (JStr "https://shop.com/products/tee").
Proof.
  do 2 eexists. split; [vm_compute; reflexivity|].
  apply (canonical_link_plain Sample.now ExtraSample.tracked_input _ _
           ltac:(vm_compute; reflexivity)).
Defined.

(* ------------------------------------------------------------------ *)
(** ** Selectors: brand, product types, price *)

Lemma js_or_null_idem (v : JsVal) :
  js_or (js_or v JNull) JNull = js_or v JNull.
Proof. unfold js_or. now destruct (truthy v) eqn:E; [rewrite E|]. Qed.

Lemma getBrand_spec input :
  getBrand (feed input) (shop input) (product input) (feedProductVariant input)
  = if is_str (brand_source input) "vendor" then
      js_or (of_maybe JStr (product_vendor (product input))) JNull
    else if is_str (brand_source input) "store_name" then
      js_or (of_maybe JStr (shop_name (shop input))) JNull
    else if is_str (brand_source input) "primary_domain" then
      js_or (of_maybe JStr (shop_domain (shop input))) JNull
    else JNull.
Proof.
  unfold getBrand. cbv zeta. rewrite nested_override.
  unfold brand_source, override, BRAND_SOURCE_TYPES.VENDOR,
    BRAND_SOURCE_TYPES.STORE_NAME, BRAND_SOURCE_TYPES.PRIMARY_DOMAIN.
  set (o := get (get (fpv_field_mapping (feedProductVariant input)) "product_details")
              "brand").
  set (s := of_option JStr (setting ps_brand_submission (feed input))).
  assert (Hs : js_or o (js_or s JNull) = js_or o s \/
               (truthy (js_or o (js_or s JNull)) = false
                /\ truthy (js_or o s) = false)).
  { unfold js_or. destruct (truthy o) eqn:Eo; [now left|].
    destruct (truthy s) eqn:Es; [now left|]. right. now split. }
  destruct Hs as [-> | [H1 H2]].
  - destruct (truthy (js_or o s)) eqn:Et.
    + repeat match goal with
             | |- context [is_str ?a ?b] => destruct (is_str a b)
             end; try reflexivity; apply js_or_null_idem.
    + destruct (js_or o s); try discriminate Et; try reflexivity.
      cbn in Et. apply negb_false_iff, String.eqb_eq in Et. now subst.
  - rewrite H1.
    destruct (js_or o s); try discriminate H2; try reflexivity.
    cbn in H2. apply negb_false_iff, String.eqb_eq in H2. now subst.
Qed.

Lemma emitted_js_or_null (v : JsVal) :
  emitted (js_or v JNull) = emitted v.
Proof. unfold emitted, js_or. now destruct (truthy v) eqn:E; [rewrite E|]. Qed.

(** X7.  The brand is taken from one field, chosen by the selector
    [field_mapping.product_details.brand] or, when that is not set, by the
    feed's [brand_submission]: the product's vendor for [vendor], the
    shop's name for [store_name], the shop's domain for [primary_domain].
    There is no fallback from one field to another: when the chosen field
    is empty, or the selector is none of the three, the payload has no
    brand. *)
Theorem brand_selection (now : string)
    (input input' : GoogleMerchantProductTransformInput) (payload : JsVal) :
  transform now input = Ok (payload, input') ->
  attribute payload "brand"
  = if is_str (brand_source input) "vendor" then
      emitted (of_maybe JStr (product_vendor (product input)))
    else if is_str (brand_source input) "store_name" then
      emitted (of_maybe JStr (shop_name (shop input)))
    else if is_str (brand_source input) "primary_domain" then
      emitted (of_maybe JStr (shop_domain (shop input)))
    else None.
Proof.
  intros H. run_transform H.
  rewrite getBrand_spec in Hpayload.
  read_attribute Hpayload. frame.
  rewrite own_set_if_same by reflexivity.
  repeat match goal with
         | |- context [is_str ?a ?b] => destruct (is_str a b)
         end;
    try (rewrite <- emitted_js_or_null; unfold emitted;
         match goal with
         | |- context [truthy ?x] => now destruct (truthy x)
         end).
  reflexivity.
Qed.

Lemma brand_selection_witness :
  exists payload input',
    transform Sample.now ExtraSample.selector_input = Ok (payload, input')
    /\ attribute payload "brand" = None.
Proof.
  do 2 eexists. split; [vm_compute; reflexivity|].
  exact (brand_selection Sample.now ExtraSample.selector_input _ _
           ltac:(vm_compute; reflexivity)).
Defined.

Lemma emitted_strings_non_empty (o : option string) :
  (if truthy (of_option JStr o) then JArr [of_option JStr o] else JNull)
  = match non_empty o with
    | [] => JNull
    | _ => JArr (map JStr (non_empty o))
    end.
Proof.
  destruct o as [s|]; [|reflexivity]. cbn.
  now destruct (String.eqb s EmptyString).
Qed.

Lemma filter_titles (collections : list Collection) :
  filter truthy
    (map (fun collection => of_option JStr (collection_title collection)) collections)
  = map JStr
      (flat_map (fun collection => non_empty (collection_title collection)) collections).
Proof.
  induction collections as [|c l IH]; [reflexivity|].
  cbn [map filter flat_map]. rewrite IH, map_app.
  destruct (collection_title c) as [s|]; [|reflexivity].
  cbn. now destruct (String.eqb s EmptyString).
Qed.

Lemma types_attribute_strings (l : list string) :
  types_attribute (match l with [] => JNull | _ => JArr (map JStr l) end)
  = emitted_strings l.
Proof. now destruct l. Qed.

Lemma types_attribute_list (l : list string) :
  types_attribute (JArr (map JStr l)) = emitted_strings l.
Proof. now destruct l. Qed.

Lemma getProductType_spec input :
  types_attribute (getProductType (product input) (feedProductVariant input))
  = emitted_strings (selected_types input).
Proof.
  unfold getProductType, selected_types, product_type_selector. cbv zeta.
  rewrite pca_override_spec.
  unfold override, PRODUCT_TYPE_FIELDS.PRODUCT_TYPE, PRODUCT_TYPE_FIELDS.CATEGORY_NAME,
    PRODUCT_TYPE_FIELDS.CATEGORY_FULLNAME, PRODUCT_TYPE_FIELDS.COLLECTIONS,
    PRODUCT_TYPE_FIELDS.TAGS.
  repeat match goal with
         | |- context [is_str ?a ?b] => destruct (is_str a b)
         end.
  - rewrite emitted_strings_non_empty. apply types_attribute_strings.
  - destruct (product_category (product input)) as [c|]; [|reflexivity].
    rewrite emitted_strings_non_empty. apply types_attribute_strings.
  - destruct (product_category (product input)) as [c|]; [|reflexivity].
    rewrite emitted_strings_non_empty. apply types_attribute_strings.
  - destruct (product_collections (product input)) as [[l|]|]; try reflexivity.
    rewrite filter_titles. apply types_attribute_list.
  - destruct (product_tags (product input)) as [[l|]|]; try reflexivity.
    apply types_attribute_list.
  - reflexivity.
Qed.

(** X8.  [productTypes], when the payload has it, is a non-empty array of
    strings.  It comes from one source, chosen by the selector
    [field_mapping.price_condition_availability.product_type] (default
    [product_type]): the product type, the category name, the category
    full name, the titles of the collections, or the tags.  Empty values
    are left out, except among the tags, which are passed as they are; a
    selector that is none of the five gives no [productTypes]. *)
Theorem product_types_selection (now : string)
    (input input' : GoogleMerchantProductTransformInput) (payload : JsVal) :
  transform now input = Ok (payload, input') ->
  attribute payload "productTypes" = emitted_strings (selected_types input)
  /\ forall v, attribute payload "productTypes" = Some v ->
       exists t rest, v = JArr (map JStr (t :: rest)).
Proof.
  intros H. run_transform H.
  assert (Hattribute :
    attribute payload "productTypes" = emitted_strings (selected_types input)).
  { rewrite <- getProductType_spec. unfold types_attribute.
    read_attribute Hpayload. frame.
    rewrite own_set_if_same by (now autorewrite with objects).
    match goal with
    | |- (if ?c then _ else ?o) = _ => destruct c; [reflexivity|]
    end.
    now frame. }
  split; [exact Hattribute|].
  intros v. rewrite Hattribute.
  destruct (selected_types input) as [|t rest]; [discriminate|].
  intros [= <-]. now exists t, rest.
Qed.

Lemma product_types_selection_witness :
  exists payload input',
    transform Sample.now ExtraSample.selector_input = Ok (payload, input')
    /\ attribute payload "productTypes" = Some (JArr [JStr "summer"; JStr EmptyString]).
Proof.
  do 2 eexists. split; [vm_compute; reflexivity|].
  exact (proj1 (product_types_selection Sample.now ExtraSample.selector_input _ _
                  ltac:(vm_compute; reflexivity))).
Defined.

(* ------------------------------------------------------------------ *)
(** ** The price *)



Lemma append_not_empty_r (s t : string) :
  t <> EmptyString -> s ++ t <> EmptyString.
Proof. destruct s; [trivial|discriminate]. Qed.





Lemma or_zero_spec (o : option number) :
  match o with
  | Some n => if num_truthy n then n else Dec 0 0
  | None => Dec 0 0
  end = or_zero o.
Proof. reflexivity. Qed.




(* ------------------------------------------------------------------ *)
(** ** Defaults and overrides *)

Lemma getIdentifierExists_spec fpv :
  getIdentifierExists fpv
  = js_or (get (get (fpv_field_mapping fpv) "product_details") "product_identifier")
      (JBool false).
Proof. apply nested_override. Qed.

Lemma getImageLink_spec input :
  getImageLink (mainImage input) (feedProductVariant input)
  = js_or (override input "product_images" "main_image") (main_image input).
Proof.
  unfold getImageLink, main_image, override. cbv zeta. now rewrite nested_override.
Qed.

Lemma getAdditionalImageLinks_spec input :
  getAdditionalImageLinks (feedProductVariant input)
  = js_or (override input "product_images" "additional_images") (JArr []).
Proof. apply nested_override. Qed.

Lemma gt_zero_length_falsy (v : JsVal) :
  truthy v = false -> gt_zero (get_length v) = false.
Proof.
  destruct v; try discriminate; try reflexivity.
  cbn. destruct s; [reflexivity|discriminate].
Qed.

Lemma getGoogleProductCategory_spec input :
  emitted (getGoogleProductCategory (feed input) (feedProductVariant input))
  = emitted (js_or (override input "price_condition_availability"
                      "google_product_category")
               (feed_category (feed input))).
Proof.
  unfold getGoogleProductCategory, feed_category, override. cbv zeta.
  rewrite pca_override_spec.
  set (o := get (get (fpv_field_mapping (feedProductVariant input))
                   "price_condition_availability") "google_product_category").
  unfold js_or at 1 3. destruct (truthy o); [reflexivity|].
  destruct (feed_metadata (feed input)) as [metadata|]; [|reflexivity].
  destruct (feed_google_merchant_center metadata) as [gmc|]; [|reflexivity].
  destruct (gmc_product_category_id gmc) as [c|]; [|reflexivity].
  apply emitted_js_or_null.
Qed.

(** X10.  Five attributes are an override when it is set and a default
    otherwise.  [identifierExists] is always in the payload: the
    [product_identifier] override or [false].  [imageLink] is the
    [main_image] override or the main image, left out when both are
    missing.  [additionalImageLinks] is the [additional_images] override
    as it is, left out unless its length is positive.  [condition] is its
    override and has no default.  [googleProductCategory] is its override
    or the feed's product category id as text. *)
Theorem defaults_and_overrides (now : string)
    (input input' : GoogleMerchantProductTransformInput) (payload : JsVal) :
  transform now input = Ok (payload, input') ->
  attribute payload "identifierExists"
  = Some (js_or (override input "product_details" "product_identifier") (JBool false))
  /\ attribute payload "imageLink"
     = emitted (js_or (override input "product_images" "main_image") (main_image input))
  /\ attribute payload "additionalImageLinks"
     = (if gt_zero (get_length (override input "product_images" "additional_images"))
        then Some (override input "product_images" "additional_images")
        else None)
  /\ attribute payload "condition"
     = emitted (override input "price_condition_availability" "condition")
  /\ attribute payload "googleProductCategory"
     = emitted (js_or (override input "price_condition_availability"
                         "google_product_category")
                  (feed_category (feed input))).
Proof.
  intros H. run_transform H.
  repeat apply conj.
  - rewrite getIdentifierExists_spec in Hpayload.
    read_attribute Hpayload. now frame.
  - rewrite <- getImageLink_spec. unfold emitted.
    read_attribute Hpayload. frame.
    rewrite own_set_if_same by (now autorewrite with objects).
    match goal with
    | |- (if ?c then _ else _) = _ => destruct c; [reflexivity|]
    end.
    now frame.
  - rewrite getAdditionalImageLinks_spec in Hpayload.
    read_attribute Hpayload. frame.
    rewrite own_set_if_same by (now autorewrite with objects).
    unfold js_or.
    destruct (truthy (override input "product_images" "additional_images")) eqn:Et.
    + match goal with
      | |- (if ?c then _ else _) = _ => destruct c; [reflexivity|]
      end.
      now frame.
    + rewrite (gt_zero_length_falsy _ Et). cbn [get_length gt_zero to_number].
      cbv iota. now frame.
  - unfold getCondition in Hpayload. rewrite pca_override_spec in Hpayload.
    fold (override input "price_condition_availability" "condition") in Hpayload.
    rewrite <- emitted_js_or_null. unfold emitted.
    read_attribute Hpayload. frame.
    rewrite own_set_if_same by (now autorewrite with objects).
    match goal with
    | |- (if ?c then _ else _) = _ => destruct c; [reflexivity|]
    end.
    now frame.
  - rewrite <- getGoogleProductCategory_spec. unfold emitted.
    read_attribute Hpayload. frame.
    rewrite own_set_if_same by (now autorewrite with objects).
    match goal with
    | |- (if ?c then _ else _) = _ => destruct c; [reflexivity|]
    end.
    now frame.
Qed.

Lemma defaults_and_overrides_witness :
  exists payload input',
    transform Sample.now ExtraSample.selector_input = Ok (payload, input')
    /\ attribute payload "identifierExists" = Some (JBool false)
    /\ attribute payload "imageLink" = Some (JStr "https://cdn.shop.com/red.png")
    /\ attribute payload "additionalImageLinks" = None
    /\ attribute payload "condition" = Some (JStr "new")
    /\ attribute payload "googleProductCategory" = Some (JStr "2271").
Proof.
  do 2 eexists. split; [vm_compute; reflexivity|].
  exact (defaults_and_overrides Sample.now ExtraSample.selector_input _ _
           ltac:(vm_compute; reflexivity)).
Defined.

(* ------------------------------------------------------------------ *)
(** ** Rounded prices *)




(** The number 0 is not kept as a rounded price; the text ["0"] is. *)
Lemma rounded_price_zero (fd : TransformerFeed) :
  rounded_price (JNum (Dec 0 0)) fd = None
  /\ rounded_price (JStr "0") fd = Some (price_object "0" fd).
Proof. split; reflexivity. Qed.

(* ------------------------------------------------------------------ *)
(** ** Certifications, and what a run leaves in its input *)

Lemma certification_entry_value (certification entry : JsVal) :
  certification_entry certification = Ok entry ->
  entry = certification_of certification.
Proof.
  unfold certification_entry, get_checked, certification_of.
  destruct certification; cbn; intros H; now inversion H.
Qed.

Lemma certification_entries_value (items entries : list JsVal) :
  certification_entries items = Ok entries ->
  entries = map certification_of items.
Proof.
  revert entries. induction items as [|c items IH]; cbn [certification_entries map];
    intros entries H.
  - now inversion H.
  - destruct (certification_entry c) as [entry|] eqn:Ec; [|discriminate H].
    rewrite bind_ok in H.
    destruct (certification_entries items) as [rest|]; [|discriminate H].
    rewrite !bind_ok in H. inversion H.
    now rewrite (certification_entry_value _ _ Ec), (IH rest eq_refl).
Qed.

Lemma getAdditionalDetails_certified fpv r :
  let fm := fpv_field_mapping fpv in
  let details := get fm "additional_details" in
  truthy (get details "certifications") = true ->
  getAdditionalDetails fpv = Ok r ->
  exists items,
    iterate (get details "certifications") = Ok items
    /\ r = (set "certifications" (JArr (map certification_of items)) details,
            set "additional_details"
              (set "certifications" (JArr (map certification_of items)) details) fm).
Proof.
  intros fm details Hc H. subst fm details.
  pose proof (truthy_get_receiver _ _ Hc) as Hd.
  pose proof (truthy_get_receiver _ _ Hd) as Hfm.
  unfold getAdditionalDetails in H. rewrite Hfm, Hd, rewrite_all_id, Hc in H.
  destruct (iterate _) as [items|] eqn:Ei; [|discriminate H].
  rewrite bind_ok in H.
  destruct (certification_entries items) as [entries|] eqn:Ee; [|discriminate H].
  rewrite !bind_ok in H. inversion H.
  exists items. split; [reflexivity|].
  now rewrite (certification_entries_value _ _ Ee).
Qed.

Lemma get_set_same (k : string) (v o : JsVal) :
  is_object o = true -> get (set k v o) k = v.
Proof.
  destruct o; try discriminate. intros _. cbn. now rewrite lookup_assign_same.
Qed.

Lemma truthy_get_object (o : JsVal) (k : string) :
  truthy (get o k) = true -> is_object o = true.
Proof. now destruct o. Qed.

Lemma with_mapping_same (input : GoogleMerchantProductTransformInput) :
  with_mapping input (fpv_field_mapping (feedProductVariant input)) = input.
Proof.
  unfold with_mapping. rewrite with_field_mapping_same. apply restore_input.
Qed.

(** X12.  What a run does with [additional_details.certifications].
    Without certifications the payload has none and the input is left as
    it was.  With certifications, the payload holds one entry per
    certification, in order, with the four fields [certificationAuthority],
    [certificationName], [certificationCode] and [certificationValue] read
    from [authority], [name], [code] and [value] (the empty string for a
    missing one); and the same entries are written over the certifications
    of the caller's field mapping, which is the only change made to the
    input. *)
Theorem certifications_rewritten (now : string)
    (input input' : GoogleMerchantProductTransformInput) (payload : JsVal) :
  transform now input = Ok (payload, input') ->
  let fm := fpv_field_mapping (feedProductVariant input) in
  (truthy (certifications_override input) = false ->
   attribute payload "certifications" = None /\ input' = input)
  /\ (truthy (certifications_override input) = true ->
      exists items,
        iterate (certifications_override input) = Ok items
        /\ attribute payload "certifications"
           = Some (JArr (map certification_of items))
        /\ input'
           = with_mapping input
               (set "additional_details"
                  (set "certifications" (JArr (map certification_of items))
                     (get fm "additional_details"))
                  fm)).
Proof.
  intros H fm. unfold certifications_override. fold fm.
  run_transform H. normalise_state. fold fm in E3.
  assert (Hinput' : input' = with_mapping input (snd a3)).
  { rewrite <- Hinput. reflexivity. }
  split; intros Hc.
  - split.
    + destruct (getAdditionalDetails_value _ _ E3) as [Htruthy _].
      rewrite (getAdditionalDetails_unchanged _ _ Hc E3) in Hpayload.
      normalise_state.
      assert (Hfst : get (fst a3) "certifications"
                     = get (get fm "additional_details") "certifications").
      { revert E3. unfold getAdditionalDetails. fold fm.
        destruct (truthy fm) eqn:Efm.
        - destruct (truthy (get fm "additional_details")) eqn:Ed.
          + rewrite rewrite_all_id, Hc, bind_ok. now intros [= <-].
          + intros [= <-]. cbn [fst]. now rewrite (falsy_get _ _ Ed).
        - intros [= <-]. cbn [fst].
          now rewrite (falsy_get _ "additional_details" Efm). }
      read_attribute Hpayload. frame.
      unfold set_additional_details.
      destruct (truthy (fst a3)); cbv zeta.
      * rewrite own_copy_field_same by (now autorewrite with objects).
        rewrite Hfst. fold fm. rewrite Hc. now frame.
      * now frame.
    + rewrite Hinput', (getAdditionalDetails_unchanged _ _ Hc E3).
      apply with_mapping_same.
  - destruct (getAdditionalDetails_certified _ _ Hc E3) as (items & Hitems & ->).
    fold fm in Hitems. exists items. split; [exact Hitems|]. split; [|exact Hinput'].
    pose proof (truthy_get_object _ _ Hc) as Hobject. subst fm.
    cbn [fst snd] in Hpayload.
    read_attribute Hpayload. frame.
    unfold set_additional_details.
    match goal with
    | |- context [truthy ?x] =>
        assert (Htruthy : truthy x = true)
          by (now destruct (get (fpv_field_mapping (feedProductVariant input))
                              "additional_details"))
    end.
    rewrite Htruthy. cbv zeta.
    rewrite own_copy_field_same by (now autorewrite with objects).
    now rewrite get_set_same by exact Hobject.
Qed.

Lemma certifications_rewritten_witness :
  exists payload input',
    transform Sample.now Sample.certified_input = Ok (payload, input')
    /\ attribute payload "certifications"
       = Some (JArr [JObj [("certificationAuthority", JStr "EC");
                           ("certificationName", JStr "EPREL");
                           ("certificationCode", JStr "123456");
                           ("certificationValue", JStr "A")]])
    /\ certifications_override input'
       = JArr [JObj [("certificationAuthority", JStr "EC");
                     ("certificationName", JStr "EPREL");
                     ("certificationCode", JStr "123456");
                     ("certificationValue", JStr "A")]].
Proof.
  do 2 eexists. split; [vm_compute; reflexivity|].
  destruct (certifications_rewritten Sample.now Sample.certified_input _ _
              ltac:(vm_compute; reflexivity)) as [_ Hcertified].
  destruct (Hcertified eq_refl) as (items & Hitems & Hattribute & Hinput).
  injection Hitems as <-.
  split; [exact Hattribute|reflexivity].
Defined.

(* ------------------------------------------------------------------ *)
(** ** Templates *)

Lemma find_first_cons (pat : string) (c : ascii) (s : string) :
  String.prefix pat (String c s) = false ->
  find_first pat (String c s)
  = match find_first pat s with
    | Some (b, a) => Some (String c b, a)
    | None => None
    end.
Proof. intros H. cbn [find_first]. now rewrite H. Qed.

Lemma prefix_brace (pat : string) (c : ascii) (s : string) :
  Ascii.eqb "{" c = false -> String.prefix (String "{" pat) (String c s) = false.
Proof.
  intros H. cbn [String.prefix].
  destruct (ascii_dec "{" c) as [E|E]; [|reflexivity].
  rewrite <- E in H. discriminate H.
Qed.

(** A text without brace is skipped by the search of a placeholder. *)
Lemma find_first_skip (pat pre s : string) :
  includes_char "{" pre = false ->
  find_first (String "{" pat) (pre ++ s)
  = match find_first (String "{" pat) s with
    | Some (b, a) => Some (pre ++ b, a)
    | None => None
    end.
Proof.
  induction pre as [|c pre IH]; intros H.
  - cbn [append]. now destruct (find_first _ s) as [[b a]|].
  - cbn [includes_char] in H. apply orb_false_iff in H as [Hc Hpre].
    cbn [append]. rewrite find_first_cons by (apply prefix_brace; exact Hc).
    rewrite (IH Hpre). now destruct (find_first _ s) as [[b a]|].
Qed.

Lemma prefix_app (pat s : string) : String.prefix pat (pat ++ s) = true.
Proof.
  induction pat as [|c pat IH]; cbn [append]; [now destruct s|].
  cbn [String.prefix]. destruct (ascii_dec c c); [exact IH|contradiction].
Qed.

Lemma drop_app (pat s : string) : drop (String.length pat) (pat ++ s) = s.
Proof. induction pat; cbn; [now destruct s|assumption]. Qed.

Lemma find_first_here (c : ascii) (pat s : string) :
  find_first (String c pat) (String c pat ++ s) = Some (EmptyString, s).
Proof.
  cbn [append find_first].
  change (String c (pat ++ s)) with (String c pat ++ s).
  now rewrite prefix_app, drop_app.
Qed.

Lemma getSubstitution_plain (matched before after rep : string) :
  includes_char "$" rep = false ->
  getSubstitution matched before after rep = rep.
Proof.
  induction rep as [|c rep IH]; [reflexivity|].
  cbn [includes_char getSubstitution]. intros [Hc Hrep]%orb_false_iff.
  rewrite Ascii.eqb_sym, Hc. now rewrite IH.
Qed.

(** No placeholder starts inside another one. *)
Lemma placeholders_apart (n m : string) :
  In n placeholder_names -> In m placeholder_names -> String.eqb m n = false ->
  forall s,
    find_first n (m ++ s)
    = match find_first n s with
      | Some (b, a) => Some (m ++ b, a)
      | None => None
      end.
Proof.
  intros Hn Hm Hneq s.
  cbn [placeholder_names In] in Hn, Hm.
  repeat (destruct Hn as [<-|Hn]); try contradiction;
    repeat (destruct Hm as [<-|Hm]); try contradiction;
    try discriminate Hneq;
    cbn [append];
    repeat (rewrite find_first_cons by (vm_compute; reflexivity));
    now destruct (find_first _ s) as [[b a]|].
Qed.

Lemma placeholder_brace (n : string) :
  In n placeholder_names -> exists pat, n = String "{" pat.
Proof.
  intros Hn. cbn [placeholder_names In] in Hn.
  repeat (destruct Hn as [<-|Hn]); try contradiction; eauto.
Qed.

Lemma existsb_In (n : string) (l : list string) :
  existsb (String.eqb n) l = true -> In n l.
Proof.
  intros H. apply existsb_exists in H as (x & Hx & E).
  apply String.eqb_eq in E. now subst.
Qed.

Lemma render_fill_unused (n v : string) (segments : list segment) :
  uses n segments = false -> fill n v segments = segments.
Proof.
  induction segments as [|[t|m] rest IH]; cbn [uses fill]; intros H.
  - reflexivity.
  - now rewrite IH.
  - apply orb_false_iff in H as [Hm Hrest]. now rewrite Hm, IH.
Qed.

(** The search of a placeholder in a segmented template finds its first
    occurrence as a segment. *)
Lemma find_first_render (n v : string) (segments : list segment) :
  In n placeholder_names ->
  segmented segments = true ->
  match find_first n (render segments) with
  | Some (b, a) => uses n segments = true /\ b ++ v ++ a = render (fill n v segments)
  | None => uses n segments = false
  end.
Proof.
  intros Hn Hs. induction segments as [|[t|m] rest IH].
  - destruct (placeholder_brace n Hn) as (pat & ->). reflexivity.
  - cbn [segmented forallb] in Hs. apply andb_prop in Hs as [Ht Hrest].
    apply negb_true_iff in Ht. specialize (IH Hrest).
    cbn [render uses fill].
    destruct (placeholder_brace n Hn) as (pat & ->).
    rewrite (find_first_skip _ _ _ Ht).
    destruct (find_first (String "{" pat) (render rest)) as [[b a]|]; [|exact IH].
    destruct IH as [Hu <-]. split; [exact Hu|]. apply append_assoc.
  - cbn [segmented forallb] in Hs. apply andb_prop in Hs as [Hm Hrest].
    apply existsb_In in Hm. specialize (IH Hrest).
    cbn [render uses fill].
    destruct (String.eqb m n) eqn:E.
    + apply String.eqb_eq in E. subst m.
      destruct (placeholder_brace n Hn) as (pat & ->).
      rewrite find_first_here. now split.
    + rewrite (placeholders_apart n m Hn Hm E). cbn [render].
      destruct (find_first n (render rest)) as [[b a]|]; [|exact IH].
      destruct IH as [Hu <-]. split; [exact Hu|]. apply append_assoc.
Qed.

Lemma replace_segments (n v : string) (segments : list segment) :
  In n placeholder_names ->
  segmented segments = true ->
  (uses n segments = true -> includes_char "$" v = false) ->
  replace (render segments) n v = render (fill n v segments).
Proof.
  intros Hn Hs Hv. unfold replace.
  pose proof (find_first_render n v segments Hn Hs) as H.
  destruct (find_first n (render segments)) as [[b a]|].
  - destruct H as [Hu <-]. now rewrite getSubstitution_plain by (now apply Hv).
  - now rewrite render_fill_unused.
Qed.

Lemma segmented_fill (n v : string) (segments : list segment) :
  segmented segments = true ->
  (uses n segments = true -> includes_char "{" v = false) ->
  segmented (fill n v segments) = true.
Proof.
  induction segments as [|[t|m] rest IH]; cbn [segmented forallb uses fill];
    intros Hs Hv.
  - reflexivity.
  - apply andb_prop in Hs as [Ht Hrest]. rewrite Ht. now apply IH.
  - apply andb_prop in Hs as [Hm Hrest].
    destruct (String.eqb m n); cbn [forallb orb] in *.
    + rewrite (Hv eq_refl). exact Hrest.
    + rewrite Hm. now apply IH.
Qed.

Lemma uses_fill_other (n m v : string) (segments : list segment) :
  String.eqb m n = false ->
  uses m (fill n v segments) = uses m segments.
Proof.
  intros Hneq. induction segments as [|[t|k] rest IH]; cbn [uses fill].
  - reflexivity.
  - exact IH.
  - destruct (String.eqb k n) eqn:E; cbn [uses].
    + apply String.eqb_eq in E. subst k. now rewrite String.eqb_sym, Hneq.
    + now rewrite IH.
Qed.

(** A chain of replacements on a segmented template fills, for each
    placeholder in turn, its first occurrence. *)
Lemma replace_chain (placeholders : list (string * string)) (segments : list segment) :
  (forall p, In p placeholders -> In (fst p) placeholder_names) ->
  NoDup (map fst placeholders) ->
  segmented segments = true ->
  plain_values placeholders segments = true ->
  fold_left (fun t p => replace t (fst p) (snd p)) placeholders (render segments)
  = render (fill_all placeholders segments).
Proof.
  revert segments.
  induction placeholders as [|[n v] rest IH]; intros segments Hnames Hdup Hs Hv.
  - reflexivity.
  - cbn [fold_left fill_all fst snd map plain_values forallb] in *.
    apply andb_prop in Hv as [Hplain Hrest].
    inversion Hdup as [|? ? Hnotin Hdup']. subst.
    assert (Hused : uses n segments = true -> plain v = true).
    { intros Hu. now rewrite Hu in Hplain. }
    rewrite replace_segments.
    + apply IH.
      * intros p Hp. apply Hnames. now right.
      * exact Hdup'.
      * apply segmented_fill; [exact Hs|].
        intros Hu. apply Hused in Hu. unfold plain in Hu.
        apply andb_prop in Hu as [Hb _]. now apply negb_true_iff in Hb.
      * unfold plain_values. rewrite forallb_forall in *. intros [m w] Hm.
        cbn [fst snd].
        rewrite uses_fill_other; [exact (Hrest _ Hm)|].
        apply String.eqb_neq. intros ->. apply Hnotin.
        now apply (in_map fst) in Hm.
    + apply (Hnames (n, v)). now left.
    + exact Hs.
    + intros Hu. apply Hused in Hu. unfold plain in Hu.
      apply andb_prop in Hu as [_ Hd]. now apply negb_true_iff in Hd.
Qed.

Lemma getTitle_chain input :
  getTitle (feed input) (product input) (variant input) (feedProductVariant input)
  = let* t := as_string (title_template input) in
    Ok (fold_left (fun t p => replace t (fst p) (snd p)) (title_placeholders input) t).
Proof. unfold getTitle. cbv zeta. now rewrite nested_override. Qed.

Lemma getDescription_chain input :
  getDescription (feed input) (product input) (variant input) (feedProductVariant input)
  = let* t := as_string (description_template input) in
    Ok (fold_left (fun t p => replace t (fst p) (snd p))
          (description_placeholders input) t).
Proof. unfold getDescription. cbv zeta. now rewrite nested_override. Qed.

Ltac known_placeholders :=
  intros p Hp; cbn in Hp;
  repeat (destruct Hp as [<-|Hp]; [cbn; tauto|]); contradiction.

Ltac distinct_placeholders :=
  cbn; repeat (constructor; [cbn; intuition discriminate|]); constructor.

(** X13.  The title and the description are their template, which is the
    override of [product_details] when set and the feed's setting
    otherwise, in which each placeholder is replaced by its value, once:
    a second occurrence of a placeholder stays as it is.  This holds for
    a template made of texts without brace and of placeholders, when the
    values of the placeholders that occur hold neither a brace nor a
    dollar sign. *)
Theorem templates_filled (now : string)
    (input input' : GoogleMerchantProductTransformInput) (payload : JsVal) :
  transform now input = Ok (payload, input') ->
  forall segments,
    segmented segments = true ->
    (title_template input = JStr (render segments) ->
     plain_values (title_placeholders input) segments = true ->
     attribute payload "title"
     = Some (JStr (render (fill_all (title_placeholders input) segments))))
    /\ (description_template input = JStr (render segments) ->
        plain_values (description_placeholders input) segments = true ->
        attribute payload "description"
        = Some (JStr (render (fill_all (description_placeholders input) segments)))).
Proof.
  intros H segments Hs. run_transform H.
  rewrite getTitle_chain in E0. rewrite getDescription_chain in E1.
  split; intros Ht Hv.
  - rewrite Ht in E0. cbn [as_string] in E0. rewrite bind_ok in E0.
    rewrite replace_chain in E0;
      [|known_placeholders|distinct_placeholders|exact Hs|exact Hv].
    injection E0 as <-.
    read_attribute Hpayload. now frame.
  - rewrite Ht in E1. cbn [as_string] in E1. rewrite bind_ok in E1.
    rewrite replace_chain in E1;
      [|known_placeholders|distinct_placeholders|exact Hs|exact Hv].
    injection E1 as <-.
    read_attribute Hpayload. now frame.
Qed.

Lemma templates_filled_witness :
  exists payload input',
    transform Sample.now ExtraSample.template_input = Ok (payload, input')
    /\ attribute payload "title" = Some (JStr "S1/{{sku}}")
    /\ attribute payload "description" = Some (JStr "A shirt!").
Proof.
  do 2 eexists. split; [vm_compute; reflexivity|]. split.
  - exact (proj1 (templates_filled Sample.now ExtraSample.template_input _ _
                    ltac:(vm_compute; reflexivity)
                    [Hole "{{sku}}"; Text "/"; Hole "{{sku}}"] eq_refl)
             eq_refl eq_refl).
  - exact (proj2 (templates_filled Sample.now ExtraSample.template_input _ _
                    ltac:(vm_compute; reflexivity)
                    [Hole "{{seo_description}}"; Hole "{{description}}"; Text "!"]
                    eq_refl)
             eq_refl eq_refl).
Defined.

Lemma getItemGroupId_chain input :
  getItemGroupId (feedProductVariant input)
  = if truthy (override input "product_details" "item_group_id") then
      let* t := as_string (override input "product_details" "item_group_id") in
      Ok (fold_left (fun t p => replace t (fst p) (snd p))
            (item_group_placeholders input) t)
    else Ok (fpv_product_id (feedProductVariant input)).
Proof.
  unfold getItemGroupId, override. cbv zeta.
  destruct (truthy (get _ "product_details")) eqn:E; [reflexivity|].
  now rewrite (falsy_get _ "item_group_id" E).
Qed.

Lemma getProductId_chain input :
  getProductId (feed input) (feedProductVariant input)
  = match given (fpv_offer_id (feedProductVariant input)) with
    | Some offer => offer
    | None =>
        match given (setting ps_product_id (feed input)) with
        | Some template =>
            fold_left (fun t p => replace t (fst p) (snd p))
              (offer_placeholders input) template
        | None => EmptyString
        end
    end.
Proof.
  unfold getProductId, given.
  assert (Hsetting :
    or_else
      match setting ps_product_id (feed input) with
      | Some s =>
          if truthy (JStr s) then
            Some (replace (replace (replace s "{{shop_id}}" (feed_shop_id (feed input)))
                             "{{product_id}}" (fpv_product_id (feedProductVariant input)))
                    "{{variant_id}}" (fpv_variant_id (feedProductVariant input)))
          else Some s
      | None => None
      end EmptyString
    = match
        match setting ps_product_id (feed input) with
        | Some s => if String.eqb s EmptyString then None else Some s
        | None => None
        end
      with
      | Some template =>
          fold_left (fun t p => replace t (fst p) (snd p))
            (offer_placeholders input) template
      | None => EmptyString
      end).
  { destruct (setting ps_product_id (feed input)) as [t|]; [|reflexivity].
    cbn [truthy]. destruct (String.eqb t EmptyString) eqn:Et; cbn [negb].
    - cbn [or_else]. now rewrite Et.
    - cbn [or_else fold_left offer_placeholders fst snd].
      match goal with
      | |- (if String.eqb ?r EmptyString then _ else _) = _ =>
          destruct (String.eqb r EmptyString) eqn:Er; [|reflexivity]
      end.
      apply String.eqb_eq in Er. now rewrite Er. }
  destruct (fpv_offer_id (feedProductVariant input)) as [offer|]; cbn [of_option truthy].
  - destruct (String.eqb offer EmptyString) eqn:E; cbn [negb]; [exact Hsetting|].
    cbn [or_else]. now rewrite E.
  - exact Hsetting.
Qed.

(** X14.  The two identifiers.  [itemGroupId] is the product id, unless
    [product_details.item_group_id] is set: it is then that template with
    [{{product_id}}] and [{{variant_id}}] filled.  [offerId] is the offer
    id stored with the variant when there is one; otherwise it is the
    feed's [product_id] template with [{{shop_id}}], [{{product_id}}] and
    [{{variant_id}}] filled, and the empty string without a template.
    The field mapping has no part in [offerId]: it is the same for any
    other field mapping. *)
Theorem identifiers_filled (now : string)
    (input input' : GoogleMerchantProductTransformInput) (payload : JsVal) :
  transform now input = Ok (payload, input') ->
  (truthy (override input "product_details" "item_group_id") = false ->
   attribute payload "itemGroupId"
   = Some (JStr (fpv_product_id (feedProductVariant input))))
  /\ (forall offer,
        given (fpv_offer_id (feedProductVariant input)) = Some offer ->
        own_property payload "offerId" = Some (JStr offer))
  /\ (given (fpv_offer_id (feedProductVariant input)) = None ->
      given (setting ps_product_id (feed input)) = None ->
      own_property payload "offerId" = Some (JStr EmptyString))
  /\ (forall fm,
        own_property payload "offerId"
        = Some (JStr (getProductId (feed input)
                        (with_field_mapping (feedProductVariant input) fm))))
  /\ forall segments,
       segmented segments = true ->
       (override input "product_details" "item_group_id" = JStr (render segments) ->
        truthy (JStr (render segments)) = true ->
        plain_values (item_group_placeholders input) segments = true ->
        attribute payload "itemGroupId"
        = Some (JStr (render (fill_all (item_group_placeholders input) segments))))
       /\ (given (fpv_offer_id (feedProductVariant input)) = None ->
           given (setting ps_product_id (feed input)) = Some (render segments) ->
           plain_values (offer_placeholders input) segments = true ->
           own_property payload "offerId"
           = Some (JStr (render (fill_all (offer_placeholders input) segments)))).
Proof.
  intros H. run_transform H.
  rewrite getItemGroupId_chain in E.
  rewrite !getProductId_with_field_mapping, getProductId_chain in Hpayload.
  assert (Hoffer : own_property payload "offerId"
            = Some (JStr match given (fpv_offer_id (feedProductVariant input)) with
                         | Some offer => offer
                         | None =>
                             match given (setting ps_product_id (feed input)) with
                             | Some template =>
                                 fold_left (fun t p => replace t (fst p) (snd p))
                                   (offer_placeholders input) template
                             | None => EmptyString
                             end
                         end)).
  { rewrite <- Hpayload. now rewrite own_set_if_other by reflexivity. }
  assert (Hgroup : attribute payload "itemGroupId" = Some (JStr a)).
  { read_attribute Hpayload. now frame. }
  repeat apply conj.
  - intros Hfalsy. rewrite Hfalsy in E. injection E as <-. exact Hgroup.
  - intros offer Hgiven. now rewrite Hoffer, Hgiven.
  - intros Hgiven Htemplate. now rewrite Hoffer, Hgiven, Htemplate.
  - intros fm. rewrite getProductId_with_field_mapping, getProductId_chain.
    exact Hoffer.
  - intros segments Hs. split.
    + intros Ht Hne Hv. rewrite Ht, Hne in E. cbn [as_string] in E.
      rewrite bind_ok in E.
      rewrite replace_chain in E;
        [|known_placeholders|distinct_placeholders|exact Hs|exact Hv].
      injection E as <-. exact Hgroup.
    + intros Hgiven Ht Hv. rewrite Hoffer, Hgiven, Ht.
      rewrite replace_chain;
        [reflexivity|known_placeholders|distinct_placeholders|exact Hs|exact Hv].
Qed.

Lemma identifiers_filled_witness :
  exists payload input',
    transform Sample.now ExtraSample.template_input = Ok (payload, input')
    /\ attribute payload "itemGroupId" = Some (JStr "group-p1")
    /\ own_property payload "offerId" = Some (JStr "s1_p1_v1").
Proof.
  do 2 eexists. split; [vm_compute; reflexivity|].
  destruct (identifiers_filled Sample.now ExtraSample.template_input _ _
              ltac:(vm_compute; reflexivity)) as (_ & _ & _ & _ & Hfilled).
  split.
  - apply (proj1 (Hfilled [Text "group-"; Hole "{{product_id}}"] eq_refl));
      reflexivity.
  - apply (proj2 (Hfilled [Hole "{{shop_id}}"; Text "_"; Hole "{{product_id}}";
                           Text "_"; Hole "{{variant_id}}"] eq_refl));
      reflexivity.
Defined.

(* ------------------------------------------------------------------ *)
(** ** Tokens *)

Lemma isGoogleOAuthToken_fields (token : JsVal) :
  isGoogleOAuthToken token = true ->
  is_string (get token "access_token") = true
  /\ is_string (get token "refresh_token") = true
  /\ is_string (get token "token_type") = true
  /\ typeof_number (get token "expiry_date") = true.
Proof.
  unfold isGoogleOAuthToken.
  destruct (negb (truthy token) || negb (typeof_object token)); [discriminate|].
  cbv zeta. intros H.
  apply andb_prop in H as [H He]. apply andb_prop in H as [H Ht].
  apply andb_prop in H as [Ha Hr]. auto.
Qed.

Lemma isGoogleOAuthToken_normalised (token : JsVal) :
  isGoogleOAuthToken token = true -> isGoogleOAuthToken (normalised token) = true.
Proof.
  intros H. destruct (isGoogleOAuthToken_fields _ H) as (Ha & Hr & Ht & He).
  unfold isGoogleOAuthToken, normalised. cbn.
  now rewrite Ha, Hr, Ht, He.
Qed.

Lemma normalised_twice (token : JsVal) : normalised (normalised token) = normalised token.
Proof. reflexivity. Qed.

Lemma expired_normalised (now : number) (token : JsVal) :
  GoogleOAuthTokenHasExpired now (normalised token)
  = GoogleOAuthTokenHasExpired now token.
Proof. reflexivity. Qed.

(** X15.  A token that is not about to expire is returned without any
    call to the refresh: the result is the same whatever the refresh
    does.  The token returned holds the four fields of a token and nothing
    else, is a token again, and is returned as it is when it is passed
    again. *)
Theorem fresh_token_normalised (now : number) (token : JsVal)
    (refresh : JsVal -> Outcome JsVal) :
  isGoogleOAuthToken token = true ->
  GoogleOAuthTokenHasExpired now token = false ->
  getGoogleToken now token refresh = Resolved (token_result (normalised token) false)
  /\ isGoogleOAuthToken (normalised token) = true
  /\ forall refresh',
       getGoogleToken now (normalised token) refresh'
       = Resolved (token_result (normalised token) false).
Proof.
  intros Htoken Hfresh. repeat split.
  - unfold getGoogleToken. now rewrite Htoken, Hfresh.
  - now apply isGoogleOAuthToken_normalised.
  - intros refresh'. unfold getGoogleToken.
    rewrite (isGoogleOAuthToken_normalised _ Htoken), expired_normalised, Hfresh.
    reflexivity.
Qed.

Lemma fresh_token_normalised_witness :
  getGoogleToken (Dec 1000000 0) TokenSample.stored TokenSample.unreachable
  = Resolved
      (token_result
         (JObj [("access_token", JStr "access"); ("refresh_token", JStr "refresh");
                ("token_type", JStr "Bearer"); ("expiry_date", JNum (Dec 2000000 0))])
         false).
Proof.
  exact (proj1 (fresh_token_normalised (Dec 1000000 0) TokenSample.stored
                  TokenSample.unreachable eq_refl eq_refl)).
Defined.

Lemma expired_integer (now expiry : Z) (token : JsVal) :
  get token "expiry_date" = JNum (Dec expiry 0) ->
  GoogleOAuthTokenHasExpired (Dec now 0) token = (expiry - now <=? 900000)%Z.
Proof.
  intros H. unfold GoogleOAuthTokenHasExpired. rewrite H.
  cbn [to_number num_sub num_mul num_le Z.min Z.compare Z.sub Z.opp Z.add Z.mul
         Pos.mul Pos.add Pos.succ Z.pow Z.pow_pos Pos.iter].
  f_equal; lia.
Qed.

(** X16.  With times in whole milliseconds, a token is refreshed exactly
    when it expires within 900000 ms (15 minutes) of the clock, the bound
    included; otherwise it is returned as it is.  A rejected refresh is
    reported as an error whose message starts with [Failed to refresh
    token: ].  A token whose expiry is [NaN] is never refreshed. *)
Theorem refresh_window (token : JsVal) (refresh : JsVal -> Outcome JsVal) :
  isGoogleOAuthToken token = true ->
  (forall now expiry : Z,
     get token "expiry_date" = JNum (Dec expiry 0) ->
     getGoogleToken (Dec now 0) token refresh
     = if (expiry - now <=? 900000)%Z
       then refresh_failure (refresh (get token "refresh_token"))
       else Resolved (token_result (normalised token) false))
  /\ (forall now : number,
        get token "expiry_date" = JNum NaN ->
        getGoogleToken now token refresh
        = Resolved (token_result (normalised token) false)).
Proof.
  intros Htoken. split.
  - intros now expiry He. unfold getGoogleToken.
    rewrite Htoken, (expired_integer _ _ _ He). cbn [negb].
    destruct (expiry - now <=? 900000)%Z; [|reflexivity].
    cbn [negb]. now destruct (refresh _).
  - intros now He. unfold getGoogleToken, GoogleOAuthTokenHasExpired.
    unfold token_result, normalised. rewrite Htoken, He. now destruct now.
Qed.

Lemma refresh_window_witness :
  getGoogleToken (Dec 1100000 0) TokenSample.stored TokenSample.unreachable
  = RejectedError "Failed to refresh token: Unknown error"
  /\ getGoogleToken (Dec 1099999 0) TokenSample.stored TokenSample.unreachable
     = Resolved (token_result (normalised TokenSample.stored) false)
  /\ getGoogleToken (Dec 5000000 0) TokenSample.undated TokenSample.unreachable
     = Resolved (token_result (normalised TokenSample.undated) false).
Proof.
  split; [|split].
  - exact (proj1 (refresh_window TokenSample.stored TokenSample.unreachable eq_refl)
             1100000%Z 2000000%Z eq_refl).
  - exact (proj1 (refresh_window TokenSample.stored TokenSample.unreachable eq_refl)
             1099999%Z 2000000%Z eq_refl).
  - exact (proj2 (refresh_window TokenSample.undated TokenSample.unreachable eq_refl)
             (Dec 5000000 0) eq_refl).
Defined.

(** X17.  A token that is about to expire, refreshed through the OAuth
    service.  When the library answers with an access token, the result
    is marked as refreshed and holds that access token, the new refresh
    token or, when the library gave none, the old one, the new token type
    or [Bearer], and the new expiry as it is, without a check that the
    result is a token.  Every failure is an error whose message starts with
    [Failed to refresh token: ]: no access token in the answer, or the
    rejection of the library. *)
Theorem refresh_through_service (now : number) (token : JsVal)
    (library : JsVal -> Outcome (list (string * JsVal))) :
  isGoogleOAuthToken token = true ->
  GoogleOAuthTokenHasExpired now token = true ->
  getGoogleToken now token (refreshAccessToken library)
  = match library (get token "refresh_token") with
    | Resolved properties =>
        let credentials := JObj properties in
        if truthy (get credentials "access_token") then
          Resolved
            (token_result
               (JObj [("access_token", get credentials "access_token");
                      ("refresh_token",
                       js_or (get credentials "refresh_token")
                         (get token "refresh_token"));
                      ("token_type",
                       js_or (get credentials "token_type") (JStr "Bearer"));
                      ("expiry_date", get credentials "expiry_date")])
               true)
        else RejectedError "Failed to refresh token: Failed to refresh access token"
    | RejectedError message => RejectedError ("Failed to refresh token: " ++ message)
    | RejectedOther => RejectedError "Failed to refresh token: Unknown error"
    end.
Proof.
  intros Htoken Hexpired. unfold getGoogleToken, refreshAccessToken.
  rewrite Htoken, Hexpired. cbn [negb].
  destruct (library _) as [properties| |]; try reflexivity.
  cbv zeta. now destruct (truthy (get (JObj properties) "access_token")).
Qed.

Lemma refresh_through_service_witness :
  getGoogleToken (Dec 1500000 0) TokenSample.stored
    (refreshAccessToken TokenSample.library)
  = Resolved
      (token_result
         (JObj [("access_token", JStr "renewed"); ("refresh_token", JStr "refresh");
                ("token_type", JStr "Bearer"); ("expiry_date", JNum (Dec 9000000 0))])
         true).
Proof.
  exact (refresh_through_service (Dec 1500000 0) TokenSample.stored TokenSample.library
           eq_refl eq_refl).
Defined.

(* ------------------------------------------------------------------ *)
(** ** The value of the sale price, and of the identifiers *)




Lemma identifier_value_filled input (k : string) (segments : list segment) :
  segmented segments = true ->
  override input "product_details" k = JStr (render segments) ->
  truthy (JStr (render segments)) = true ->
  plain_values (identifier_placeholders input) segments = true ->
  identifier_value k (variant input) (feedProductVariant input)
  = Some (render (fill_all (identifier_placeholders input) segments)).
Proof.
  intros Hs Ht Hne Hv. unfold identifier_value. cbv zeta.
  unfold override in Ht. rewrite Ht, Hne.
  unfold replaceTemplateVariables. cbn [as_string]. rewrite bind_ok.
  change (replace (replace (replace (replace (render segments) "{{barcode}}"
                                       (maybe_or_else (variant_barcode (variant input))
                                          EmptyString))
                              "{{sku}}"
                              (maybe_or_else (variant_sku (variant input)) EmptyString))
                     "{{product_id}}" (fpv_product_id (feedProductVariant input)))
            "{{variant_id}}" (fpv_variant_id (feedProductVariant input)))
    with (fold_left (fun t p => replace t (fst p) (snd p))
            (identifier_placeholders input) (render segments)).
  rewrite replace_chain;
    [reflexivity|known_placeholders|distinct_placeholders|exact Hs|exact Hv].
Qed.

(** X19.  The value of the identifiers.  When the identifier is declared
    to exist and the feed asks for GTINs, [gtins] is the one-element list
    of the [gtin] template with [{{barcode}}], [{{sku}}], [{{product_id}}]
    and [{{variant_id}}] filled, provided that text is not blank; when the
    feed asks for the MPN, [mpn] is the [mpn] template filled in the same
    way. *)
Theorem identifier_templates_filled (now : string)
    (input input' : GoogleMerchantProductTransformInput) (payload : JsVal) :
  transform now input = Ok (payload, input') ->
  truthy (override input "product_details" "product_identifier") = true ->
  forall segments,
    segmented segments = true ->
    truthy (JStr (render segments)) = true ->
    plain_values (identifier_placeholders input) segments = true ->
    let filled := render (fill_all (identifier_placeholders input) segments) in
    String.eqb (trim filled) EmptyString = false ->
    (setting ps_product_identifier (feed input) = Some "gtin" ->
     override input "product_details" "gtin" = JStr (render segments) ->
     attribute payload "gtins" = Some (JArr [JStr filled]))
    /\ (setting ps_product_identifier (feed input) = Some "mpn" ->
        override input "product_details" "mpn" = JStr (render segments) ->
        attribute payload "mpn" = Some (JStr filled)).
Proof.
  intros H Hexists segments Hs Hne Hv filled Hfilled. subst filled. run_transform H.
  apply getGtinsMpn_result in E2.
  rewrite getIdentifierExists_spec in E2.
  unfold override in Hexists. unfold js_or in E2. rewrite !Hexists in E2.
  unfold identifier_type_is, PRODUCT_IDENTIFIER_TYPES.GTIN,
    PRODUCT_IDENTIFIER_TYPES.MPN in E2.
  assert (Hf : truthy (JStr (render (fill_all (identifier_placeholders input) segments)))
               = true).
  { cbn [truthy].
    match goal with
    | |- negb (String.eqb ?x _) = true =>
        destruct (String.eqb x EmptyString) eqn:Ee; [|reflexivity]
    end.
    apply String.eqb_eq in Ee. rewrite Ee in Hfilled. discriminate Hfilled. }
  split; intros Hty Ht; rewrite Hty in E2; cbn [String.eqb Ascii.eqb Bool.eqb] in E2;
    rewrite (identifier_value_filled input _ segments Hs Ht Hne Hv) in E2;
    rewrite valid_template_trim, Hfilled in E2;
    cbn [negb of_option] in E2; subst a2;
    read_attribute Hpayload; frame.
  - rewrite own_set_gtins_mpn_gtins by (now autorewrite with objects). reflexivity.
  - rewrite own_set_gtins_mpn_mpn by (now autorewrite with objects).
    cbn [get lookup String.eqb Ascii.eqb Bool.eqb].
    rewrite Hf. reflexivity.
Qed.

Lemma identifier_templates_filled_witness :
  exists payload input',
    transform Sample.now Sample.input = Ok (payload, input')
    /\ attribute payload "gtins" = Some (JArr [JStr "0123"]).
Proof.
  do 2 eexists. split; [vm_compute; reflexivity|].
  exact (proj1 (identifier_templates_filled Sample.now Sample.input _ _
                  ltac:(vm_compute; reflexivity) eq_refl
                  [Hole "{{barcode}}"] eq_refl eq_refl eq_refl eq_refl)
           eq_refl eq_refl).
Defined.

(* ------------------------------------------------------------------ *)
(** ** The attributes of a payload *)

(** Rewrites the tests [k =? name] that are known to fail. *)
Ltac other_keys :=
  cbn [existsb];
  repeat match goal with
         | H : String.eqb ?k ?x = false |- context [String.eqb ?k ?x] => rewrite H
         end;
  reflexivity.

(** Peels every block when the attribute read is none of the known ones. *)
Ltac frame_unknown :=
  repeat first
    [ rewrite own_set_if_other by assumption
    | rewrite own_set_parsed_price_other by assumption
    | rewrite own_set_gtins_mpn_other by other_keys
    | rewrite own_set_sale_price_other by other_keys
    | rewrite own_set_custom_labels_other by other_keys
    | rewrite own_set_apparel_other by other_keys
    | rewrite own_set_additional_details_other by other_keys
    | rewrite own_set_shipping_other by other_keys ].

Lemma unknown_attribute_absent now input input' payload (k : string) :
  transform now input = Ok (payload, input') ->
  existsb (String.eqb k) attribute_names = false ->
  attribute payload k = None.
Proof.
  intros H Hk. run_transform H. unfold attribute_names in Hk. split_keys Hk.
  read_attribute Hpayload. frame_unknown.
  cbn [own_property lookup]. other_keys.
Qed.

(** X20.  The attributes of a payload are among forty-nine names: a
    payload holds no attribute under any other name, whatever the field
    mapping holds.  The seven attributes [itemGroupId], [title],
    [description], [identifierExists], [price], [link] and [canonicalLink]
    are in every payload. *)
Theorem attribute_names_closed (now : string)
    (input input' : GoogleMerchantProductTransformInput) (payload : JsVal) :
  transform now input = Ok (payload, input') ->
  (forall k, present (attribute payload k) = true -> In k attribute_names)
  /\ (forall k, In k required_attributes -> present (attribute payload k) = true).
Proof.
  intros H. split.
  - intros k Hk.
    destruct (existsb (String.eqb k) attribute_names) eqn:E.
    + now apply existsb_In.
    + rewrite (unknown_attribute_absent _ _ _ _ k H E) in Hk. discriminate Hk.
  - intros k Hk. run_transform H. cbn [required_attributes In] in Hk.
    repeat (destruct Hk as [<-|Hk]); try contradiction;
      read_attribute Hpayload; frame; try reflexivity.
    + rewrite own_set_if_same by (now autorewrite with objects).
      destruct (truthy (getPrice _ _)); [reflexivity|]. now frame.
    + rewrite own_set_if_same by (now autorewrite with objects).
      unfold getLink. now rewrite truthy_https.
    + rewrite own_set_if_same by (now autorewrite with objects).
      unfold getCanonicalLink. now rewrite truthy_https.
Qed.

Lemma attribute_names_closed_witness :
  exists payload input',
    transform Sample.now Sample.input = Ok (payload, input')
    /\ present (attribute payload "price") = true
    /\ (present (attribute payload "product_details") = true -> False).
Proof.
  do 2 eexists. split; [vm_compute; reflexivity|].
  destruct (attribute_names_closed Sample.now Sample.input _ _
              ltac:(vm_compute; reflexivity)) as [Hclosed Hrequired].
  split.
  - apply Hrequired. cbn. tauto.
  - intros Hp. apply Hclosed in Hp. cbn in Hp.
    repeat (destruct Hp as [Hp|Hp]; [discriminate Hp|]). exact Hp.
Defined.

(* ------------------------------------------------------------------ *)
(** ** The shape of the tracking token *)

Lemma base64_char_in (n : nat) : is_base64_char (base64_char n) = true.
Proof.
  do 64 (destruct n as [|n]; [reflexivity|]). reflexivity.
Qed.

Lemma base64_shape (bytes : list nat) :
  all_chars is_base64_char (base64 bytes) = true
  /\ (String.length (base64 bytes) mod 4 = 0)%nat.
Proof.
  assert (H : forall n bytes, (List.length bytes <= n)%nat ->
            all_chars is_base64_char (base64 bytes) = true
            /\ exists q, String.length (base64 bytes) = (4 * q)%nat).
  { clear bytes. induction n as [|n IH]; intros bytes Hn.
    - destruct bytes; [|cbn in Hn; lia]. split; [reflexivity|now exists 0%nat].
    - destruct bytes as [|a [|b [|c rest]]].
      + split; [reflexivity|now exists 0%nat].
      + cbn [base64 all_chars]. rewrite !base64_char_in.
        split; [reflexivity|now exists 1%nat].
      + cbn [base64 all_chars]. rewrite !base64_char_in.
        split; [reflexivity|now exists 1%nat].
      + destruct (IH rest) as [Hc (q & Hq)]; [cbn in Hn; lia|].
        cbn [base64 all_chars String.length]. rewrite !base64_char_in, Hc, Hq.
        split; [reflexivity|exists (S q); lia]. }
  destruct (H (List.length bytes) bytes (le_n _)) as [Hc (q & Hq)].
  split; [exact Hc|]. rewrite Hq, Nat.mul_comm. apply Nat.Div0.mod_mul.
Qed.

Lemma all_chars_excludes (p : ascii -> bool) (c : ascii) (s : string) :
  all_chars p s = true -> p c = false -> includes_char c s = false.
Proof.
  intros Hs Hc. induction s as [|d s IH]; [reflexivity|].
  cbn [all_chars includes_char] in *. apply andb_prop in Hs as [Hd Hs].
  rewrite (IH Hs), orb_false_r.
  destruct (Ascii.eqb c d) eqn:E; [|reflexivity].
  apply Ascii.eqb_eq in E. subst. congruence.
Qed.

(** X21.  The [fdclid] token has a length that is a multiple of four and
    is made of letters, digits, [+], [/] and [=] only.  It holds no [?],
    [&] or [#], so it cannot be taken for another parameter of the link. *)
Theorem tracking_token_shape (feedId shopId createdAt : string) :
  let token := encryptToString feedId shopId createdAt in
  all_chars is_base64_char token = true
  /\ (String.length token mod 4 = 0)%nat
  /\ includes_char "?" token = false
  /\ includes_char "&" token = false
  /\ includes_char "#" token = false.
Proof.
  intros token. unfold token, encryptToString.
  destruct (base64_shape (utf8_bytes
              ("{" ++ json_string "feedId" ++ ":" ++ json_string feedId ++ ","
                ++ json_string "shopId" ++ ":" ++ json_string shopId ++ ","
                ++ json_string "createdAt" ++ ":" ++ json_string createdAt ++ "}")))
    as [Hc Hl].
  repeat split; try assumption;
    now apply (all_chars_excludes is_base64_char).
Qed.

(* ------------------------------------------------------------------ *)
(** ** Product names *)

Lemma find_first_skip_char (c : ascii) (pat pre s : string) :
  includes_char c pre = false ->
  find_first (String c pat) (pre ++ s)
  = match find_first (String c pat) s with
    | Some (b, a) => Some (pre ++ b, a)
    | None => None
    end.
Proof.
  induction pre as [|d pre IH]; intros H.
  - cbn [append]. now destruct (find_first _ s) as [[b a]|].
  - cbn [includes_char] in H. apply orb_false_iff in H as [Hd Hpre].
    cbn [append]. rewrite find_first_cons.
    + rewrite (IH Hpre). now destruct (find_first _ s) as [[b a]|].
    + cbn [String.prefix]. destruct (ascii_dec c d) as [E|E]; [|reflexivity].
      rewrite E, Ascii.eqb_refl in Hd. discriminate Hd.
Qed.

Lemma append_empty (s : string) : s ++ EmptyString = s.
Proof. induction s as [|c s IH]; cbn; [reflexivity|now rewrite IH]. Qed.

Lemma find_first_absent (c : ascii) (pat s : string) :
  includes_char c s = false -> find_first (String c pat) s = None.
Proof.
  intros H. rewrite <- (append_empty s), find_first_skip_char by exact H.
  reflexivity.
Qed.

Lemma find_first_length (sep s b a : string) :
  find_first sep s = Some (b, a) ->
  (String.length a + String.length sep <= String.length s)%nat
  \/ (sep = EmptyString).
Proof.
  revert b a. induction s as [|c s IH]; intros b a H; cbn [find_first] in H.
  - destruct sep as [|d sep]; [now right|]. discriminate H.
  - destruct (String.prefix sep (String c s)) eqn:Ep.
    + injection H as <- <-. left. clear IH.
      revert c s Ep. induction sep as [|d sep IHs]; intros c s Ep; [cbn; lia|].
      cbn [String.prefix] in Ep. destruct (ascii_dec d c); [|discriminate Ep].
      cbn [String.length drop]. destruct s as [|c' s].
      * destruct sep; [cbn; lia|discriminate Ep].
      * specialize (IHs c' s Ep). cbn [String.length] in *. lia.
    + destruct (find_first sep s) as [[b' a']|] eqn:Ef; [|discriminate H].
      injection H as <- <-. destruct (IH _ _ eq_refl) as [Hl| ->]; [|now right].
      left. cbn [String.length]. lia.
Qed.

(** The length of the text is fuel enough for [split]. *)
Lemma split_fuel_enough (c : ascii) (sep : string) (fuel : nat) (s : string) :
  (String.length s <= fuel)%nat ->
  split_fuel fuel (String c sep) s = split (String c sep) s.
Proof.
  unfold split. remember (String.length s) as n eqn:Hn.
  assert (Hle : (String.length s <= n)%nat) by lia. clear Hn.
  revert n s Hle. induction fuel as [|fuel IH]; intros n s Hle Hn.
  - assert (n = 0%nat) by lia. subst n. reflexivity.
  - destruct n as [|n].
    + destruct s; [reflexivity|cbn in Hle; lia].
    + cbn [split_fuel].
      destruct (find_first (String c sep) s) as [[b a]|] eqn:Ef; [|reflexivity].
      f_equal.
      destruct (find_first_length _ _ _ _ Ef) as [Hl|Hl]; [|discriminate Hl].
      cbn [String.length] in Hl.
      rewrite (IH (String.length a) a (le_n _)) by lia.
      clear IH. symmetry.
      assert (Hgen : forall m k t, (String.length t <= m)%nat ->
                (String.length t <= k)%nat ->
                split_fuel m (String c sep) t = split_fuel k (String c sep) t).
      { clear. induction m as [|m IHm]; intros k t Hm Hk.
        - destruct t; [|cbn in Hm; lia]. now destruct k.
        - destruct k as [|k].
          + destruct t; [|cbn in Hk; lia]. reflexivity.
          + cbn [split_fuel].
            destruct (find_first (String c sep) t) as [[b a]|] eqn:Ef; [|reflexivity].
            destruct (find_first_length _ _ _ _ Ef) as [Hl|Hl]; [|discriminate Hl].
            cbn [String.length] in Hl. f_equal. apply IHm; lia. }
      apply Hgen; lia.
Qed.

Lemma split_fuel_absent (fuel : nat) (sep s : string) :
  find_first sep s = None -> split_fuel fuel sep s = [s].
Proof. intros H. destruct fuel; [reflexivity|]. cbn. now rewrite H. Qed.

Lemma digits_no_slash (s : string) :
  all_chars is_digit s = true -> includes_char "/" s = false.
Proof. intros H. now apply (all_chars_excludes is_digit). Qed.

(** The name of a product input, searched for [/productInputs/]. *)
Lemma find_first_product_inputs (accountId id : string) :
  all_chars is_digit accountId = true ->
  find_first "/productInputs/" ("accounts/" ++ accountId ++ "/productInputs/" ++ id)
  = Some ("accounts/" ++ accountId, id).
Proof.
  intros Hd.
  change ("accounts/" ++ accountId ++ "/productInputs/" ++ id)
    with ("accounts" ++ String "/" (accountId ++ "/productInputs/" ++ id)).
  rewrite find_first_skip_char by reflexivity.
  assert (Hprefix : String.prefix "/productInputs/"
                      (String "/" (accountId ++ "/productInputs/" ++ id)) = false).
  { cbn [String.prefix]. destruct (ascii_dec "/" "/"); [|contradiction].
    destruct accountId as [|d rest]; [reflexivity|].
    cbn [append all_chars] in *. apply andb_prop in Hd as [Hd _].
    cbn [String.prefix].
    destruct (ascii_dec "p" d) as [<-|]; [discriminate Hd|reflexivity]. }
  rewrite find_first_cons by exact Hprefix.
  rewrite find_first_skip_char by (now apply digits_no_slash).
  change ("/productInputs/" ++ id) with (String "/" "productInputs/" ++ id).
  rewrite find_first_here. cbn [append].
  now rewrite append_empty.
Qed.

Lemma productInputId_round_trip (accountId channel contentLanguage feedLabel offerId : string) :
  all_chars is_digit accountId = true ->
  includes_char "/" (buildProductId channel contentLanguage feedLabel offerId) = false ->
  productInputId
    (buildProductInputName accountId channel contentLanguage feedLabel offerId)
  = buildProductId channel contentLanguage feedLabel offerId
  /\ productInputId (buildProductId channel contentLanguage feedLabel offerId)
     = buildProductId channel contentLanguage feedLabel offerId.
Proof.
  intros Hd Hid.
  set (id := buildProductId channel contentLanguage feedLabel offerId) in *.
  assert (Hne : String.eqb id EmptyString = false).
  { unfold id, buildProductId. apply String.eqb_neq, append_not_empty_r.
    discriminate. }
  pose proof (find_first_absent "/" "productInputs/" id Hid) as Habsent.
  split.
  - change (buildProductInputName accountId channel contentLanguage feedLabel offerId)
      with ("accounts/" ++ accountId ++ "/productInputs/" ++ id).
    pose proof (find_first_product_inputs accountId id Hd) as Hfind.
    set (name := "accounts/" ++ accountId ++ "/productInputs/" ++ id) in *.
    unfold productInputId, includes, split. rewrite Hfind.
    destruct (String.length name) as [|fuel] eqn:El; [discriminate El|].
    cbn [split_fuel]. rewrite Hfind, (split_fuel_absent _ _ _ Habsent).
    cbn [nth_error]. now rewrite Hne.
  - unfold productInputId, includes. now rewrite Habsent.
Qed.

(** X23.  The resource name and the product services.  The [name] of a
    payload is the one that [buildProductInputName] builds from the
    account id, the channel [ONLINE], the language, the feed label and the
    offer id of that payload.  For an account id made of digits and
    parts without [/], [patchProductInput] takes from that name the id
    [ONLINE~language~label~offerId], the one [buildProductId] builds, and
    this id passed alone is kept as it is. *)
Theorem product_input_name_round_trip (now : string)
    (input input' : GoogleMerchantProductTransformInput) (payload : JsVal) :
  transform now input = Ok (payload, input') ->
  let account := getAccountId (feed input) in
  let language := toLowerCase (feed_language (feed input)) in
  let label := toUpperCase (feed_market (feed input)) in
  let offer := getProductId (feed input) (feedProductVariant input) in
  truthy (JStr account) = true ->
  own_property payload "name"
  = Some (JStr (buildProductInputName account "ONLINE" language label offer))
  /\ (all_chars is_digit account = true ->
      includes_char "/" (language ++ label ++ offer) = false ->
      productInputId (buildProductInputName account "ONLINE" language label offer)
      = buildProductId "ONLINE" language label offer
      /\ productInputId (buildProductId "ONLINE" language label offer)
         = buildProductId "ONLINE" language label offer).
Proof.
  intros H account language label offer Haccount. run_transform H.
  rewrite !getProductId_with_field_mapping in Hpayload.
  split.
  - rewrite <- Hpayload. rewrite own_set_if_same by reflexivity.
    fold account. now rewrite Haccount.
  - intros Hd Hparts. apply productInputId_round_trip; [exact Hd|].
    unfold buildProductId. rewrite !includes_char_app in *.
    apply orb_false_iff in Hparts as [Hl Hparts].
    apply orb_false_iff in Hparts as [Hf Ho].
    now rewrite Hl, Hf, Ho.
Qed.

Lemma product_input_name_round_trip_witness :
  exists payload input',
    transform Sample.now Sample.plain_input = Ok (payload, input')
    /\ own_property payload "name"
       = Some (JStr "accounts/123/productInputs/ONLINE~en~US~s1_p1_v1")
    /\ productInputId "accounts/123/productInputs/ONLINE~en~US~s1_p1_v1"
       = "ONLINE~en~US~s1_p1_v1".
Proof.
  do 2 eexists. split; [vm_compute; reflexivity|].
  destruct (product_input_name_round_trip Sample.now Sample.plain_input _ _
              ltac:(vm_compute; reflexivity) eq_refl) as [Hname Hid].
  split; [exact Hname|]. exact (proj1 (Hid eq_refl eq_refl)).
Defined.

(* ------------------------------------------------------------------ *)
(** ** When a run returns *)













